(** * kport release tooling: release.py and deb_publish.py

    A shallow embedding of the release orchestrator ([release.py]) and of the
    Debian packaging helper ([deb_publish.py]), with the properties their
    specification states about them.

    Python [str] values are sequences of Unicode code points; the regular
    expressions of the scripts are run by a small backtracking matcher that
    follows the semantics of Python's [re] module for the constructs the
    scripts use. *)

From stdpp Require Import base list gmap strings.
From Stdlib Require Import NArith ZArith Lia DecimalPos DecimalN.

Local Open Scope N_scope.

(** ** Python strings *)

(** A character is a code point, a string a sequence of them. *)
Abbreviation char := N (only parsing).
Abbreviation str := (list N) (only parsing).

(** An ASCII literal of the scripts, as a Python string. *)
Definition lit (x : string) : str :=
  List.map Ascii.N_of_ascii (String.list_ascii_of_string x).

(** [str.isspace] on one code point; [\s] of a [str] pattern is the same
    set. *)
Definition isspace (c : char) : bool :=
  ((9 <=? c) && (c <=? 13)) || ((28 <=? c) && (c <=? 32))
  || (c =? 133) || (c =? 160) || (c =? 5760)
  || ((8192 <=? c) && (c <=? 8202))
  || (c =? 8232) || (c =? 8233) || (c =? 8239) || (c =? 8287) || (c =? 12288).

Fixpoint dropwhile (p : char -> bool) (s : str) : str :=
  match s with
  | c :: s' => if p c then dropwhile p s' else s
  | [] => []
  end.

Definition lstrip (s : str) : str := dropwhile isspace s.
Definition rstrip (s : str) : str := rev (dropwhile isspace (rev s)).
(** [s.strip()] *)
Definition strip (s : str) : str := rstrip (lstrip s).

(** [sep.join(l)] *)
Fixpoint join (sep : str) (l : list str) : str :=
  match l with
  | [] => []
  | [x] => x
  | x :: l' => x ++ sep ++ join sep l'
  end.

(** [s.split(",")]: split on one separator character, empty fields kept. *)
Fixpoint split_on (sep : char) (s : str) : list str :=
  match s with
  | [] => [[]]
  | c :: s' =>
      if c =? sep then [] :: split_on sep s'
      else match split_on sep s' with
           | f :: fs => (c :: f) :: fs
           | [] => [[c]]
           end
  end.

(** ** Regular expressions

    The patterns of the scripts are sequences of one-character classes,
    greedy repetitions of such a class, one capture group, [\b] and [$]
    (under [re.MULTILINE]). *)

Inductive item :=
| One (p : char -> bool)     (* a literal or a class *)
| Star (p : char -> bool)    (* p*, greedy *)
| Plus (p : char -> bool)    (* p+, greedy *)
| Open                       (* ( of group 1 *)
| Close                      (* ) of group 1 *)
| WordB (w : char -> bool)   (* \b, for the word characters w *)
| EndLine.                   (* $ with re.MULTILINE *)

Definition pattern := list item.

(** The captured text is accumulated in reverse while the group is open. *)
Definition push (rec : bool) (c : char) (acc : str) : str :=
  if rec then c :: acc else acc.

Definition pushall (rec : bool) (a acc : str) : str :=
  if rec then rev a ++ acc else acc.

(** The character before the position reached after reading [a]. *)
Definition lastc (a : str) (prev : option char) : option char :=
  List.last (List.map Some a) prev.

Definition isword (w : char -> bool) (c : option char) : bool :=
  match c with Some x => w x | None => false end.

Definition at_eol (s : str) : bool :=
  match s with [] => true | c :: _ => c =? 10 end.

(** Greedy repetition: the longest run first, then shorter ones. *)
Fixpoint star (p : char -> bool) (k : option char -> str -> str -> option str)
    (rec : bool) (prev : option char) (s acc : str) : option str :=
  match s with
  | c :: s' =>
      if p c then
        match star p k rec (Some c) s' (push rec c acc) with
        | Some r => Some r
        | None => k prev s acc
        end
      else k prev s acc
  | [] => k prev s acc
  end.

(** [run pat rec prev s acc]: match [pat] at the current position, where
    [prev] is the character before it and [s] the text from it on; the
    result is the text of group 1. *)
Fixpoint run (pat : pattern) (rec : bool) (prev : option char) (s acc : str)
    : option str :=
  match pat with
  | [] => Some (rev acc)
  | One p :: rest =>
      match s with
      | c :: s' => if p c then run rest rec (Some c) s' (push rec c acc) else None
      | [] => None
      end
  | Star p :: rest => star p (run rest rec) rec prev s acc
  | Plus p :: rest =>
      match s with
      | c :: s' =>
          if p c then star p (run rest rec) rec (Some c) s' (push rec c acc)
          else None
      | [] => None
      end
  | Open :: rest => run rest true prev s []
  | Close :: rest => run rest false prev s acc
  | WordB w :: rest =>
      if xorb (isword w prev) (isword w (head s)) then run rest rec prev s acc
      else None
  | EndLine :: rest => if at_eol s then run rest rec prev s acc else None
  end.

(** [re.search]: the leftmost position where the pattern matches. *)
Fixpoint search_at (pat : pattern) (prev : option char) (s : str) : option str :=
  match run pat false prev s [] with
  | Some g => Some g
  | None =>
      match s with
      | [] => None
      | c :: s' => search_at pat (Some c) s'
      end
  end.

(** [m = re.search(pat, s)], then [m.group(1)]; [None] when [not m]. *)
Definition re_search (pat : pattern) (s : str) : option str :=
  search_at pat None s.

(** Classes. *)
Definition chr (x : string) : char :=
  match lit x with c :: _ => c | [] => 0 end.

Definition exact (c : char) : char -> bool := fun x => x =? c.

(** A pattern letter under [re.IGNORECASE]: both cases, and the code points
    whose case folding the [re] module equates with it. *)
Definition lower (c : char) : char :=
  if (65 <=? c) && (c <=? 90) then c + 32 else c.

Definition ci (c : char) : char -> bool := fun x =>
  (lower x =? lower c)
  || ((lower c =? 105) && ((x =? 304) || (x =? 305)))   (* i: U+0130 U+0131 *)
  || ((lower c =? 115) && (x =? 383))                    (* s: U+017F *)
  || ((lower c =? 107) && (x =? 8490)).                  (* k: U+212A *)

Definition lits (x : string) : pattern := List.map (fun c => One (exact c)) (lit x).
Definition lits_ci (x : string) : pattern := List.map (fun c => One (ci c)) (lit x).

(** ** The version assignment of setup.py *)

Definition isquote (c : char) : bool := (c =? 34) || (c =? 39).
Definition notquote (c : char) : bool := negb (isquote c).

(** What follows the keyword: optional blanks, [=], optional blanks, a
    quote of either kind, group 1 made of one or more characters that are not
    quotes, and a quote of either kind. *)
Definition assign_re : pattern :=
  [Star isspace; One (exact 61); Star isspace;
   One isquote; Open; Plus notquote; Close; One isquote].

(** release.py: the keyword [version] and what follows it. *)
Definition version_re : pattern := lits "version" ++ assign_re.

(** ** Processes, files and the operator: the world the scripts run in *)

(** [subprocess.CompletedProcess], with the output as text. *)
Record completed := Completed {
  returncode : Z;
  stdout : str;
  stderr : str
}.

Inductive exn :=
| SystemExit (code : Z)      (* sys.exit(code) *)
| FileNotFoundError          (* the command of a subprocess is not on PATH *)
| CalledProcessError         (* check_output of a command that exits non-zero *)
| EOFError                   (* input() at end of input *)
| ValueError.                (* int() of a string with too many digits *)

(** What the scripts print, as far as the properties below speak of it. *)
Inductive message :=
| HdrRelease | HdrPreflight | HdrCreatingTag | HdrBuildingPypi
| HdrBuildingDeb | HdrCreatingRelease | HdrComplete
| ErrNoVersion | ErrDirty | ErrTagExists (tag : str) | ErrFailed (description : str)
| ErrUnexpected
| OkClean | OkTagAvailable (tag : str) | OkDone (description : str)
| WarnDryRun | WarnDryRunTag (tag : str) | WarnDryRunPypi | WarnDryRunDeb
| WarnDryRunRelease (tag : str)
| Cancelled
| ErrNoPython | ErrNoPublishScript | ErrPypiBuild | ErrNoWheel | OkPypi
| ErrNoDebScript | WarnDebBuild | WarnNoDeb | OkDeb
| WarnNoGh (tag version notes : str) | WarnNoAssets | ErrRelease (tag : str)
| OkRelease (tag : str)
| SumPypiBuilt | SumDebBuilt | SumUploadHint | SumPublished (version : str).

(** What the scripts do to their surroundings. *)
Inductive event :=
| Spawn (argv : list str) (input : option str)  (* a subprocess is run *)
| Print (m : message)
| Mkdir (path : str)
| WriteText (path content : str)
| Chmod (path : str) (mode : N)
| CopyTree (src dst : str)
| Copy2 (src dst : str)
| RmTree (path : str).

(** The surroundings: a state [E] that the scripts observe through these
    functions and change through their events. *)
Record world (E : Type) := World {
  repo_root : str;                                   (* REPO_ROOT *)
  which : E -> str -> bool;                          (* shutil.which(name) is not None *)
  spawn : E -> list str -> option str -> completed;  (* the result of a subprocess *)
  file_exists : E -> str -> bool;                    (* Path.exists() *)
  read_text : E -> str -> str;                       (* Path.read_text() *)
  glob : E -> str -> str -> list str;                (* names in a directory with a suffix *)
  getenv : E -> str -> option str;                   (* os.environ.get *)
  now_rfc2822 : E -> str;                            (* strftime of datetime.now *)
  mkdtemp : E -> str -> str;                         (* a fresh directory for a prefix *)
  effect : E -> event -> E;                          (* the state after an event *)
  int_max_str_digits : nat                           (* sys.get_int_max_str_digits(), 0: no limit *)
}.
Arguments repo_root {E}. Arguments which {E}. Arguments spawn {E}.
Arguments file_exists {E}. Arguments read_text {E}. Arguments glob {E}.
Arguments getenv {E}. Arguments now_rfc2822 {E}. Arguments mkdtemp {E}.
Arguments effect {E}. Arguments int_max_str_digits {E}.

(** [a / b] of pathlib *)
Definition pjoin (a b : str) : str := a ++ lit "/" ++ b.

Inductive res (A : Type) :=
| Ret (a : A)
| Raise (e : exn).
Arguments Ret {A}. Arguments Raise {A}.

(** The state of a run: the surroundings, the lines the operator will type,
    and the events so far. *)
Record state (E : Type) := State {
  env : E;
  stdin : list str;
  trace : list event
}.
Arguments State {E}. Arguments env {E}. Arguments stdin {E}. Arguments trace {E}.

Definition M (E A : Type) := state E -> res A * state E.

Definition ret {E A} (a : A) : M E A := fun s => (Ret a, s).
Definition raise {E A} (e : exn) : M E A := fun s => (Raise e, s).
Definition bind {E A B} (m : M E A) (f : A -> M E B) : M E B := fun s =>
  match m s with
  | (Ret a, s') => f a s'
  | (Raise e, s') => (Raise e, s')
  end.
Definition observe {E A} (f : E -> A) : M E A := fun s => (Ret (f (env s)), s).

Notation "x <- m ;; k" := (bind m (fun x => k))
  (at level 20, m at level 99, k at level 200, only parsing).
Notation "m ;;; k" := (bind m (fun _ => k))
  (at level 100, k at level 200, right associativity, only parsing).

Section Scripts.
Context {E : Type} (w : world E).

(** An event happens: the surroundings change, the event is recorded. *)
Definition emit (ev : event) : M E unit := fun s =>
  (Ret tt, State (effect w (env s) ev) (stdin s) (trace s ++ [ev])).

(** Printing changes nothing in the surroundings. *)
Definition say (m : message) : M E unit := fun s =>
  (Ret tt, State (env s) (stdin s) (trace s ++ [Print m])).

(** [input(prompt)] *)
Definition input : M E str := fun s =>
  match stdin s with
  | l :: ls => (Ret l, State (env s) ls (trace s))
  | [] => (Raise EOFError, s)
  end.

(** [subprocess.run(cmd, ...)]: the command is looked up on PATH, run, and
    its result handed back whatever its exit code. *)
Definition subprocess_run (cmd : list str) (inp : option str) : M E completed :=
  fun s =>
    if which w (env s) (hd [] cmd) then
      let r := spawn w (env s) cmd inp in
      match emit (Spawn cmd inp) s with
      | (_, s') => (Ret r, s')
      end
    else (Raise FileNotFoundError, s).

(** [sys.exit(code)] *)
Definition sys_exit {A} (code : Z) : M E A := raise (SystemExit code).

(** [try: m except Exception: h]; [SystemExit] is not an [Exception]. *)
Definition try_except {A} (m : M E A) (h : M E A) : M E A := fun s =>
  match m s with
  | (Raise (SystemExit c), s') => (Raise (SystemExit c), s')
  | (Raise _, s') => h s'
  | r => r
  end.

(** *** release.py *)

Definition run_command (cmd : list str) (description : str) (check : bool)
    : M E completed :=
  result <- subprocess_run cmd None ;;
  (if check && negb (returncode result =? 0)%Z
   then say (ErrFailed description) ;;; sys_exit (returncode result)
   else ret tt) ;;;
  (if (returncode result =? 0)%Z then say (OkDone description) else ret tt) ;;;
  ret result.

Definition command_exists (name : str) : M E bool :=
  observe (fun e => which w e name).

Definition SETUP_PY : str := pjoin (repo_root w) (lit "setup.py").

Definition read_version_from_setup : M E (option str) :=
  ex <- observe (fun e => file_exists w e SETUP_PY) ;;
  if negb ex then ret None else
  text <- observe (fun e => read_text w e SETUP_PY) ;;
  match re_search version_re text with
  | None => ret None
  | Some g => ret (Some (strip g))
  end.

Definition check_git_status : M E bool :=
  result <- subprocess_run [lit "git"; lit "status"; lit "--porcelain"] None ;;
  ret (length (strip (stdout result)) =? 0)%nat.

Definition check_tag_exists (tag : str) : M E bool :=
  result <- subprocess_run [lit "git"; lit "tag"; lit "-l"; tag] None ;;
  ret (0 <? length (strip (stdout result)))%nat.

(** [s.lower()] on ASCII letters. The scripts compare the lowered replies
    with ASCII words only, and no other code point lowers to a letter of
    those words. *)
Definition py_lower (s : str) : str := List.map lower s.

Definition str_eqb (a b : str) : bool := bool_decide (a = b).

(** [x in (a, b, ...)] *)
Definition str_in (x : str) (l : list str) : bool := existsb (str_eqb x) l.

Definition default_notes (version : str) : str :=
  lit "Release " ++ version ++ [10; 10]
  ++ lit "Changes in this release:" ++ [10]
  ++ lit "- Bug fixes and improvements" ++ [10]
  ++ lit "- See commit history for details" ++ [10; 10]
  ++ lit "Install:" ++ [10]
  ++ lit "  pip install kport==" ++ version ++ [10].

(** The [while True: lines.append(input())] loop that [EOFError] ends. *)
Definition input_lines : M E (list str) := fun s =>
  (Ret (stdin s), State (env s) [] (trace s)).

Definition get_release_notes (version : str) : M E str :=
  reply <- input ;;
  let use_default := py_lower (strip reply) in
  if str_in use_default [lit ""; lit "y"; lit "yes"] then ret (default_notes version)
  else
    lines <- input_lines ;;
    let text := join [10] lines in
    ret (match text with [] => default_notes version | _ => text end).

Definition build_pypi_packages (dry_run : bool) : M E bool :=
  if dry_run then say WarnDryRunPypi ;;; ret true else
  say HdrBuildingPypi ;;;
  py <- command_exists (lit "python3") ;;
  if negb py then say ErrNoPython ;;; ret false else
  let publish_script := pjoin (repo_root w) (lit "publish.py") in
  ex <- observe (fun e => file_exists w e publish_script) ;;
  if negb ex then say ErrNoPublishScript ;;; ret false else
  result <- subprocess_run [lit "python3"; publish_script] (Some (lit "1" ++ [10])) ;;
  if negb (returncode result =? 0)%Z then say ErrPypiBuild ;;; ret false else
  let dist_dir := pjoin (repo_root w) (lit "dist") in
  dex <- observe (fun e => file_exists w e dist_dir) ;;
  whl <- observe (fun e => glob w e dist_dir (lit ".whl")) ;;
  if negb dex || match whl with [] => true | _ => false end
  then say ErrNoWheel ;;; ret false
  else say OkPypi ;;; ret true.

Definition build_debian_package (dry_run : bool) : M E bool :=
  if dry_run then say WarnDryRunDeb ;;; ret true else
  say HdrBuildingDeb ;;;
  let deb_script := pjoin (repo_root w) (lit "deb_publish.py") in
  ex <- observe (fun e => file_exists w e deb_script) ;;
  if negb ex then say ErrNoDebScript ;;; ret false else
  result <- subprocess_run [lit "python3"; deb_script] (Some (lit "3" ++ [10])) ;;
  if negb (returncode result =? 0)%Z then say WarnDebBuild ;;; ret false else
  let deb_dir := pjoin (pjoin (repo_root w) (lit "dist")) (lit "deb") in
  dex <- observe (fun e => file_exists w e deb_dir) ;;
  debs <- observe (fun e => glob w e deb_dir (lit ".deb")) ;;
  if negb dex || match debs with [] => true | _ => false end
  then say WarnNoDeb ;;; ret false
  else say OkDeb ;;; ret true.

Definition gh_release_cmd (version tag notes : str) (assets : list str)
    : list str :=
  [lit "gh"; lit "release"; lit "create"; tag;
   lit "--title"; lit "kport " ++ version; lit "--notes"; notes] ++ assets.

Definition create_github_release (version tag notes : str) (dry_run : bool)
    : M E bool :=
  gh <- command_exists (lit "gh") ;;
  if negb gh then say (WarnNoGh tag version notes) ;;; ret false else
  if dry_run then say (WarnDryRunRelease tag) ;;; ret true else
  say HdrCreatingRelease ;;;
  let dist_dir := pjoin (repo_root w) (lit "dist") in
  whl <- observe (fun e => glob w e dist_dir (lit ".whl")) ;;
  let deb_dir := pjoin dist_dir (lit "deb") in
  dex <- observe (fun e => file_exists w e deb_dir) ;;
  debs <- observe (fun e => glob w e deb_dir (lit ".deb")) ;;
  let assets :=
    List.map (pjoin dist_dir) whl
    ++ (if dex then List.map (pjoin deb_dir) debs else []) in
  (match assets with [] => say WarnNoAssets | _ => ret tt end) ;;;
  result <- run_command (gh_release_cmd version tag notes assets)
              (lit "Create GitHub release " ++ tag) false ;;
  if negb (returncode result =? 0)%Z then say (ErrRelease tag) ;;; ret false
  else say (OkRelease tag) ;;; ret true.

(** The parsed command line. *)
Record args := Args {
  arg_version : option str;   (* --version *)
  no_pypi : bool;
  no_deb : bool;
  no_github : bool;
  dry_run : bool
}.

(** [a or b] on an optional string: [None] and the empty string are false. *)
Definition or_else (a : option str) (b : str) : str :=
  match a with
  | Some (c :: a') => c :: a'
  | _ => b
  end.

Definition tag_of (version : str) : str := lit "v" ++ version.

Definition main (a : args) : M E unit :=
  say HdrRelease ;;;
  (* Step 1: read the version from setup.py *)
  cur <- read_version_from_setup ;;
  match cur with
  | None | Some [] => say ErrNoVersion ;;; sys_exit 1
  | Some current_version =>
  let version := or_else (arg_version a) current_version in
  let tag := tag_of version in
  (if dry_run a then say WarnDryRun else ret tt) ;;;
  (* Step 2: validate the git state *)
  say HdrPreflight ;;;
  clean <- check_git_status ;;
  if negb clean then say ErrDirty ;;; sys_exit 1 else
  say OkClean ;;;
  exists_ <- check_tag_exists tag ;;
  if exists_ then say (ErrTagExists tag) ;;; sys_exit 1 else
  say (OkTagAvailable tag) ;;;
  (* Step 3: confirm the release *)
  (if negb (dry_run a) then
     reply <- input ;;
     let confirm := py_lower (strip reply) in
     if negb (str_in confirm [lit "y"; lit "yes"])
     then say Cancelled ;;; sys_exit 0
     else ret tt
   else ret tt) ;;;
  (* Step 4: create and push the git tag *)
  say HdrCreatingTag ;;;
  (if negb (dry_run a) then
     run_command [lit "git"; lit "tag"; lit "-a"; tag; lit "-m";
                  lit "Release " ++ version]
                 (lit "Create tag " ++ tag) true ;;;
     run_command [lit "git"; lit "push"; lit "origin"; lit "main"]
                 (lit "Push commits") true ;;;
     run_command [lit "git"; lit "push"; lit "origin"; lit "--tags"]
                 (lit "Push tags") true ;;;
     ret tt
   else say (WarnDryRunTag tag)) ;;;
  (* Step 5: build the packages *)
  pypi_success <- (if negb (no_pypi a) then build_pypi_packages (dry_run a)
                   else ret true) ;;
  deb_success <- (if negb (no_deb a) then build_debian_package (dry_run a)
                  else ret true) ;;
  (* Step 6: the release notes *)
  notes <- (if negb (no_github a) && negb (dry_run a)
            then get_release_notes version
            else ret (lit "Release " ++ version)) ;;
  (* Step 7: the GitHub release *)
  (if negb (no_github a)
   then create_github_release version tag notes (dry_run a) ;;; ret tt
   else ret tt) ;;;
  (* Summary *)
  say HdrComplete ;;;
  (if pypi_success then say SumPypiBuilt else ret tt) ;;;
  (if deb_success then say SumDebBuilt else ret tt) ;;;
  (if negb (no_pypi a) && pypi_success && negb (dry_run a)
   then say SumUploadHint else ret tt) ;;;
  (if negb (dry_run a) then say (SumPublished version) else ret tt)
  end.

(** The script run as a program: its exit status. [sys.exit] sets it; any
    other exception is reported and gives status 1. *)
Definition release_py (a : args) : state E -> Z * state E := fun s =>
  match main a s with
  | (Ret _, s') => (0%Z, s')
  | (Raise (SystemExit c), s') => (c, s')
  | (Raise _, s') => (1%Z, snd (say ErrUnexpected s'))
  end.

End Scripts.

(** *** deb_publish.py *)

(** The string has more digits than a limit that is set. *)
Definition too_long (limit : nat) (s : str) : bool :=
  (0 <? limit)%nat && (limit <? length s)%nat.

Section Debian.
Context {E : Type} (w : world E).

(** What the script takes from Python rather than defining itself: the
    Unicode database beyond ASCII ([str.isalnum], behind the [\w] of [\b],
    and the decimal digits with their values, behind [\d] and [int]) and
    [textwrap.dedent]. *)
Variable alnum_hi : char -> bool.
Variable decimal_hi : char -> option N.
Variable dedent : str -> str.

Definition isdigit_ascii (c : char) : bool := (48 <=? c) && (c <=? 57).
Definition isalpha_ascii (c : char) : bool :=
  ((65 <=? c) && (c <=? 90)) || ((97 <=? c) && (c <=? 122)).

(** [\w] *)
Definition wordchar (c : char) : bool :=
  (if c <? 128 then isdigit_ascii c || isalpha_ascii c else alnum_hi c)
  || (c =? 95).

(** The value of a decimal digit. *)
Definition decimal (c : char) : option N :=
  if c <? 128 then (if isdigit_ascii c then Some (c - 48) else None)
  else decimal_hi c.

(** [\d] *)
Definition isdecimal (c : char) : bool :=
  match decimal c with Some _ => true | None => false end.

(** The value of a string of decimal digits. *)
Definition py_int (s : str) : Z :=
  Z.of_N (fold_left (fun acc c => 10 * acc + default 0 (decimal c)) s 0).

Fixpoint uint_digits (d : Decimal.uint) : str :=
  match d with
  | Decimal.Nil => []
  | Decimal.D0 d' => 48 :: uint_digits d'
  | Decimal.D1 d' => 49 :: uint_digits d'
  | Decimal.D2 d' => 50 :: uint_digits d'
  | Decimal.D3 d' => 51 :: uint_digits d'
  | Decimal.D4 d' => 52 :: uint_digits d'
  | Decimal.D5 d' => 53 :: uint_digits d'
  | Decimal.D6 d' => 54 :: uint_digits d'
  | Decimal.D7 d' => 55 :: uint_digits d'
  | Decimal.D8 d' => 56 :: uint_digits d'
  | Decimal.D9 d' => 57 :: uint_digits d'
  end.

(** [str(n)] of an integer, as f-strings render it. *)
Definition py_str (z : Z) : str :=
  if (z <? 0)%Z then 45 :: uint_digits (N.to_uint (Z.abs_N z))
  else uint_digits (N.to_uint (Z.abs_N z)).

Definition DIST_DIR : str := pjoin (pjoin (repo_root w) (lit "dist")) (lit "deb").

(** [try: ... finally: cleanup] *)
Definition finally {A} (m : M E A) (cleanup : M E unit) : M E A := fun s =>
  match m s with
  | (r, s') => (r, snd (cleanup s'))
  end.

Definition run_ (cmd : list str) (description : str) : M E completed :=
  proc <- subprocess_run w cmd None ;;
  if negb (returncode proc =? 0)%Z
  then say (ErrFailed description) ;;; sys_exit (returncode proc)
  else say (OkDone description) ;;; ret proc.

(** deb_publish.py: the keyword at a word boundary. *)
Definition project_version_re : pattern := WordB wordchar :: version_re.

Definition read_project_version : M E (option str) :=
  let setup_py := pjoin (repo_root w) (lit "setup.py") in
  ex <- observe (fun e => file_exists w e setup_py) ;;
  if negb ex then ret None else
  text <- observe (fun e => read_text w e setup_py) ;;
  match re_search project_version_re text with
  | None => ret None
  | Some g => ret (Some (strip g))
  end.

(** [subprocess.check_output(cmd, text=True, stderr=subprocess.STDOUT)]:
    the output (both streams, which the world gives as [stdout]) of a command
    that exits with 0. *)
Definition check_output (cmd : list str) : M E str :=
  r <- subprocess_run w cmd None ;;
  if (returncode r =? 0)%Z then ret (stdout r) else raise CalledProcessError.

(** [debhelper\s+version\s+(\d+)] under [re.IGNORECASE] *)
Definition compat_re : pattern :=
  lits_ci "debhelper" ++ [Plus isspace] ++ lits_ci "version"
  ++ [Plus isspace; Open; Plus isdecimal; Close].

(** [int(s)] for a string of decimal digits: its value, unless the string
    has more digits than the interpreter converts, which is 4300 by default;
    every digit counts, a leading zero too. *)
Definition int_ (s : str) : M E Z :=
  if too_long (int_max_str_digits w) s then raise ValueError
  else ret (py_int s).

Definition _debhelper_compat_level : M E Z :=
  dh <- command_exists w (lit "dh") ;;
  if negb dh then ret 12%Z else
  out <- try_except (o <- check_output [lit "dh"; lit "--version"] ;; ret (Some o))
                    (ret None) ;;
  match out with
  | None => ret 12%Z
  | Some out =>
      match re_search compat_re out with
      | None => ret 12%Z
      | Some g =>
          major <- int_ g ;;
          ret (Z.max 12 major)
      end
  end.

(** [a or b or c] over [os.environ.get] *)
Definition env_or (a b : option str) (c : str) : str := or_else a (or_else b c).

Definition _maintainer_identity : M E (str * str) :=
  name <- observe (fun e => env_or (getenv w e (lit "DEBFULLNAME"))
                                   (getenv w e (lit "NAME")) (lit "kport builder")) ;;
  email <- observe (fun e => env_or (getenv w e (lit "DEBEMAIL"))
                                    (getenv w e (lit "EMAIL")) (lit "builder@localhost")) ;;
  ret (name, email).

Definition _rfc2822_now_utc : M E str := observe (now_rfc2822 w).

(** One line of a template in the source, with its eight blanks. *)
Definition tline (x : str) : str := lit "        " ++ x ++ [10].

(** The [Build-Depends] line of the control file. *)
Definition build_depends_line (compat : Z) : str :=
  lit "Build-Depends: debhelper (>= " ++ py_str (Z.min compat 12) ++ lit ")".

Definition control_template (maint_name maint_email : str) (compat : Z) : str :=
  tline (lit "Source: kport")
  ++ tline (lit "Section: utils")
  ++ tline (lit "Priority: optional")
  ++ tline (lit "Maintainer: " ++ maint_name ++ lit " <" ++ maint_email ++ lit ">")
  ++ tline (build_depends_line compat)
  ++ tline (lit "Standards-Version: 4.5.0")
  ++ tline (lit "Homepage: https://github.com/farman20ali/port-killer")
  ++ tline (lit "Rules-Requires-Root: no")
  ++ [10]
  ++ tline (lit "Package: kport")
  ++ tline (lit "Architecture: all")
  ++ tline (lit "Depends: ${misc:Depends}, python3, python3-psutil")
  ++ tline (lit "Description: Cross-platform port inspector and killer")
  ++ tline (lit " kport helps you list, inspect, and kill processes using ports.")
  ++ tline (lit " It can also show Docker port mappings when Docker is installed.")
  ++ lit "        ".

Definition rules_text : str :=
  lit "#!/usr/bin/make -f" ++ [10] ++ [10]
  ++ lit "%:" ++ [10] ++ [9] ++ lit "dh $@" ++ [10] ++ [10]
  ++ lit "override_dh_update_autotools_config:" ++ [10] ++ [9] ++ lit "true" ++ [10] ++ [10]
  ++ lit "override_dh_autoreconf:" ++ [10] ++ [9] ++ lit "true" ++ [10] ++ [10]
  ++ lit "override_dh_auto_configure:" ++ [10] ++ [9] ++ lit "true" ++ [10] ++ [10]
  ++ lit "override_dh_auto_clean:" ++ [10] ++ [9] ++ lit "true" ++ [10] ++ [10]
  ++ lit "override_dh_auto_build:" ++ [10] ++ [9] ++ lit "true" ++ [10] ++ [10]
  ++ lit "override_dh_auto_test:" ++ [10] ++ [9] ++ lit "true" ++ [10] ++ [10]
  ++ lit "override_dh_auto_install:" ++ [10] ++ [9]
  ++ lit "install -D -m 0755 kport.py debian/kport/usr/bin/kport" ++ [10].

Definition changelog_template (deb_version maint_name maint_email now : str) : str :=
  tline (lit "kport (" ++ deb_version ++ lit ") unstable; urgency=medium")
  ++ [10]
  ++ tline (lit "  * Auto-generated Debian packaging.")
  ++ [10]
  ++ tline (lit " -- " ++ maint_name ++ lit " <" ++ maint_email ++ lit ">  " ++ now)
  ++ lit "        ".

Definition generate_debian_skeleton (work_dir : str) : M E str :=
  let debian_dir := pjoin work_dir (lit "debian") in
  emit w (Mkdir debian_dir) ;;;
  emit w (Mkdir (pjoin debian_dir (lit "source"))) ;;;
  pv <- read_project_version ;;
  let project_version := or_else pv (lit "0.0.0") in
  let deb_version := project_version ++ lit "-1" in
  compat <- _debhelper_compat_level ;;
  id <- _maintainer_identity ;;
  let '(maint_name, maint_email) := id in
  let control := dedent (control_template maint_name maint_email compat) in
  now <- _rfc2822_now_utc ;;
  let changelog := dedent (changelog_template deb_version maint_name maint_email now) in
  emit w (WriteText (pjoin debian_dir (lit "control")) control) ;;;
  emit w (WriteText (pjoin debian_dir (lit "rules")) rules_text) ;;;
  emit w (Chmod (pjoin debian_dir (lit "rules")) 493) ;;;
  emit w (WriteText (pjoin debian_dir (lit "changelog")) changelog) ;;;
  emit w (WriteText (pjoin debian_dir (lit "compat")) (py_str compat ++ [10])) ;;;
  emit w (WriteText (pjoin (pjoin debian_dir (lit "source")) (lit "format"))
            (lit "3.0 (native)" ++ [10])) ;;;
  ret deb_version.

(** [.] of a pattern: any character but the line feed. *)
Definition notnl (c : char) : bool := negb (c =? 10).

(** The marker [Unmet build dependencies:], optional blanks, group 1 made of
    any characters of one line, and the end of the line; under
    [re.IGNORECASE | re.MULTILINE]. *)
Definition unmet_re : pattern :=
  lits_ci "Unmet build dependencies:" ++ [Star isspace; Open; Star notnl; Close; EndLine].

(** [[a-z0-9+.-]] under [re.IGNORECASE]: the letters of both cases, with the
    four code points that case folding equates with ASCII letters. *)
Definition identch (c : char) : bool :=
  isdigit_ascii c || isalpha_ascii c || (c =? 43) || (c =? 46) || (c =? 45)
  || (c =? 304) || (c =? 305) || (c =? 383) || (c =? 8490).

(** [^([a-z0-9+.-]+)] *)
Definition name_re : pattern := [Open; Plus identch; Close].

(** [re.match]: the pattern at the start of the string only. *)
Definition re_match (pat : pattern) (s : str) : option str := run pat false None s [].

Definition nonempty (s : str) : bool := match s with [] => false | _ => true end.

Definition _parse_unmet_build_deps (output : str) : list str :=
  match re_search unmet_re output with
  | None => []
  | Some deps =>
      let parts := List.filter nonempty (List.map strip (split_on 44 deps)) in
      omap (re_match name_re) parts
  end.

Definition check_debian_build_deps : M E (list str) :=
  ex <- command_exists w (lit "dpkg-checkbuilddeps") ;;
  if negb ex then ret [] else
  proc <- subprocess_run w [lit "dpkg-checkbuilddeps"] None ;;
  if (returncode proc =? 0)%Z then ret [] else
  let combined := stdout proc ++ [10] ++ stderr proc in
  ret (_parse_unmet_build_deps combined).

(** [for x in l: body(x)], collecting what the bodies return. *)
Fixpoint for_each {A B} (body : A -> M E B) (l : list A) : M E (list B) :=
  match l with
  | [] => ret []
  | x :: l' => y <- body x ;; ys <- for_each body l' ;; ret (y :: ys)
  end.

(** The result is the list of the copies in dist/deb. A [.deb] in
    [build_parent] is known by its name. *)
Definition _copy_new_debs (build_parent : str) (before : gset str) : M E (list str) :=
  after <- observe (fun e => glob w e build_parent (lit ".deb")) ;;
  let new_files := List.filter (fun name => bool_decide (name ∉ before)) after in
  match new_files with
  | [] => ret []
  | _ =>
      emit w (Mkdir DIST_DIR) ;;;
      for_each (fun name =>
                  let dest := pjoin DIST_DIR name in
                  emit w (Copy2 (pjoin build_parent name) dest) ;;; ret dest)
               new_files
  end.

Fixpoint prefixb (a s : str) : bool :=
  match a, s with
  | [], _ => true
  | x :: a', y :: s' => (x =? y) && prefixb a' s'
  | _ :: _, [] => false
  end.

(** [sub in s] *)
Fixpoint contains (sub s : str) : bool :=
  prefixb sub s || match s with [] => false | _ :: s' => contains sub s' end.

(** [a <= b] on strings *)
Fixpoint str_leb (a b : str) : bool :=
  match a, b with
  | [], _ => true
  | _ :: _, [] => false
  | x :: a', y :: b' => (x <? y) || ((x =? y) && str_leb a' b')
  end.

(** The order of the keys [("dbgsym" in name, name)]. *)
Definition key_leb (a b : str) : bool :=
  let ka := contains (lit "dbgsym") a in
  let kb := contains (lit "dbgsym") b in
  (negb ka && kb) || (eqb ka kb && str_leb a b).

Fixpoint insert_by (x : str) (l : list str) : list str :=
  match l with
  | [] => [x]
  | y :: l' => if key_leb x y then x :: l else y :: insert_by x l'
  end.

(** [copied.sort(key=...)], a stable sort. *)
Definition sort_debs (l : list str) : list str := foldr insert_by [] l.

(** The name of a copy in dist/deb. *)
Definition dest_name (dest : str) : str := drop (length DIST_DIR + 1) dest.

Definition copy_ignore : list str :=
  [lit ".git"; lit "__pycache__"; lit ".pytest_cache"; lit ".mypy_cache";
   lit ".venv"; lit "venv"; lit "dist"; lit "build"; lit "*.egg-info"].

Definition build_deb : M E (option str) :=
  emit w (Mkdir DIST_DIR) ;;;
  td <- observe (fun e => mkdtemp w e (lit "kport-deb-")) ;;
  emit w (Mkdir td) ;;;
  finally (
    let tmp_root := td in
    let work_dir := pjoin tmp_root (lit "kport") in
    emit w (CopyTree (repo_root w) work_dir) ;;;
    generate_debian_skeleton work_dir ;;;
    (* dpkg-buildpackage writes artifacts to the parent directory *)
    let build_parent := tmp_root in
    names <- observe (fun e => glob w e build_parent (lit ".deb")) ;;
    let before : gset str := list_to_set names in
    run_ [lit "dpkg-buildpackage"; lit "-us"; lit "-uc"] (lit "Build Debian package") ;;;
    copied <- _copy_new_debs build_parent before ;;
    match copied with
    | [] => ret None
    | _ =>
        (* Prefer the main package over dbgsym/source packages *)
        ret (head (List.map (pjoin DIST_DIR)
                     (sort_debs (List.map dest_name copied))))
    end)
  (emit w (RmTree td)).

End Debian.

(** ** What a pattern matches *)

(** [den pat rec prev s acc r]: [pat] matches a prefix of [s], and group 1
    holds [r] at the end. *)
Fixpoint den (pat : pattern) (rec : bool) (prev : option char) (s acc r : str)
    : Prop :=
  match pat with
  | [] => r = rev acc
  | One p :: rest =>
      exists c s', s = c :: s' /\ p c = true
                   /\ den rest rec (Some c) s' (push rec c acc) r
  | Star p :: rest =>
      exists a b, s = a ++ b /\ forallb p a = true
                  /\ den rest rec (lastc a prev) b (pushall rec a acc) r
  | Plus p :: rest =>
      exists a b, s = a ++ b /\ a <> [] /\ forallb p a = true
                  /\ den rest rec (lastc a prev) b (pushall rec a acc) r
  | Open :: rest => den rest true prev s [] r
  | Close :: rest => den rest false prev s acc r
  | WordB w :: rest =>
      xorb (isword w prev) (isword w (head s)) = true
      /\ den rest rec prev s acc r
  | EndLine :: rest => at_eol s = true /\ den rest rec prev s acc r
  end.

(** ** The version assignment, in words *)

(** After the keyword: blanks, [=], blanks, a quote, the value [x] made of
    one or more characters that are not quotes, a quote. *)
Definition follows_keyword (s x : str) : Prop :=
  exists ws1 ws2 q1 q2 post,
    s = ws1 ++ [61] ++ ws2 ++ [q1] ++ x ++ [q2] ++ post
    /\ forallb isspace ws1 = true /\ forallb isspace ws2 = true
    /\ isquote q1 = true /\ isquote q2 = true
    /\ x <> [] /\ forallb notquote x = true.

(** [text] holds an assignment of [x] to the keyword, after [pre]. *)
Definition assignment (text pre x : str) : Prop :=
  exists s, text = pre ++ lit "version" ++ s /\ follows_keyword s x.

(** The assignment after [pre] is the first one of [text]. *)
Definition first_assignment (ok : str -> Prop) (text pre x : str) : Prop :=
  assignment text pre x /\ ok pre
  /\ forall pre' x', assignment text pre' x' -> ok pre' ->
                     (length pre <= length pre')%nat.

(** The keyword after [pre] starts a word: no word character before it. *)
Definition word_start (w : char -> bool) (pre : str) : Prop :=
  isword w (lastc pre None) = false.

(** The assignment as the specification words it: the value between two
    quotes of one kind. *)
Definition quoted_assignment (text x : str) : Prop :=
  exists pre ws1 ws2 q post,
    text = pre ++ lit "version" ++ ws1 ++ [61] ++ ws2 ++ [q] ++ x ++ [q] ++ post
    /\ forallb isspace ws1 = true /\ forallb isspace ws2 = true
    /\ isquote q = true /\ x <> [].

(** ** Worlds that stay as they are

    Files, the commands on PATH, what each command answers, the listing of
    each directory and the environment variables are given once, in a box; no
    event changes them, so the state of such a world is trivial. *)
Record box := Box {
  box_files : list (str * str);            (* path, text *)
  box_path : list str;                     (* the commands on PATH *)
  box_run : list str -> completed;         (* what a command answers *)
  box_dirs : list (str * list str);        (* directory, names in it *)
  box_environ : list (str * str)
}.

Fixpoint assoc {A} (k : str) (l : list (str * A)) : option A :=
  match l with
  | [] => None
  | (k', v) :: l' => if bool_decide (k = k') then Some v else assoc k l'
  end.

Definition endswith (s suffix : str) : bool := prefixb (rev suffix) (rev s).

Definition box_world (root : str) (b : box) : world unit :=
  World unit root
    (fun _ name => bool_decide (name ∈ box_path b))
    (fun _ argv _ => box_run b argv)
    (fun _ p => bool_decide (is_Some (assoc p (box_files b))))
    (fun _ p => default [] (assoc p (box_files b)))
    (fun _ d suffix =>
       List.filter (fun n => endswith n suffix) (default [] (assoc d (box_dirs b))))
    (fun _ name => assoc name (box_environ b))
    (fun _ => lit "Thu, 01 Jan 1970 00:00:00 +0000")
    (fun _ prefix => lit "/tmp/" ++ prefix ++ lit "0")
    (fun _ _ => tt)
    4300.

(** A state of a run in such a world: nothing typed yet, no event yet. *)
Definition start (typed : list str) : state unit := State tt typed [].

(** ** Sample surroundings *)

Definition repo : str := lit "/repo".

Definition no_answer : list str -> completed := fun _ => Completed 0 [] [].

(** A setup.py whose version is between single quotes. *)
Definition setup_plain : str := lit "version='2.0.0'".

(** A setup.py whose version has a double quote before it and a single
    quote after it. *)
Definition setup_mismatched : str := lit "version = " ++ [34] ++ lit "1.0'".

Definition box_with_setup (text : str) : box :=
  Box [(pjoin repo (lit "setup.py"), text)] [] no_answer [] [].

(** No code point beyond ASCII counts as alphanumeric or as a digit. *)
Definition ascii_only_alnum : char -> bool := fun _ => false.
Definition ascii_only_decimal : char -> option N := fun _ => None.

(** ** The release run, in words *)

Definition git_status_cmd : list str := [lit "git"; lit "status"; lit "--porcelain"].
Definition git_tag_l_cmd (tag : str) : list str := [lit "git"; lit "tag"; lit "-l"; tag].

(** The two queries of the repository state. *)
Definition is_query (tag : str) (argv : list str) : Prop :=
  argv = git_status_cmd \/ argv = git_tag_l_cmd tag.

(** What is printed from the tagging step on. *)
Definition later_stage (m : message) : Prop :=
  match m with
  | HdrCreatingTag | HdrBuildingPypi | HdrBuildingDeb | HdrCreatingRelease
  | HdrComplete => True
  | _ => False
  end.

(** An event that changes nothing outside: something printed before the
    tagging step, or a query of the repository state. *)
Definition validation_event (tag : str) (ev : event) : Prop :=
  match ev with
  | Print m => ~ later_stage m
  | Spawn argv None => is_query tag argv
  | _ => False
  end.

(** An event of a dry run: something printed, or a query. *)
Definition read_only_event (tag : str) (ev : event) : Prop :=
  match ev with
  | Print _ => True
  | Spawn argv None => is_query tag argv
  | _ => False
  end.

(** [git tag -l tag] lists the tag in the state [e]. *)
Definition tag_listed {E} (w : world E) (tag : str) (e : E) : Prop :=
  strip (stdout (spawn w e (git_tag_l_cmd tag) None)) <> [].

(** [git status --porcelain] lists nothing in the state [e]. *)
Definition clean {E} (w : world E) (e : E) : Prop :=
  strip (stdout (spawn w e git_status_cmd None)) = [].

(** The version that a run for the arguments [a] releases, when setup.py
    gives [current]. *)
Definition release_version (a : args) (current : str) : str :=
  or_else (arg_version a) current.

(** git runs, outside of a repository: it prints nothing on its standard
    output and exits with 128. *)
Definition not_a_repository : box :=
  Box [] [lit "git"]
      (fun _ => Completed 128 []
                  (lit "fatal: not a git repository (or any of the parent directories): .git"))
      [] [].

(** A clean repository with setup.py at 1.2.3, where [git tag -l] answers
    with the tag [v1.2.3]. *)
Definition released_answers (argv : list str) : completed :=
  if bool_decide (argv = git_tag_l_cmd (lit "v1.2.3"))
  then Completed 0 (lit "v1.2.3" ++ [10]) []
  else Completed 0 [] [].

Definition released_repository : box :=
  Box [(pjoin repo (lit "setup.py"), lit "version='1.2.3'")]
      [lit "git"; lit "python3"; lit "gh"] released_answers [] [].

(** A clean repository with setup.py at 2.0.0 and no tag. *)
Definition fresh_repository : box :=
  Box [(pjoin repo (lit "setup.py"), setup_plain)]
      [lit "git"; lit "python3"; lit "gh"] no_answer [] [].

Definition plain_args (dry : bool) : args := Args None false false false dry.

(** The surroundings after the status query. *)
Definition after_status {E} (w : world E) (e : E) : E :=
  effect w e (Spawn git_status_cmd None).

(** The surroundings after both queries. *)
Definition after_queries {E} (w : world E) (tag : str) (e : E) : E :=
  effect w (after_status w e) (Spawn (git_tag_l_cmd tag) None).

(** setup.py gives the version [current] in the state [e]. *)
Definition resolves {E} (w : world E) (e : E) (current : str) : Prop :=
  file_exists w e (SETUP_PY w) = true
  /\ strip <$> re_search version_re (read_text w e (SETUP_PY w)) = Some current
  /\ current <> [].

(** ** The stages of [main]

    [main] as a chain: each stage is what [main] does from one of its steps
    on ([main_stages] below shows that the chain is [main]). *)

Section Stages.
Context {E : Type} (w : world E).

(** The summary. *)
Definition summary_stage (a : args) (version : str)
    (pypi_success deb_success : bool) : M E unit :=
  say HdrComplete ;;;
  (if pypi_success then say SumPypiBuilt else ret tt) ;;;
  (if deb_success then say SumDebBuilt else ret tt) ;;;
  (if negb (no_pypi a) && pypi_success && negb (dry_run a)
   then say SumUploadHint else ret tt) ;;;
  (if negb (dry_run a) then say (SumPublished version) else ret tt).

(** Steps 6 and 7, the release notes and the GitHub release, and on. *)
Definition publish_stage (a : args) (version tag : str)
    (pypi_success deb_success : bool) : M E unit :=
  notes <- (if negb (no_github a) && negb (dry_run a)
            then get_release_notes version
            else ret (lit "Release " ++ version)) ;;
  (if negb (no_github a)
   then create_github_release w version tag notes (dry_run a) ;;; ret tt
   else ret tt) ;;;
  summary_stage a version pypi_success deb_success.

(** Step 5, the builds, and on. *)
Definition build_stage (a : args) (version tag : str) : M E unit :=
  pypi_success <- (if negb (no_pypi a) then build_pypi_packages w (dry_run a)
                   else ret true) ;;
  deb_success <- (if negb (no_deb a) then build_debian_package w (dry_run a)
                  else ret true) ;;
  publish_stage a version tag pypi_success deb_success.

(** Steps 3 and 4, the confirmation and the tag, and on. *)
Definition tag_stage (a : args) (version tag : str) : M E unit :=
  (if negb (dry_run a) then
     reply <- input ;;
     let confirm := py_lower (strip reply) in
     if negb (str_in confirm [lit "y"; lit "yes"])
     then say Cancelled ;;; sys_exit 0
     else ret tt
   else ret tt) ;;;
  say HdrCreatingTag ;;;
  (if negb (dry_run a) then
     run_command w [lit "git"; lit "tag"; lit "-a"; tag; lit "-m";
                    lit "Release " ++ version]
                 (lit "Create tag " ++ tag) true ;;;
     run_command w [lit "git"; lit "push"; lit "origin"; lit "main"]
                 (lit "Push commits") true ;;;
     run_command w [lit "git"; lit "push"; lit "origin"; lit "--tags"]
                 (lit "Push tags") true ;;;
     ret tt
   else say (WarnDryRunTag tag)) ;;;
  build_stage a version tag.

(** Step 2, the validation of the git state, and on. *)
Definition validation_stage (a : args) (version tag : str) : M E unit :=
  (if dry_run a then say WarnDryRun else ret tt) ;;;
  say HdrPreflight ;;;
  clean <- check_git_status w ;;
  if negb clean then say ErrDirty ;;; sys_exit 1 else
  say OkClean ;;;
  exists_ <- check_tag_exists w tag ;;
  if exists_ then say (ErrTagExists tag) ;;; sys_exit 1 else
  say (OkTagAvailable tag) ;;;
  tag_stage a version tag.

(** The exit status of the program for a result of [main]. *)
Definition exit_status (r : res unit) : Z :=
  match r with
  | Ret _ => 0%Z
  | Raise (SystemExit c) => c
  | Raise _ => 1%Z
  end.

End Stages.

(** What the summary prints, for the outcomes of the two builds. *)
Definition summary_events (a : args) (version : str)
    (pypi_success deb_success : bool) : list event :=
  [Print HdrComplete]
  ++ (if pypi_success then [Print SumPypiBuilt] else [])
  ++ (if deb_success then [Print SumDebBuilt] else [])
  ++ (if negb (no_pypi a) && pypi_success && negb (dry_run a)
      then [Print SumUploadHint] else [])
  ++ (if negb (dry_run a) then [Print (SumPublished version)] else []).

(** An event from before the builds: anything but what the builds, the
    release step and the summary print. *)
Definition prelude_event (ev : event) : Prop :=
  match ev with
  | Print (HdrBuildingPypi | HdrBuildingDeb | OkPypi | OkDeb
          | HdrCreatingRelease | WarnNoGh _ _ _ | HdrComplete
          | SumPypiBuilt | SumDebBuilt) => False
  | _ => True
  end.

(** An event that a release leaves before its builds: a git command without
    input, or one of the prints of the validation, the confirmation and the
    tagging step ([ErrUnexpected] is what ends a run that an error stops).
    The commands of the builds and of the release step are python3 and gh
    commands. *)
Definition before_builds_event (ev : event) : Prop :=
  match ev with
  | Print (HdrRelease | ErrNoVersion | HdrPreflight | ErrDirty | OkClean
          | ErrTagExists _ | OkTagAvailable _ | Cancelled | HdrCreatingTag
          | OkDone _ | ErrFailed _ | ErrUnexpected) => True
  | Spawn argv None => hd [] argv = lit "git"
  | _ => False
  end.

(** What shows that the release step was entered: its header, or the
    warning that the gh command is missing. *)
Definition release_step_event (ev : event) : Prop :=
  match ev with
  | Print (HdrCreatingRelease | WarnNoGh _ _ _) => True
  | _ => False
  end.

(** A repository with setup.py at 2.0.0 where git, python3 and gh are at
    hand, both build scripts are there, and both builds fail: python3 exits
    with 1, every other command with 0. *)
Definition failing_builds_answers (argv : list str) : completed :=
  if bool_decide (hd [] argv = lit "python3") then Completed 1 [] []
  else Completed 0 [] [].

Definition failing_builds_repository : box :=
  Box [(pjoin repo (lit "setup.py"), setup_plain);
       (pjoin repo (lit "publish.py"), []);
       (pjoin repo (lit "deb_publish.py"), [])]
      [lit "git"; lit "python3"; lit "gh"] failing_builds_answers [] [].

(** ** The Debian helper, in words *)

Definition dh_version_cmd : list str := [lit "dh"; lit "--version"].

(** A machine where [dh --version] prints the given text. *)
Definition box_with_dh (text : str) : box :=
  Box [] [lit "dh"] (fun _ => Completed 0 text []) [] [].

(** The report of a version number of 4301 digits. *)
Definition long_version_report : str :=
  lit "debhelper version " ++ List.repeat 49 4301.

(** The marker of the unmet build dependencies. *)
Definition marker : str := lit "Unmet build dependencies:".

(** [m] is the text [l] but for the case of its letters. *)
Definition ci_match (l m : str) : Prop := Forall2 (fun c x => ci c x = true) l m.

(** [text] holds the marker after [pre]. *)
Definition marker_at (text pre : str) : Prop :=
  exists m post, text = pre ++ m ++ post /\ ci_match marker m.

Definition has_marker (text : str) : Prop := exists pre, marker_at text pre.

(** [text] reports the version number [digits] after [pre]: the words
    debhelper and version, whatever the case of their letters, each followed
    by white space, then the decimal digits, as many as there are. *)
Definition reports_version (isdec : char -> bool) (text pre digits : str) : Prop :=
  exists m1 ws1 m2 ws2 post,
    text = pre ++ m1 ++ ws1 ++ m2 ++ ws2 ++ digits ++ post
    /\ ci_match (lit "debhelper") m1
    /\ ws1 <> [] /\ forallb isspace ws1 = true
    /\ ci_match (lit "version") m2
    /\ ws2 <> [] /\ forallb isspace ws2 = true
    /\ digits <> [] /\ forallb isdec digits = true
    /\ (match post with [] => true | c :: _ => negb (isdec c) end) = true.

(** The report after [pre] is the first one of [text]. *)
Definition first_version (isdec : char -> bool) (text pre digits : str) : Prop :=
  reports_version isdec text pre digits
  /\ forall pre' digits', reports_version isdec text pre' digits' ->
                          (length pre <= length pre')%nat.

Definition has_version (isdec : char -> bool) (text : str) : Prop :=
  exists pre digits, reports_version isdec text pre digits.

(** No run of decimal digits in [text] is longer than [int()] takes. *)
Definition digit_runs_fit (limit : nat) (isdec : char -> bool) (text : str) : Prop :=
  forall pre digits post,
    text = pre ++ digits ++ post -> forallb isdec digits = true ->
    too_long limit digits = false.

Fixpoint takewhile (p : char -> bool) (s : str) : str :=
  match s with
  | c :: s' => if p c then c :: takewhile p s' else []
  | [] => []
  end.

(** The leading identifier of a token, when it has one. *)
Definition leading_ident (token : str) : option str :=
  match takewhile identch token with
  | [] => None
  | name => Some name
  end.

(** The names in the rest of the line of the marker: the line is split on
    commas, the tokens are stripped, the empty ones dropped, and the leading
    identifier of each is taken, tokens without one being dropped. *)
Definition names_of (remainder : str) : list str :=
  omap leading_ident (List.filter nonempty (List.map strip (split_on 44 remainder))).

Definition dpkg_checkbuilddeps_cmd : list str := [lit "dpkg-checkbuilddeps"].

(** What [check_debian_build_deps] parses: both streams of the helper. *)
Definition combined_output (r : completed) : str := stdout r ++ [10] ++ stderr r.

(** The example of the specification. *)
Definition unmet_example : str :=
  lit "dpkg-checkbuilddeps: error: Unmet build dependencies: debhelper-compat (= 13), foo".

(** The marker at the end of its line, and names on the next line. *)
Definition unmet_next_line : str := marker ++ [10] ++ lit "foo, bar".

(** A machine where dpkg-checkbuilddeps exits with the given status and
    prints the given text on its standard error. *)
Definition box_with_checkbuilddeps (status : Z) (err : str) : box :=
  Box [] [lit "dpkg-checkbuilddeps"] (fun _ => Completed status [] err) [] [].

(** What follows the marker in the pattern: optional blanks, group 1 with
    the rest of a line, and the end of the line. *)
Definition unmet_tail : pattern := [Star isspace; Open; Star notnl; Close; EndLine].

(** ** The new artifacts, in words *)

Definition dpkg_buildpackage_cmd : list str :=
  [lit "dpkg-buildpackage"; lit "-us"; lit "-uc"].

(** The copy of the artifact [name] of [build_parent] into dist/deb. *)
Definition copy_event {E} (w : world E) (build_parent name : str) : event :=
  Copy2 (pjoin build_parent name) (pjoin (DIST_DIR w) name).

(** A build directory with two artifacts, one of them from before the
    build. *)
Definition box_with_debs : box :=
  Box [] [] no_answer
      [(lit "/tmp/b", [lit "kport_1.0-1_all.deb"; lit "kport_2.0-1_all.deb"])] [].

(** A machine where the build adds one artifact to the one that the build
    directory holds: the state of this world says whether the build has
    run. *)
Definition build_world : world bool :=
  World bool repo
    (fun _ _ => true)
    (fun _ _ _ => Completed 0 [] [])
    (fun _ _ => false)
    (fun _ _ => [])
    (fun built _ _ =>
       if built then [lit "kport_1.0-1_all.deb"; lit "kport_2.0-1_all.deb"]
       else [lit "kport_1.0-1_all.deb"])
    (fun _ _ => None)
    (fun _ => lit "Thu, 01 Jan 1970 00:00:00 +0000")
    (fun _ prefix => lit "/tmp/" ++ prefix ++ lit "0")
    (fun built ev =>
       match ev with
       | Spawn argv _ => built || bool_decide (argv = dpkg_buildpackage_cmd)
       | _ => built
       end)
    4300.

(** ** The events of a release, step by step *)

(** What the validation leaves in the trace when both checks pass. *)
Definition validation_events (a : args) (tag : str) : list event :=
  (if dry_run a then [Print WarnDryRun] else [])
  ++ [Print HdrPreflight; Spawn git_status_cmd None; Print OkClean;
      Spawn (git_tag_l_cmd tag) None; Print (OkTagAvailable tag)].

Definition git_tag_a_cmd (version tag : str) : list str :=
  [lit "git"; lit "tag"; lit "-a"; tag; lit "-m"; lit "Release " ++ version].
Definition git_push_main_cmd : list str :=
  [lit "git"; lit "push"; lit "origin"; lit "main"].
Definition git_push_tags_cmd : list str :=
  [lit "git"; lit "push"; lit "origin"; lit "--tags"].

(** What the tagging step leaves in the trace when its three commands
    succeed. *)
Definition tagging_events (version tag : str) : list event :=
  [Print HdrCreatingTag;
   Spawn (git_tag_a_cmd version tag) None; Print (OkDone (lit "Create tag " ++ tag));
   Spawn git_push_main_cmd None; Print (OkDone (lit "Push commits"));
   Spawn git_push_tags_cmd None; Print (OkDone (lit "Push tags"))].

(** The operator's reply is a yes. *)
Definition says_yes (reply : str) : bool :=
  str_in (py_lower (strip reply)) [lit "y"; lit "yes"].

(** A repository with setup.py at 2.0.0 and a modified file. *)
Definition dirty_answers (argv : list str) : completed :=
  if bool_decide (argv = git_status_cmd)
  then Completed 0 (lit " M kport.py" ++ [10]) []
  else Completed 0 [] [].

Definition dirty_repository : box :=
  Box [(pjoin repo (lit "setup.py"), setup_plain)]
      [lit "git"; lit "python3"; lit "gh"] dirty_answers [] [].

(** A clean repository with setup.py at 2.0.0 and no tag, where
    [git tag -a] fails with status 128. *)
Definition failing_tag_answers (argv : list str) : completed :=
  if bool_decide (argv = git_tag_a_cmd (lit "2.0.0") (lit "v2.0.0"))
  then Completed 128 [] (lit "fatal: no tag message?")
  else Completed 0 [] [].

Definition failing_tag_repository : box :=
  Box [(pjoin repo (lit "setup.py"), setup_plain)]
      [lit "git"; lit "python3"; lit "gh"] failing_tag_answers [] [].

(** A computation only adds events to the trace. *)
Definition appends {E A} (m : M E A) : Prop :=
  forall s, exists evs, trace (m s).2 = trace s ++ evs.

(** The operator's reply takes the default release notes. *)
Definition takes_default (reply : str) : bool :=
  str_in (py_lower (strip reply)) [lit ""; lit "y"; lit "yes"].

(** The commands run among some events, with what they are fed. *)
Definition spawned (evs : list event) : list (list str * option str) :=
  omap (fun ev => match ev with Spawn argv inp => Some (argv, inp) | _ => None end)
       evs.

(** The directory of the wheels and of the Debian packages. *)
Definition dist_dir {E} (w : world E) : str := pjoin (repo_root w) (lit "dist").
Definition deb_dir {E} (w : world E) : str := pjoin (dist_dir w) (lit "deb").

(** The assets of a release in the state [e]: the wheels, then the Debian
    packages. *)
Definition release_assets {E} (w : world E) (e : E) : list str :=
  List.map (pjoin (dist_dir w)) (glob w e (dist_dir w) (lit ".whl"))
  ++ (if file_exists w e (deb_dir w)
      then List.map (pjoin (deb_dir w)) (glob w e (deb_dir w) (lit ".deb"))
      else []).

Definition publish_cmd {E} (w : world E) : list str :=
  [lit "python3"; pjoin (repo_root w) (lit "publish.py")].
Definition deb_publish_cmd {E} (w : world E) : list str :=
  [lit "python3"; pjoin (repo_root w) (lit "deb_publish.py")].

(** A repository where both builds succeed and leave one artifact each. *)
Definition built_repository : box :=
  Box [(pjoin repo (lit "setup.py"), setup_plain);
       (pjoin repo (lit "publish.py"), []);
       (pjoin repo (lit "deb_publish.py"), []);
       (pjoin repo (lit "dist"), []);
       (pjoin (pjoin repo (lit "dist")) (lit "deb"), [])]
      [lit "git"; lit "python3"; lit "gh"] no_answer
      [(pjoin repo (lit "dist"), [lit "kport-2.0.0-py3-none-any.whl"]);
       (pjoin (pjoin repo (lit "dist")) (lit "deb"), [lit "kport_2.0.0-1_all.deb"])]
      [].

(** The same repository on a machine without python3. *)
Definition no_python_repository : box :=
  Box [(pjoin repo (lit "setup.py"), setup_plain);
       (pjoin repo (lit "publish.py"), []);
       (pjoin repo (lit "deb_publish.py"), [])]
      [lit "git"; lit "gh"] no_answer [] [].

(** ** The Debian skeleton and the build, in words *)

(** What the generation of the skeleton in [work_dir] may do: make the
    directories [debian] and [debian/source] of [work_dir], write the five
    files of the skeleton there, make [debian/rules] executable, and ask [dh]
    for its version. *)
Definition skeleton_event (work_dir : str) (ev : event) : Prop :=
  let debian_dir := pjoin work_dir (lit "debian") in
  match ev with
  | Mkdir p => p = debian_dir \/ p = pjoin debian_dir (lit "source")
  | WriteText p _ =>
      In p [pjoin debian_dir (lit "control"); pjoin debian_dir (lit "rules");
            pjoin debian_dir (lit "changelog"); pjoin debian_dir (lit "compat");
            pjoin (pjoin debian_dir (lit "source")) (lit "format")]
  | Chmod p mode => p = pjoin debian_dir (lit "rules") /\ mode = 493
  | Spawn argv None => argv = dh_version_cmd
  | _ => False
  end.

(** The version of the project for the Debian package: the one of setup.py,
    [0.0.0] without one. *)
Definition project_version_or_default {E} (w : world E) (alnum_hi : char -> bool)
    (e : E) : str :=
  let setup_py := pjoin (repo_root w) (lit "setup.py") in
  match (if file_exists w e setup_py
         then strip <$> re_search (project_version_re alnum_hi) (read_text w e setup_py)
         else None) with
  | Some (c :: v) => c :: v
  | _ => lit "0.0.0"
  end.

(** A name of a package as apt takes it from the parser: not empty, made of
    letters, digits, [+], [.] and [-]. *)
Definition package_name (name : str) : Prop :=
  name <> [] /\ forallb identch name = true.

Definition is_copy (ev : event) : Prop :=
  match ev with Copy2 _ _ => True | _ => False end.

Definition has_dbgsym (name : str) : bool := contains (lit "dbgsym") name.

(** A machine where the build leaves two artifacts in an empty build
    directory, the one with the debug symbols first in the listing. *)
Definition dbgsym_world : world bool :=
  World bool repo
    (fun _ _ => true)
    (fun _ _ _ => Completed 0 [] [])
    (fun _ _ => false)
    (fun _ _ => [])
    (fun built _ _ =>
       if built then [lit "kport-dbgsym_2.0-1_all.deb"; lit "kport_2.0-1_all.deb"]
       else [])
    (fun _ _ => None)
    (fun _ => lit "Thu, 01 Jan 1970 00:00:00 +0000")
    (fun _ prefix => lit "/tmp/" ++ prefix ++ lit "0")
    (fun built ev =>
       match ev with
       | Spawn argv _ => built || bool_decide (argv = dpkg_buildpackage_cmd)
       | _ => built
       end)
    4300.

(** [if l:] on a list *)
Definition nonempty_list {A} (l : list A) : bool :=
  match l with [] => false | _ => true end.

(** ** deb_publish.py as a program *)

(** The rest of deb_publish.py: the checks, the installers and [main]. Of
    what these functions print, the trace keeps the two lines of [run] that
    tell how a command ended; their other lines are left out. A copy of the
    tree is one event, with or without names to ignore. As everywhere here, a
    command that is run leaves what is typed for the script alone. *)
Module DebPublish.
Section Program.
Context {E : Type} (w : world E).
Variables (alnum_hi : char -> bool) (decimal_hi : char -> option N)
          (dedent : str -> str).

(** [platform.system()] *)
Variable platform_system : E -> str.

Definition required : list str := [lit "setup.py"; lit "kport.py"].

Definition tools : list str :=
  [lit "dpkg-buildpackage"; lit "dpkg"; lit "fakeroot"; lit "dpkg-checkbuilddeps"].

Definition apt_update_cmd : list str := [lit "sudo"; lit "apt-get"; lit "update"].

Definition apt_install_cmd (pkgs : list str) : list str :=
  [lit "sudo"; lit "apt-get"; lit "install"; lit "-y"] ++ pkgs.

Definition build_tool_packages : list str :=
  [lit "build-essential"; lit "dpkg-dev"; lit "devscripts"; lit "debhelper";
   lit "dh-python"; lit "python3-all"].

(** [Path.read_text()] of a file that may be missing. *)
Definition read_text_or_raise (path : str) : M E str :=
  ex <- observe (fun e => file_exists w e path) ;;
  if negb ex then raise FileNotFoundError
  else observe (fun e => read_text w e path).

(** [a or b] evaluates [b] only when [a] is false. [find] is 0 or more
    exactly when the word is in the text; lowering a code point beyond ASCII
    never completes the word. *)
Definition is_debian_like : M E bool :=
  sys <- observe platform_system ;;
  if negb (str_eqb sys (lit "Linux")) then ret false else
  dv <- observe (fun e => file_exists w e (lit "/etc/debian_version")) ;;
  if dv then ret true else
  text <- read_text_or_raise (lit "/etc/os-release") ;;
  ret (contains (lit "debian") (py_lower text)).

Definition check_layout : M E unit :=
  missing <- observe (fun e =>
               List.filter (fun p => negb (file_exists w e (pjoin (repo_root w) p)))
                           required) ;;
  if nonempty_list missing then sys_exit 1 else ret tt.

Definition check_build_tools : M E (list str) :=
  observe (fun e => List.filter (fun tool => negb (which w e tool)) tools).

Definition install_build_deps : M E unit :=
  run_ w apt_update_cmd (lit "apt-get update") ;;;
  run_ w (apt_install_cmd build_tool_packages) (lit "Install build dependencies") ;;;
  ret tt.

Definition install_missing_packages (pkgs : list str) : M E unit :=
  if negb (nonempty_list pkgs) then ret tt else
  run_ w apt_update_cmd (lit "apt-get update") ;;;
  run_ w (apt_install_cmd pkgs) (lit "Install: " ++ join (lit " ") pkgs) ;;;
  ret tt.

(** The block of [main] under [with tempfile.TemporaryDirectory]: the
    skeleton is generated in a copy of the tree, the build dependencies are
    checked there, and the copy is removed. *)
Definition preflight : M E (list str) :=
  td <- observe (fun e => mkdtemp w e (lit "kport-deb-check-")) ;;
  emit w (Mkdir td) ;;;
  finally (
    let work_dir := pjoin td (lit "kport") in
    emit w (CopyTree (repo_root w) work_dir) ;;;
    generate_debian_skeleton w alnum_hi decimal_hi dedent work_dir ;;;
    check_debian_build_deps w)
  (emit w (RmTree td)).

Definition main : M E unit :=
  check_layout ;;;
  is_debian_like ;;;
  reply <- input ;;
  let choice := strip reply in
  if str_eqb choice (lit "0") then ret tt else
  if str_eqb choice (lit "1") then
    missing <- check_build_tools ;;
    if nonempty_list missing then sys_exit 1 else
    preflight ;;; ret tt
  else
  if str_eqb choice (lit "2") then install_build_deps else
  if str_in choice [lit "3"; lit "4"] then
    missing <- check_build_tools ;;
    if nonempty_list missing then sys_exit 1 else
    unmet <- preflight ;;
    (if nonempty_list unmet then
       reply' <- input ;;
       let proceed := py_lower (strip reply') in
       if str_in proceed [lit "y"; lit "yes"] then install_missing_packages unmet
       else sys_exit 1
     else ret tt) ;;;
    build_deb w alnum_hi decimal_hi dedent ;;;
    ret tt
  else sys_exit 1.

(** The script run as a program: its exit status. The script catches no
    exception of [main]; one that is not [SystemExit] ends it with status
    1. *)
Definition deb_publish_py : state E -> Z * state E := fun s =>
  match main s with
  | (Ret _, s') => (0%Z, s')
  | (Raise (SystemExit c), s') => (c, s')
  | (Raise _, s') => (1%Z, s')
  end.

End Program.
End DebPublish.

(** What was run of a trace, and what was run with sudo. *)
Definition runs_sudo (ev : event) : Prop :=
  match ev with
  | Spawn argv _ => hd [] argv = lit "sudo"
  | _ => False
  end.

(** The project files that [check_layout] asks for are there. *)
Definition laid_out {E} (w : world E) (e : E) : bool :=
  forallb (fun p => file_exists w e (pjoin (repo_root w) p)) DebPublish.required.

(** The machine is a Linux without /etc/debian_version and without
    /etc/os-release. *)
Definition no_release_file {E} (w : world E) (platform_system : E -> str) (e : E) : bool :=
  str_eqb (platform_system e) (lit "Linux")
  && negb (file_exists w e (lit "/etc/debian_version"))
  && negb (file_exists w e (lit "/etc/os-release")).

(** The four build tools are on PATH. *)
Definition tools_at_hand {E} (w : world E) (e : E) : bool :=
  forallb (which w e) DebPublish.tools.

(** The names that the check of the build dependencies finds in the state
    [e]. *)
Definition unmet_in {E} (w : world E) (e : E) : list str :=
  if which w e (lit "dpkg-checkbuilddeps") then
    let r := spawn w e dpkg_checkbuilddeps_cmd None in
    if (returncode r =? 0)%Z then [] else _parse_unmet_build_deps (combined_output r)
  else [].

(** What the preflight of [main] leaves in the trace: the temporary copy
    [td/kport], the skeleton [skel] in it, the check when its tool is at hand
    in [e1], and the removal. *)
Definition preflight_events {E} (w : world E) (td : str) (skel : list event) (e1 : E)
    : list event :=
  [Mkdir td; CopyTree (repo_root w) (pjoin td (lit "kport"))] ++ skel
  ++ (if which w e1 (lit "dpkg-checkbuilddeps")
      then [Spawn dpkg_checkbuilddeps_cmd None] else [])
  ++ [RmTree td].

(** One of the two commands that the script runs with sudo: the update of
    the package lists, or the installation of packages by their names. *)
Definition apt_get_event (ev : event) : Prop :=
  ev = Spawn DebPublish.apt_update_cmd None
  \/ exists pkgs, ev = Spawn (DebPublish.apt_install_cmd pkgs) None
                  /\ pkgs <> [] /\ Forall package_name pkgs.

(** The Debian helper is asked for a build: choice 3 or 4. *)
Definition asks_build (reply : str) : bool := str_in (strip reply) [lit "3"; lit "4"].

(** [m] only adds events to the trace, all of them with [P], and what it
    returns has [Q]. *)
Definition emits {E A} (P : event -> Prop) (Q : A -> Prop) (m : M E A) : Prop :=
  forall s, exists evs,
    trace (m s).2 = trace s ++ evs /\ Forall P evs
    /\ forall x, (m s).1 = Ret x -> Q x.

Definition anything {A} : A -> Prop := fun _ => True.

(** A Debian machine with the build tools and sudo, where
    [dpkg-checkbuilddeps] reports two unmet build dependencies. *)
Definition unmet_answers (argv : list str) : completed :=
  if bool_decide (argv = dpkg_checkbuilddeps_cmd)
  then Completed 1 [] unmet_example
  else Completed 0 [] [].

Definition debian_box : box :=
  Box [(pjoin repo (lit "setup.py"), setup_plain);
       (pjoin repo (lit "kport.py"), []);
       (lit "/etc/debian_version", lit "12.5")]
      [lit "dpkg-buildpackage"; lit "dpkg"; lit "fakeroot"; lit "dpkg-checkbuilddeps";
       lit "sudo"]
      unmet_answers [] [].

Definition on_linux : unit -> str := fun _ => lit "Linux".

(** The Debian helper on that machine. *)
Definition debian_box_run (typed : list str) : Z * state unit :=
  DebPublish.deb_publish_py (box_world repo debian_box) ascii_only_alnum
    ascii_only_decimal (fun x => x) on_linux (start typed).

(** ** publish.py as a program *)

(** publish.py runs its commands through the shell. Of what it prints, the
    trace keeps the two lines of [run_command] that tell how a command
    ended. *)
Module Publish.
Section Program.
Context {E : Type} (w : world E).

(** [sys.platform] *)
Variable sys_platform : E -> str.

(** What [subprocess.run(cmd, shell=True)] launches for a command line: the
    shell and its arguments, [/bin/sh -c cmd] on POSIX. *)
Variable shell : str -> list str.

Definition shell_run (cmd : str) : M E completed := subprocess_run w (shell cmd) None.

Definition run_command (cmd description : str) : M E completed :=
  result <- shell_run cmd ;;
  if negb (returncode result =? 0)%Z
  then say (ErrFailed description) ;;; sys_exit 1
  else say (OkDone description) ;;; ret result.

Definition required : list str := [lit "build"; lit "twine"].

Definition affirmative (reply : str) : bool :=
  str_in (py_lower reply) [lit "y"; lit "yes"].

Definition check_requirements : M E unit :=
  shown <- for_each (fun package =>
                       result <- shell_run (lit "pip show " ++ package) ;;
                       ret (package, negb (returncode result =? 0)%Z))
                    required ;;
  let missing := List.map fst (List.filter snd shown) in
  if nonempty_list missing then
    install <- input ;;
    if affirmative install then
      run_command (lit "pip install " ++ join (lit " ") missing)
                  (lit "Installing " ++ join (lit ", ") missing) ;;;
      ret tt
    else sys_exit 1
  else ret tt.

Definition build_dirs : list str := [lit "dist"; lit "build"; lit "kport.egg-info"].

Definition clean_build : M E unit :=
  for_each (fun d =>
              ex <- observe (fun e => file_exists w e d) ;;
              if ex then
                platform <- observe sys_platform ;;
                (if str_eqb platform (lit "win32")
                 then shell_run (lit "rmdir /s /q " ++ d)
                 else shell_run (lit "rm -rf " ++ d)) ;;;
                ret tt
              else ret tt)
           build_dirs ;;;
  ret tt.

Definition build_cmd : str := lit "python -m build".

Definition build_package : M E unit :=
  run_command build_cmd (lit "Building package") ;;; ret tt.

Definition test_upload_cmd : str :=
  lit "python -m twine upload --repository testpypi dist/*".

Definition upload_cmd : str := lit "python -m twine upload dist/*".

Definition upload_to_test_pypi : M E unit :=
  proceed <- input ;;
  if affirmative proceed
  then run_command test_upload_cmd (lit "Uploading to Test PyPI") ;;; ret tt
  else ret tt.

Definition upload_to_pypi : M E unit :=
  proceed <- input ;;
  if affirmative proceed
  then run_command upload_cmd (lit "Uploading to PyPI") ;;; ret tt
  else ret tt.

(** It prints the instructions. *)
Definition create_github_release : M E unit := ret tt.

Definition main : M E unit :=
  reply <- input ;;
  let choice := strip reply in
  if str_eqb choice (lit "0") then sys_exit 0 else
  (if str_in choice [lit "1"; lit "2"; lit "3"; lit "5"]
   then check_requirements ;;; clean_build ;;; build_package
   else ret tt) ;;;
  (if str_in choice [lit "2"; lit "5"] then upload_to_test_pypi else ret tt) ;;;
  (if str_in choice [lit "3"; lit "5"] then
     (if str_eqb choice (lit "5") then
        proceed <- input ;;
        if negb (affirmative proceed) then sys_exit 0 else ret tt
      else ret tt) ;;;
     upload_to_pypi
   else ret tt) ;;;
  (if str_eqb choice (lit "4") then create_github_release else ret tt) ;;;
  (if negb (str_in choice [lit "0"; lit "1"; lit "2"; lit "3"; lit "4"; lit "5"])
   then sys_exit 1 else ret tt) ;;;
  ret tt.

(** The script run as a program: its exit status. [sys.exit] sets it; any
    other exception is reported and gives status 1. *)
Definition publish_py : state E -> Z * state E := fun s =>
  match main s with
  | (Ret _, s') => (0%Z, s')
  | (Raise (SystemExit c), s') => (c, s')
  | (Raise _, s') => (1%Z, s')
  end.

End Program.
End Publish.

(** The shell of a POSIX machine. *)
Definition posix_shell (cmd : str) : list str := [lit "/bin/sh"; lit "-c"; cmd].

(** [m] only adds events to the trace, all of them with [P], and reads at
    most [n] of the lines that are typed, from the first on. *)
Definition steps {E A} (n : nat) (P : event -> Prop) (m : M E A) : Prop :=
  forall s, exists evs consumed,
    trace (m s).2 = trace s ++ evs /\ Forall P evs
    /\ stdin s = consumed ++ stdin (m s).2 /\ (length consumed <= n)%nat.

(** When [m] reports a command as failed, this is the last thing it does, and
    it ends with [sys.exit(1)]. *)
Definition stops_at_failure {E A} (m : M E A) : Prop :=
  forall s, exists evs,
    trace (m s).2 = trace s ++ evs
    /\ forall d, In (Print (ErrFailed d)) evs ->
                 (m s).1 = Raise (SystemExit 1)
                 /\ exists before, evs = before ++ [Print (ErrFailed d)].

(** The surroundings after the events [evs], from the surroundings [e]:
    what is printed leaves them as they are. *)
Definition env_after {E} (w : world E) (e : E) (evs : list event) : E :=
  foldl (fun e ev => match ev with Print _ => e | _ => effect w e ev end) e evs.

(** The command lines that publish.py hands to its [run_command]: the
    installation of the missing packages, the build and the two uploads. *)
Definition checked_command (cmd : str) : Prop :=
  cmd = Publish.build_cmd \/ cmd = Publish.test_upload_cmd \/ cmd = Publish.upload_cmd
  \/ exists missing, cmd = lit "pip install " ++ join (lit " ") missing.

(** An event that is not the run of a checked command line. *)
Definition unchecked (shell : str -> list str) (ev : event) : Prop :=
  forall cmd, checked_command cmd -> ev <> Spawn (shell cmd) None.

(** [m] only adds events to the trace, all of them with [P], and leaves the
    surroundings that these events make. *)
Definition tracks {E A} (w : world E) (P : event -> Prop) (m : M E A) : Prop :=
  forall s, exists evs,
    trace (m s).2 = trace s ++ evs
    /\ env (m s).2 = env_after w (env s) evs
    /\ Forall P evs.

(** Whenever [m] has run one of the checked command lines and the command
    has exited with another status than 0, the report of the failure is all
    that follows, and [m] ends with [sys.exit(1)]. *)
Definition checks_commands {E A} (w : world E) (shell : str -> list str) (m : M E A)
    : Prop :=
  forall s, exists evs,
    trace (m s).2 = trace s ++ evs
    /\ env (m s).2 = env_after w (env s) evs
    /\ forall before cmd after,
         evs = before ++ Spawn (shell cmd) None :: after ->
         checked_command cmd ->
         returncode (spawn w (env_after w (env s) before) (shell cmd) None) <> 0%Z ->
         (m s).1 = Raise (SystemExit 1)
         /\ exists d, after = [Print (ErrFailed d)].



(** publish.py on a POSIX machine of the sample kind. *)
Definition posix_publish (b : box) (typed : list str) : Z * state unit :=
  Publish.publish_py (box_world repo b) on_linux posix_shell (start typed).

(** A machine with a shell where every command succeeds. *)
Definition shell_box : box := Box [] [lit "/bin/sh"] no_answer [] [].

(** A machine with a shell where [pip show] finds no package. *)
Definition pip_show_fails (argv : list str) : completed :=
  if prefixb (lit "pip show") (default [] (argv !! 2%nat)) then Completed 1 [] []
  else Completed 0 [] [].

Definition bare_box : box := Box [] [lit "/bin/sh"] pip_show_fails [] [].

(** A machine with a shell where the build fails, with status 2, and every
    other command succeeds. *)
Definition build_fails (argv : list str) : completed :=
  if bool_decide (argv = posix_shell Publish.build_cmd) then Completed 2 [] []
  else Completed 0 [] [].

Definition failing_build_box : box := Box [] [lit "/bin/sh"] build_fails [] [].

(** * Properties *)

(** ** The matcher and what a pattern matches *)

Lemma lastc_cons c a prev : lastc (c :: a) prev = lastc a (Some c).
Proof.
  unfold lastc. revert c prev. induction a as [|x a IH]; intros c prev; [done|].
  change (List.map Some (c :: x :: a)) with (Some c :: List.map Some (x :: a)).
  change (List.last (Some c :: List.map Some (x :: a)) prev)
    with (List.last (List.map Some (x :: a)) prev).
  rewrite (IH x prev), (IH x (Some c)). done.
Qed.

Lemma pushall_cons rec c a acc :
  pushall rec (c :: a) acc = pushall rec a (push rec c acc).
Proof.
  unfold pushall, push. destruct rec; [|done].
  simpl. rewrite <- app_assoc. done.
Qed.

Lemma pushall_nil rec acc : pushall rec [] acc = acc.
Proof. by destruct rec. Qed.

Section Star.
Variables (p : char -> bool) (k : option char -> str -> str -> option str)
          (D : option char -> str -> str -> str -> Prop) (rec : bool).

Lemma star_sound :
  (forall prev s acc r, k prev s acc = Some r -> D prev s acc r) ->
  forall s prev acc r,
    star p k rec prev s acc = Some r ->
    exists a b, s = a ++ b /\ forallb p a = true
                /\ D (lastc a prev) b (pushall rec a acc) r.
Proof.
  intros Hk. induction s as [|c s IH]; intros prev acc r H; simpl in H.
  - exists [], []. split_and!; [done..|]. rewrite pushall_nil. apply Hk, H.
  - destruct (p c) eqn:Hp.
    + destruct (star p k rec (Some c) s (push rec c acc)) as [r'|] eqn:Hs.
      * injection H as <-. apply IH in Hs as (a & b & -> & Ha & HD).
        exists (c :: a), b. rewrite lastc_cons, pushall_cons. simpl.
        rewrite Hp. done.
      * exists [], (c :: s). split_and!; [done..|]. rewrite pushall_nil. apply Hk, H.
    + exists [], (c :: s). split_and!; [done..|]. rewrite pushall_nil. apply Hk, H.
Qed.

Lemma star_complete :
  (forall prev s acc r, D prev s acc r -> is_Some (k prev s acc)) ->
  forall a b prev acc r,
    forallb p a = true ->
    D (lastc a prev) b (pushall rec a acc) r ->
    is_Some (star p k rec prev (a ++ b) acc).
Proof.
  intros Hk. induction a as [|c a IH]; intros b prev acc r Ha HD.
  - rewrite pushall_nil in HD. simpl in *. apply Hk in HD. destruct b as [|c b]; simpl; [done|].
    destruct (p c); [|done].
    destruct (star p k rec (Some c) b (push rec c acc)); [by eexists|done].
  - simpl in Ha. apply andb_prop in Ha as [Hc Ha].
    rewrite lastc_cons, pushall_cons in HD.
    simpl. rewrite Hc.
    destruct (IH b (Some c) (push rec c acc) r Ha HD) as [r' ->]. by eexists.
Qed.

End Star.

Lemma run_sound pat : forall rec prev s acc r,
  run pat rec prev s acc = Some r -> den pat rec prev s acc r.
Proof.
  induction pat as [|it rest IH]; intros rec prev s acc r H; simpl in H.
  - simpl. congruence.
  - destruct it; simpl.
    + destruct s as [|c s]; [done|]. destruct (p c) eqn:Hp; [|done].
      exists c, s. auto.
    + apply (star_sound p _ (den rest rec)) in H; [done|]. intros; by apply IH.
    + destruct s as [|c s]; [done|]. destruct (p c) eqn:Hp; [|done].
      apply (star_sound p _ (den rest rec)) in H; [|intros; by apply IH].
      destruct H as (a & b & -> & Ha & HD).
      exists (c :: a), b. rewrite lastc_cons, pushall_cons. simpl. rewrite Hp.
      done.
    + by apply IH.
    + by apply IH.
    + destruct (xorb _ _); [|done]. split; [done|by apply IH].
    + destruct (at_eol s); [|done]. split; [done|by apply IH].
Qed.

Lemma run_complete pat : forall rec prev s acc r,
  den pat rec prev s acc r -> is_Some (run pat rec prev s acc).
Proof.
  induction pat as [|it rest IH]; intros rec prev s acc r H; simpl in H |- *.
  - by eexists.
  - destruct it.
    + destruct H as (c & s' & -> & Hp & H). rewrite Hp. by eapply IH.
    + destruct H as (a & b & -> & Ha & H).
      eapply (star_complete p _ (den rest rec)); [|done|done].
      intros; by eapply IH.
    + destruct H as (a & b & -> & Hne & Ha & H).
      destruct a as [|c a]; [done|]. simpl in Ha |- *.
      apply andb_prop in Ha as [Hc Ha]. rewrite Hc.
      rewrite lastc_cons, pushall_cons in H.
      eapply (star_complete p _ (den rest rec)); [|done|done].
      intros; by eapply IH.
    + by eapply IH.
    + by eapply IH.
    + destruct H as [-> H]. by eapply IH.
    + destruct H as [-> H]. by eapply IH.
Qed.
Lemma search_at_unfold pat prev s :
  search_at pat prev s =
  match run pat false prev s [] with
  | Some g => Some g
  | None => match s with [] => None | c :: s' => search_at pat (Some c) s' end
  end.
Proof. by destruct s. Qed.

Lemma lastc_nil prev : lastc [] prev = prev.
Proof. done. Qed.

Lemma search_at_some pat : forall s prev r,
  search_at pat prev s = Some r ->
  exists pre post,
    s = pre ++ post /\ den pat false (lastc pre prev) post [] r
    /\ forall pre' post' r', s = pre' ++ post' -> (length pre' < length pre)%nat ->
                             ~ den pat false (lastc pre' prev) post' [] r'.
Proof.
  induction s as [|c s IH]; intros prev r H; rewrite search_at_unfold in H.
  - destruct (run pat false prev [] []) as [g|] eqn:Hr; [|done].
    injection H as ->. exists [], []. split_and!; [done|by apply run_sound|].
    simpl. lia.
  - destruct (run pat false prev (c :: s) []) as [g|] eqn:Hr.
    + injection H as ->. exists [], (c :: s).
      split_and!; [done|by apply run_sound|]. simpl. lia.
    + apply IH in H as (pre & post & -> & Hd & Hmin).
      exists (c :: pre), post. rewrite lastc_cons. split_and!; [done..|].
      intros pre' post' r' Heq Hlen Hd'. destruct pre' as [|c' pre'].
      * simpl in Heq. subst post'. apply run_complete in Hd'.
        rewrite lastc_nil, Hr in Hd'. by destruct Hd'.
      * simpl in Heq. injection Heq as -> Heq. rewrite lastc_cons in Hd'.
        eapply Hmin; [done| |done]. simpl in Hlen. lia.
Qed.

Lemma search_at_none pat : forall s prev,
  search_at pat prev s = None ->
  forall pre post r, s = pre ++ post -> ~ den pat false (lastc pre prev) post [] r.
Proof.
  induction s as [|c s IH]; intros prev H pre post r Heq Hd;
    rewrite search_at_unfold in H.
  - destruct pre; [|done]. simpl in Heq. subst post.
    apply run_complete in Hd. rewrite lastc_nil in Hd.
    destruct (run pat false prev [] []); [done|]. by destruct Hd.
  - destruct (run pat false prev (c :: s) []) as [g|] eqn:Hr; [done|].
    destruct pre as [|c' pre].
    + simpl in Heq. subst post. apply run_complete in Hd.
      rewrite lastc_nil, Hr in Hd. by destruct Hd.
    + simpl in Heq. injection Heq as -> Heq. rewrite lastc_cons in Hd.
      by eapply IH.
Qed.

Lemma search_at_is_some pat : forall pre post prev r,
  den pat false (lastc pre prev) post [] r ->
  is_Some (search_at pat prev (pre ++ post)).
Proof.
  intros pre post prev r Hd.
  destruct (search_at pat prev (pre ++ post)) eqn:H; [by eexists|].
  exfalso. by eapply search_at_none.
Qed.

(** The leftmost match decides the result of a search, when the pattern
    matches in one way only at its position. *)
Lemma search_at_leftmost pat pre post prev r :
  den pat false (lastc pre prev) post [] r ->
  (forall r', den pat false (lastc pre prev) post [] r' -> r' = r) ->
  (forall pre' post' r', pre ++ post = pre' ++ post' ->
     (length pre' < length pre)%nat ->
     ~ den pat false (lastc pre' prev) post' [] r') ->
  search_at pat prev (pre ++ post) = Some r.
Proof.
  intros Hd Hdet Hmin.
  destruct (search_at_is_some pat pre post prev r Hd) as [r0 H0].
  rewrite H0. f_equal.
  apply search_at_some in H0 as (pre0 & post0 & Heq & Hd0 & Hmin0).
  assert (length pre0 = length pre) as Hlen.
  { destruct (Nat.lt_trichotomy (length pre0) (length pre)) as [Hlt|[?|Hlt]];
      [|done|].
    - exfalso. by eapply (Hmin pre0 post0 r0).
    - exfalso. by eapply (Hmin0 pre post r). }
  apply app_inj_1 in Heq as [-> ->]; [|done]. by apply Hdet.
Qed.
Lemma den_lits l : forall rest rec prev s acc r,
  den (List.map (fun c => One (exact c)) l ++ rest) rec prev s acc r <->
  exists s', s = l ++ s' /\ den rest rec (lastc l prev) s' (pushall rec l acc) r.
Proof.
  induction l as [|c l IH]; intros rest rec prev s acc r.
  - simpl. rewrite pushall_nil. split; [intros H; by exists s|].
    by intros (s' & -> & H).
  - simpl. split.
    + intros (x & s' & -> & Hx & H). apply N.eqb_eq in Hx as ->.
      apply IH in H as (s'' & -> & H). exists s''.
      by rewrite lastc_cons, pushall_cons.
    + intros (s' & -> & H). exists c, (l ++ s'). split_and!; [done|apply N.eqb_refl|].
      apply IH. exists s'. by rewrite lastc_cons, pushall_cons in H.
Qed.

(** A run of a class that ends at a character outside of the class is
    determined by the text. *)
Lemma run_unique (p : char -> bool) a a' c c' (b b' : list N) :
  a ++ c :: b = a' ++ c' :: b' ->
  forallb p a = true -> forallb p a' = true -> p c = false -> p c' = false ->
  a = a' /\ c = c' /\ b = b'.
Proof.
  revert a'. induction a as [|x a IH]; intros [|x' a'] Heq Ha Ha' Hc Hc';
    simpl in *.
  - by injection Heq as -> ->.
  - injection Heq as -> _. apply andb_prop in Ha' as [? _]. congruence.
  - injection Heq as -> _. apply andb_prop in Ha as [? _]. congruence.
  - injection Heq as -> Heq. apply andb_prop in Ha as [_ Ha].
    apply andb_prop in Ha' as [_ Ha'].
    destruct (IH a' Heq Ha Ha' Hc Hc') as (-> & -> & ->). done.
Qed.

Lemma rev_pushall_true a : rev (pushall true a []) = a.
Proof. unfold pushall. by rewrite app_nil_r, rev_involutive. Qed.

Lemma den_assign_re prev s r :
  den assign_re false prev s [] r <-> follows_keyword s r.
Proof.
  unfold assign_re, follows_keyword. simpl. split.
  - intros (ws1 & b1 & -> & Hws1 & c1 & b2 & -> & Hc1 & ws2 & b3 & -> & Hws2
            & q1 & b4 & -> & Hq1 & x & b5 & -> & Hne & Hx & q2 & post & -> & Hq2 & Hr).
    apply N.eqb_eq in Hc1 as ->.
    rewrite ?app_nil_r, ?rev_involutive in Hr. subst r.
    exists ws1, ws2, q1, q2, post. split_and!; try done.
  - intros (ws1 & ws2 & q1 & q2 & post & -> & Hws1 & Hws2 & Hq1 & Hq2 & Hne & Hx).
    exists ws1, ([61] ++ ws2 ++ [q1] ++ r ++ [q2] ++ post). split_and!; [done..|].
    exists 61, (ws2 ++ [q1] ++ r ++ [q2] ++ post). split_and!; [done..|].
    exists ws2, ([q1] ++ r ++ [q2] ++ post). split_and!; [done..|].
    exists q1, (r ++ [q2] ++ post). split_and!; [done..|].
    exists r, ([q2] ++ post). split_and!; [done..|].
    exists q2, post. rewrite ?app_nil_r, ?rev_involutive. done.
Qed.

Lemma isspace_quote q : isquote q = true -> isspace q = false.
Proof.
  unfold isquote. intros [->%N.eqb_eq| ->%N.eqb_eq]%orb_prop; done.
Qed.

Lemma notquote_quote q : isquote q = true -> notquote q = false.
Proof. unfold notquote. by intros ->. Qed.

Lemma follows_keyword_unique s r r' :
  follows_keyword s r -> follows_keyword s r' -> r = r'.
Proof.
  intros (ws1 & ws2 & q1 & q2 & post & -> & Hws1 & Hws2 & Hq1 & Hq2 & Hne & Hx)
         (ws1' & ws2' & q1' & q2' & post' & Heq & Hws1' & Hws2' & Hq1' & Hq2' & Hne' & Hx').
  simpl in Heq.
  apply (run_unique isspace) in Heq as (_ & _ & Heq); [|done..].
  apply (run_unique isspace) in Heq as (_ & _ & Heq);
    [|done|done|by apply isspace_quote..].
  apply (run_unique notquote) in Heq as (? & _ & _);
    [done|done|done|by apply notquote_quote..].
Qed.
(** ** Claim C4: the version resolvers *)

Lemma den_version_re prev post r :
  den version_re false prev post [] r <->
  exists s, post = lit "version" ++ s /\ follows_keyword s r.
Proof.
  unfold version_re, lits. rewrite den_lits. simpl pushall.
  split; intros (s & -> & H); exists s; (split; [done|]).
  - exact (proj1 (den_assign_re _ _ _) H).
  - exact (proj2 (den_assign_re _ _ _) H).
Qed.

Section Resolvers.
Variable alnum_hi : char -> bool.

Lemma den_project_version_re prev post r :
  den (project_version_re alnum_hi) false prev post [] r <->
  isword (wordchar alnum_hi) prev = false
  /\ exists s, post = lit "version" ++ s /\ follows_keyword s r.
Proof.
  unfold project_version_re.
  change (den (WordB (wordchar alnum_hi) :: version_re) false prev post [] r)
    with (xorb (isword (wordchar alnum_hi) prev) (isword (wordchar alnum_hi) (head post)) = true
          /\ den version_re false prev post [] r).
  rewrite den_version_re. split.
  - intros [Hx (s & -> & H)]. split; [|by exists s].
    change (head (lit "version" ++ s)) with (Some 118) in Hx.
    change (isword (wordchar alnum_hi) (Some 118)) with true in Hx.
    by destruct (isword (wordchar alnum_hi) prev).
  - intros [Hp (s & -> & H)]. split; [|by exists s].
    change (head (lit "version" ++ s)) with (Some 118).
    change (isword (wordchar alnum_hi) (Some 118)) with true.
    by rewrite Hp.
Qed.

End Resolvers.

(** The search for a keyword pattern finds the first assignment. *)
Lemma search_first pat (okp : option char -> Prop) :
  (forall prev post r,
     den pat false prev post [] r <->
     okp prev /\ exists s, post = lit "version" ++ s /\ follows_keyword s r) ->
  forall text,
    (forall pre x, first_assignment (fun pre => okp (lastc pre None)) text pre x ->
                   re_search pat text = Some x)
    /\ ((forall pre x, assignment text pre x -> ~ okp (lastc pre None)) ->
        re_search pat text = None).
Proof.
  intros Hden text. split.
  - intros pre x ((s & -> & Hf) & Hok & Hmin). unfold re_search.
    apply search_at_leftmost.
    + apply Hden. split; [done|]. by exists s.
    + intros r' (_ & s' & Heq & Hf')%Hden.
      apply app_inv_head in Heq as <-. by eapply follows_keyword_unique.
    + intros pre' post' r' Heq Hlen (Hok' & s' & -> & Hf')%Hden.
      enough (length pre <= length pre')%nat by lia.
      apply (Hmin pre' r'); [|done]. by exists s'.
  - intros Hno. unfold re_search.
    destruct (search_at pat None text) as [r|] eqn:H; [|done]. exfalso.
    apply search_at_some in H as (pre & post & -> & (Hok & s & -> & Hf)%Hden & _).
    apply (Hno pre r); [|done]. by exists s.
Qed.

Section ResolverRuns.
Context {E : Type} (w : world E).
Variable alnum_hi : char -> bool.

Lemma read_version_from_setup_run (s : state E) :
  read_version_from_setup w s =
  (Ret (if file_exists w (env s) (SETUP_PY w)
        then strip <$> re_search version_re (read_text w (env s) (SETUP_PY w))
        else None), s).
Proof.
  unfold read_version_from_setup, bind, observe, ret.
  destruct (file_exists w (env s) (SETUP_PY w)); simpl; [|done].
  by destruct (re_search version_re _).
Qed.

Lemma read_project_version_run (s : state E) :
  read_project_version w alnum_hi s =
  (Ret (if file_exists w (env s) (SETUP_PY w)
        then strip <$> re_search (project_version_re alnum_hi)
                         (read_text w (env s) (SETUP_PY w))
        else None), s).
Proof.
  unfold read_project_version, bind, observe, ret. fold (SETUP_PY w).
  destruct (file_exists w (env s) (SETUP_PY w)); simpl; [|done].
  by destruct (re_search _ _).
Qed.

End ResolverRuns.

(** C4, as amended. Both version resolvers (of release.py and of
    deb_publish.py) return the value of the first assignment of the metadata
    text, stripped: the keyword [version] (for deb_publish.py: not preceded
    by a word character), blanks, [=], blanks, a quote of either kind, one or
    more characters that are not quotes, and a quote of either kind. They
    return [None] when the text has no such assignment and when setup.py is
    missing. They never raise, leave the state as it is, and take any value
    without validating it. *)
Theorem version_resolvers_first_assignment
    {E : Type} (w : world E) (alnum_hi : char -> bool) (s : state E) :
  let text := read_text w (env s) (SETUP_PY w) in
  (file_exists w (env s) (SETUP_PY w) = false ->
     read_version_from_setup w s = (Ret None, s)
     /\ read_project_version w alnum_hi s = (Ret None, s))
  /\ (file_exists w (env s) (SETUP_PY w) = true ->
      (forall pre x, first_assignment (fun _ => True) text pre x ->
         read_version_from_setup w s = (Ret (Some (strip x)), s))
      /\ ((forall pre x, ~ assignment text pre x) ->
          read_version_from_setup w s = (Ret None, s))
      /\ (forall pre x,
            first_assignment (word_start (wordchar alnum_hi)) text pre x ->
            read_project_version w alnum_hi s = (Ret (Some (strip x)), s))
      /\ ((forall pre x, assignment text pre x ->
                         ~ word_start (wordchar alnum_hi) pre) ->
          read_project_version w alnum_hi s = (Ret None, s))).
Proof.
  intros text. rewrite read_version_from_setup_run, read_project_version_run.
  split; intros ->; [done|]. fold text.
  destruct (search_first version_re (fun _ => True)) with (text := text)
    as [Hsome Hnone].
  { intros. rewrite den_version_re. tauto. }
  destruct (search_first (project_version_re alnum_hi)
              (fun prev => isword (wordchar alnum_hi) prev = false))
    with (text := text) as [Hsome' Hnone'].
  { intros. apply den_project_version_re. }
  split_and!.
  - intros pre x H. by rewrite (Hsome pre x H).
  - intros H. rewrite Hnone; [done|]. intros pre x Ha _. by apply (H pre x).
  - intros pre x H. by rewrite (Hsome' pre x H).
  - intros H. by rewrite Hnone'.
Qed.
Lemma version_resolvers_first_assignment_witness :
  read_version_from_setup (box_world repo (box_with_setup setup_plain)) (start [])
  = (Ret (Some (lit "2.0.0")), start [])
  /\ read_project_version (box_world repo (box_with_setup setup_plain))
       ascii_only_alnum (start [])
     = (Ret (Some (lit "2.0.0")), start []).
Proof.
  destruct (version_resolvers_first_assignment
              (box_world repo (box_with_setup setup_plain)) ascii_only_alnum
              (start [])) as [_ H].
  destruct H as (H1 & _ & H2 & _); [reflexivity|].
  assert (assignment setup_plain [] (lit "2.0.0")) as Ha.
  { exists (lit "='2.0.0'"). split; [reflexivity|].
    exists [], [], 39, 39, []. repeat split; try reflexivity. discriminate. }
  split.
  - apply (H1 [] (lit "2.0.0")). split; [exact Ha|].
    split; [exact I|]. intros; simpl; lia.
  - apply (H2 [] (lit "2.0.0")). split; [exact Ha|].
    split; [reflexivity|]. intros; simpl; lia.
Defined.

(** C4, as the claim words it, fails: a text whose value has a double quote
    before it and a single quote after it holds no assignment between two
    quotes of one kind, and the resolver returns the value all the same. *)
Lemma version_resolver_mismatched_quotes :
  (forall x, ~ quoted_assignment setup_mismatched x)
  /\ fst (read_version_from_setup (box_world repo (box_with_setup setup_mismatched))
            (start []))
     = Ret (Some (lit "1.0")).
Proof.
  split; [|reflexivity].
  intros x (pre & ws1 & ws2 & q & post & Heq & _ & _ & Hq & _).
  apply (f_equal (fun l => count_occ N.eq_dec l q)) in Heq.
  rewrite !count_occ_app in Heq.
  unfold isquote in Hq.
  apply orb_prop in Hq as [->%N.eqb_eq| ->%N.eqb_eq].
  - change (count_occ N.eq_dec setup_mismatched 34) with 1%nat in Heq.
    change (count_occ N.eq_dec [34] 34) with 1%nat in Heq. lia.
  - change (count_occ N.eq_dec setup_mismatched 39) with 1%nat in Heq.
    change (count_occ N.eq_dec [39] 39) with 1%nat in Heq. lia.
Qed.
(** ** Claim C2: the queries of the repository state *)

Section Queries.
Context {E : Type} (w : world E).

Lemma subprocess_run_found cmd inp (s : state E) :
  which w (env s) (hd [] cmd) = true ->
  subprocess_run w cmd inp s =
  (Ret (spawn w (env s) cmd inp),
   State (effect w (env s) (Spawn cmd inp)) (stdin s) (trace s ++ [Spawn cmd inp])).
Proof. unfold subprocess_run. by intros ->. Qed.

Lemma subprocess_run_missing cmd inp (s : state E) :
  which w (env s) (hd [] cmd) = false ->
  subprocess_run w cmd inp s = (Raise FileNotFoundError, s).
Proof. unfold subprocess_run. by intros ->. Qed.

Lemma length_eqb_0 (l : list N) : (length l =? 0)%nat = true <-> l = [].
Proof. destruct l; simpl; split; done. Qed.

Lemma length_ltb_0 (l : list N) : (0 <? length l)%nat = true <-> l <> [].
Proof. destruct l; simpl; split; done. Qed.

End Queries.

(** C2, as amended. When git cannot be launched, both queries raise
    ([FileNotFoundError]) instead of returning a boolean. When git runs, no
    error is raised whatever its exit status: [check_git_status] returns
    whether the stripped standard output is empty, [check_tag_exists]
    whether it is not. *)
Theorem repository_queries_read_stdout_only
    {E : Type} (w : world E) (tag : str) (s : state E) :
  (which w (env s) (lit "git") = false ->
     fst (check_git_status w s) = Raise FileNotFoundError
     /\ fst (check_tag_exists w tag s) = Raise FileNotFoundError)
  /\ (which w (env s) (lit "git") = true ->
      (exists b, fst (check_git_status w s) = Ret b
                 /\ (b = true <-> clean w (env s)))
      /\ (exists b, fst (check_tag_exists w tag s) = Ret b
                    /\ (b = true <-> tag_listed w tag (env s)))).
Proof.
  split; intros Hgit.
  - unfold check_git_status, check_tag_exists, bind.
    rewrite !subprocess_run_missing by done. done.
  - unfold check_git_status, check_tag_exists, bind.
    rewrite !subprocess_run_found by done. simpl. split; eexists; (split; [done|]).
    + apply length_eqb_0.
    + apply length_ltb_0.
Qed.

Lemma repository_queries_read_stdout_only_witness :
  (exists b, fst (check_git_status (box_world repo not_a_repository) (start [])) = Ret b
             /\ (b = true <-> clean (box_world repo not_a_repository) tt))
  /\ (exists b, fst (check_tag_exists (box_world repo not_a_repository) (lit "v1.2.3")
                       (start [])) = Ret b
                /\ (b = true <-> tag_listed (box_world repo not_a_repository)
                                   (lit "v1.2.3") tt)).
Proof.
  apply (repository_queries_read_stdout_only (box_world repo not_a_repository)
           (lit "v1.2.3") (start [])).
  reflexivity.
Defined.

(** C2, as the claim words it, fails: outside of a repository git exits with
    128, and both queries return a boolean (clean, and no such tag) instead
    of raising. *)
Lemma repository_query_failure_not_raised :
  returncode (spawn (box_world repo not_a_repository) tt git_status_cmd None) = 128%Z
  /\ fst (check_git_status (box_world repo not_a_repository) (start [])) = Ret true
  /\ fst (check_tag_exists (box_world repo not_a_repository) (lit "v1.2.3")
            (start [])) = Ret false.
Proof. split_and!; reflexivity. Qed.
(** ** Claim C1: an existing tag stops the release *)

(** Each event of an explicit trace is of the kind wanted. *)
Ltac trace_ok :=
  repeat (constructor;
          [first [done | by intros [] | by left | by right]|]);
  try constructor.

Section Release.
Context {E : Type} (w : world E).

Lemma bind_run {A B} (m : M E A) (f : A -> M E B) s :
  bind m f s =
  match m s with
  | (Ret a, s') => f a s'
  | (Raise e, s') => (Raise e, s')
  end.
Proof. done. Qed.

Lemma say_run m (s : state E) :
  say m s = (Ret tt, State (env s) (stdin s) (trace s ++ [Print m])).
Proof. done. Qed.

Lemma main_stages (a : args) :
  main w a =
  (say HdrRelease ;;;
   cur <- read_version_from_setup w ;;
   match cur with
   | None | Some [] => say ErrNoVersion ;;; sys_exit 1
   | Some current =>
       validation_stage w a (release_version a current)
         (tag_of (release_version a current))
   end).
Proof. reflexivity. Qed.

Lemma resolves_run e typed tr current :
  resolves w e current ->
  read_version_from_setup w (State e typed tr) = (Ret (Some current), State e typed tr).
Proof.
  intros (Hex & Hre & _). rewrite read_version_from_setup_run. simpl.
  by rewrite Hex, Hre.
Qed.

(** With a version in setup.py, [main] is its validation stage, after the
    first header. *)
Lemma main_resolved (a : args) e typed current :
  resolves w e current ->
  main w a (State e typed []) =
  validation_stage w a (release_version a current)
    (tag_of (release_version a current)) (State e typed [Print HdrRelease]).
Proof.
  intros Hres. rewrite main_stages, bind_run, say_run. cbn [env stdin trace app].
  rewrite bind_run, (resolves_run e typed _ current Hres).
  destruct Hres as (_ & _ & Hne). by destruct current.
Qed.

Lemma release_py_main (a : args) s :
  exists tail,
    release_py w a s = (exit_status (main w a s).1, State (env (main w a s).2)
                          (stdin (main w a s).2) (trace (main w a s).2 ++ tail))
    /\ Forall (fun ev => ev = Print ErrUnexpected) tail.
Proof.
  unfold release_py. destruct (main w a s) as [[u|[c| | | |]] [e' i' t']]; simpl.
  - exists []. by rewrite app_nil_r.
  - exists []. by rewrite app_nil_r.
  - exists [Print ErrUnexpected]. split; [done|]. by repeat constructor.
  - exists [Print ErrUnexpected]. split; [done|]. by repeat constructor.
  - exists [Print ErrUnexpected]. split; [done|]. by repeat constructor.
  - exists [Print ErrUnexpected]. split; [done|]. by repeat constructor.
Qed.

Lemma check_git_status_found (s : state E) :
  which w (env s) (lit "git") = true ->
  check_git_status w s =
  (Ret (length (strip (stdout (spawn w (env s) git_status_cmd None))) =? 0)%nat,
   State (after_status w (env s)) (stdin s) (trace s ++ [Spawn git_status_cmd None])).
Proof.
  intros H. unfold check_git_status. rewrite bind_run, subprocess_run_found by done.
  done.
Qed.

Lemma check_git_status_missing (s : state E) :
  which w (env s) (lit "git") = false ->
  check_git_status w s = (Raise FileNotFoundError, s).
Proof.
  intros H. unfold check_git_status. rewrite bind_run, subprocess_run_missing by done.
  done.
Qed.

Lemma check_tag_exists_found tag (s : state E) :
  which w (env s) (lit "git") = true ->
  check_tag_exists w tag s =
  (Ret (0 <? length (strip (stdout (spawn w (env s) (git_tag_l_cmd tag) None))))%nat,
   State (effect w (env s) (Spawn (git_tag_l_cmd tag) None)) (stdin s)
         (trace s ++ [Spawn (git_tag_l_cmd tag) None])).
Proof.
  intros H. unfold check_tag_exists. rewrite bind_run, subprocess_run_found by done.
  done.
Qed.

Lemma check_tag_exists_missing tag (s : state E) :
  which w (env s) (lit "git") = false ->
  check_tag_exists w tag s = (Raise FileNotFoundError, s).
Proof.
  intros H. unfold check_tag_exists. rewrite bind_run, subprocess_run_missing by done.
  done.
Qed.

Lemma state_eta (s : state E) : State (env s) (stdin s) (trace s) = s.
Proof. by destruct s. Qed.

(** The optional warning of a dry run. *)
Lemma dry_run_warning (a : args) (k : unit -> M E unit) (s : state E) :
  exists pre,
    bind (if dry_run a then say WarnDryRun else ret tt) k s
    = k tt (State (env s) (stdin s) (trace s ++ pre))
    /\ (pre = [] \/ pre = [Print WarnDryRun]).
Proof.
  destruct (dry_run a).
  - exists [Print WarnDryRun]. rewrite bind_run, say_run. auto.
  - exists []. rewrite bind_run. unfold ret. rewrite app_nil_r, state_eta. auto.
Qed.

(** The validation stage when the tag is listed: it stops before the tag
    stage, whatever the arguments. *)
Lemma validation_stage_tag_listed (a : args) version tag (s : state E) :
  tag_listed w tag (after_status w (env s)) ->
  exists r e' evs,
    validation_stage w a version tag s
    = (Raise r, State e' (stdin s) (trace s ++ evs))
    /\ (r = SystemExit 1 \/ r = FileNotFoundError)
    /\ Forall (validation_event tag) evs
    /\ In (Print HdrPreflight) evs.
Proof.
  intros Htag. unfold validation_stage.
  destruct (dry_run_warning a
    (fun _ => say HdrPreflight ;;;
      clean <- check_git_status w ;;
      if negb clean then say ErrDirty ;;; sys_exit 1 else
      say OkClean ;;;
      exists_ <- check_tag_exists w tag ;;
      if exists_ then say (ErrTagExists tag) ;;; sys_exit 1 else
      say (OkTagAvailable tag) ;;;
      tag_stage w a version tag) s) as (pre & -> & Hpre).
  assert (Forall (validation_event tag) pre) as Hpre'.
  { destruct Hpre as [-> | ->]; trace_ok. }
  clear Hpre.
  rewrite bind_run, say_run. cbn [env stdin trace].
  rewrite bind_run.
  destruct (which w (env s) (lit "git")) eqn:Hgit.
  2: { rewrite check_git_status_missing by done.
       exists FileNotFoundError, (env s), (pre ++ [Print HdrPreflight]).
       rewrite app_assoc. split_and!; [done|by right| |].
       - apply Forall_app. split; [done|]. trace_ok.
       - apply in_or_app. right. by left. }
  rewrite check_git_status_found by done. cbn [env stdin trace].
  destruct (length (strip (stdout (spawn w (env s) git_status_cmd None))) =? 0)%nat.
  2: { cbn [negb]. rewrite bind_run, say_run. cbn [env stdin trace].
       exists (SystemExit 1), (after_status w (env s)),
         (pre ++ [Print HdrPreflight; Spawn git_status_cmd None; Print ErrDirty]).
       unfold sys_exit, raise. rewrite <- !app_assoc. split_and!; [done|by left| |].
       - apply Forall_app. split; [done|]. trace_ok.
       - apply in_or_app. right. by left. }
  cbn [negb]. rewrite bind_run, say_run. cbn [env stdin trace]. rewrite bind_run.
  destruct (which w (after_status w (env s)) (lit "git")) eqn:Hgit'.
  2: { rewrite check_tag_exists_missing by done.
       exists FileNotFoundError, (after_status w (env s)),
         (pre ++ [Print HdrPreflight; Spawn git_status_cmd None; Print OkClean]).
       rewrite <- !app_assoc. split_and!; [done|by right| |].
       - apply Forall_app. split; [done|]. trace_ok.
       - apply in_or_app. right. by left. }
  rewrite check_tag_exists_found by done. cbn [env stdin trace].
  apply length_ltb_0 in Htag. rewrite Htag.
  rewrite bind_run, say_run. cbn [env stdin trace].
  exists (SystemExit 1), (after_queries w tag (env s)),
    (pre ++ [Print HdrPreflight; Spawn git_status_cmd None; Print OkClean;
             Spawn (git_tag_l_cmd tag) None; Print (ErrTagExists tag)]).
  unfold sys_exit, raise. rewrite <- !app_assoc. split_and!; [done|by left| |].
  - apply Forall_app. split; [done|]. trace_ok.
  - apply in_or_app. right. by left.
Qed.

End Release.

(** C1. When the tag of the version to release is listed by git, the release
    stops during the validation of the repository state with exit status 1:
    up to there it has printed the header of the validation and run nothing
    but the two queries of the repository state; no tagging, build or
    publish step has started. A second run after a release that created the
    tag is such a run. *)
Theorem existing_tag_aborts_release
    {E : Type} (w : world E) (a : args) (e : E) (typed : list str) (current : str) :
  let tag := tag_of (release_version a current) in
  resolves w e current ->
  tag_listed w tag (after_status w e) ->
  exists s',
    release_py w a (State e typed []) = (1%Z, s')
    /\ Forall (validation_event tag) (trace s')
    /\ In (Print HdrPreflight) (trace s').
Proof.
  intros tag Hres Htag.
  destruct (release_py_main w a (State e typed [])) as (tail & -> & Htail).
  rewrite (main_resolved w a e typed current Hres). fold tag.
  destruct (validation_stage_tag_listed w a (release_version a current) tag
              (State e typed [Print HdrRelease]) Htag)
    as (r & e' & evs & -> & Hr & Hevs & Hin).
  eexists. split_and!.
  - f_equal. by destruct Hr as [-> | ->].
  - cbn [fst snd env stdin trace]. apply Forall_app. split.
    + apply Forall_app. split; [|done]. trace_ok.
    + eapply Forall_impl; [exact Htail|]. intros ev ->. by intros [].
  - cbn [fst snd env stdin trace]. apply in_or_app. left.
    apply in_or_app. by right.
Qed.
Lemma existing_tag_aborts_release_witness :
  exists s',
    release_py (box_world repo released_repository) (plain_args false) (start [])
    = (1%Z, s')
    /\ Forall (validation_event (lit "v1.2.3")) (trace s')
    /\ In (Print HdrPreflight) (trace s').
Proof.
  apply (existing_tag_aborts_release (box_world repo released_repository)
           (plain_args false) tt [] (lit "1.2.3")).
  - split_and!; [reflexivity|reflexivity|discriminate].
  - unfold tag_listed. vm_compute. discriminate.
Defined.

(** ** Claim C3: a dry run changes nothing *)

Section DryRun.
Context {E : Type} (w : world E).

Lemma ret_run {A} (x : A) (s : state E) : ret x s = (Ret x, s).
Proof. done. Qed.

Lemma summary_stage_run (a : args) version b1 b2 (s : state E) :
  summary_stage a version b1 b2 s
  = (Ret tt, State (env s) (stdin s) (trace s ++ summary_events a version b1 b2)).
Proof.
  unfold summary_stage, summary_events.
  rewrite bind_run, say_run. cbn [env stdin trace].
  destruct b1, b2, (negb (no_pypi a)), (negb (dry_run a)); cbn [andb];
    repeat first [rewrite bind_run | rewrite say_run | rewrite ret_run];
    cbn [env stdin trace]; rewrite <- ?app_assoc; reflexivity.
Qed.

Ltac exec :=
  repeat first [rewrite bind_run | rewrite say_run | rewrite ret_run
               | progress cbn [env stdin trace negb andb]].

Lemma publish_stage_dry (a : args) version tag b1 b2 (s : state E) :
  dry_run a = true ->
  exists evs,
    publish_stage w a version tag b1 b2 s
    = (Ret tt, State (env s) (stdin s) (trace s ++ evs))
    /\ Forall (read_only_event tag) evs /\ In (Print HdrComplete) evs.
Proof.
  intros Hdry. unfold publish_stage, create_github_release, command_exists, observe.
  rewrite Hdry, andb_false_r. 
  destruct (no_github a); exec; [|destruct (which w (env s) (lit "gh"))]; exec;
    rewrite summary_stage_run; cbn [env stdin trace]; rewrite <- ?app_assoc;
    unfold summary_events; rewrite Hdry;
    destruct b1, b2; cbn [negb andb app]; rewrite ?andb_false_r; cbn [app];
    (eexists; split_and!; [reflexivity|trace_ok|cbn [In]; auto 10]).
Qed.

Lemma build_stage_dry (a : args) version tag (s : state E) :
  dry_run a = true ->
  exists evs,
    build_stage w a version tag s
    = (Ret tt, State (env s) (stdin s) (trace s ++ evs))
    /\ Forall (read_only_event tag) evs /\ In (Print HdrComplete) evs.
Proof.
  intros Hdry. unfold build_stage, build_pypi_packages, build_debian_package.
  rewrite Hdry.
  destruct (no_pypi a), (no_deb a); exec;
    match goal with
    | |- context [publish_stage w a version tag ?b1 ?b2 ?s0] =>
        destruct (publish_stage_dry a version tag b1 b2 s0 Hdry)
          as (evs & -> & Hevs & Hin)
    end; cbn [env stdin trace]; rewrite <- ?app_assoc;
    (eexists; split_and!;
       [reflexivity
       |repeat (apply Forall_app; split; [trace_ok|]); done
       |rewrite ?in_app_iff; auto]).
Qed.

Lemma tag_stage_dry (a : args) version tag (s : state E) :
  dry_run a = true ->
  exists evs,
    tag_stage w a version tag s
    = (Ret tt, State (env s) (stdin s) (trace s ++ evs))
    /\ Forall (read_only_event tag) evs /\ In (Print HdrComplete) evs.
Proof.
  intros Hdry. unfold tag_stage. rewrite Hdry. exec.
  match goal with
  | |- context [build_stage w a version tag ?s0] =>
      destruct (build_stage_dry a version tag s0 Hdry) as (evs & -> & Hevs & Hin)
  end.
  cbn [env stdin trace]. rewrite <- ?app_assoc.
  eexists; split_and!; [reflexivity| |].
  - repeat (apply Forall_app; split; [trace_ok|]). done.
  - rewrite ?in_app_iff. auto 10.
Qed.

Lemma validation_stage_dry (a : args) version tag (s : state E) :
  dry_run a = true ->
  which w (env s) (lit "git") = true ->
  which w (after_status w (env s)) (lit "git") = true ->
  clean w (env s) ->
  ~ tag_listed w tag (after_status w (env s)) ->
  exists evs,
    validation_stage w a version tag s
    = (Ret tt, State (after_queries w tag (env s)) (stdin s) (trace s ++ evs))
    /\ Forall (read_only_event tag) evs /\ In (Print HdrComplete) evs.
Proof.
  intros Hdry Hgit Hgit' Hclean Htag. unfold validation_stage. rewrite Hdry. exec.
  rewrite check_git_status_found by done. exec.
  apply length_eqb_0 in Hclean. rewrite Hclean. exec.
  rewrite check_tag_exists_found by done. exec.
  destruct (0 <? length (strip (stdout (spawn w (after_status w (env s))
                                          (git_tag_l_cmd tag) None))))%nat eqn:Hl.
  { by apply length_ltb_0 in Hl. }
  exec.
  match goal with
  | |- context [tag_stage w a version tag ?s0] =>
      destruct (tag_stage_dry a version tag s0 Hdry) as (evs & -> & Hevs & Hin)
  end.
  cbn [env stdin trace]. rewrite <- ?app_assoc.
  eexists; split_and!; [reflexivity| |].
  - repeat (apply Forall_app; split; [trace_ok|]). done.
  - rewrite ?in_app_iff. auto 10.
Qed.

End DryRun.

(** C3. A dry run whose checks pass (a version in setup.py, a clean
    repository, no tag yet) ends with exit status 0 after the summary. All it
    has done is to print and to run the two queries of the repository state:
    no tag, no push, no build, no upload and no release; the surroundings are
    as the two queries leave them, and nothing was asked of the operator. *)
Theorem dry_run_changes_nothing
    {E : Type} (w : world E) (a : args) (e : E) (typed : list str) (current : str) :
  let tag := tag_of (release_version a current) in
  dry_run a = true ->
  resolves w e current ->
  which w e (lit "git") = true ->
  which w (after_status w e) (lit "git") = true ->
  clean w e ->
  ~ tag_listed w tag (after_status w e) ->
  exists evs,
    release_py w a (State e typed [])
    = (0%Z, State (after_queries w tag e) typed evs)
    /\ Forall (read_only_event tag) evs
    /\ In (Print HdrComplete) evs.
Proof.
  intros tag Hdry Hres Hgit Hgit' Hclean Htag.
  unfold release_py. rewrite (main_resolved w a e typed current Hres). fold tag.
  destruct (validation_stage_dry w a (release_version a current) tag
              (State e typed [Print HdrRelease]) Hdry Hgit Hgit' Hclean Htag)
    as (evs & -> & Hevs & Hin).
  cbn [env stdin trace]. eexists. split_and!; [reflexivity| |].
  - apply Forall_app. split; [trace_ok|done].
  - apply in_or_app. by right.
Qed.

Lemma dry_run_changes_nothing_witness :
  exists evs,
    release_py (box_world repo fresh_repository) (plain_args true) (start [])
    = (0%Z, State tt [] evs)
    /\ Forall (read_only_event (lit "v2.0.0")) evs
    /\ In (Print HdrComplete) evs.
Proof.
  apply (dry_run_changes_nothing (box_world repo fresh_repository)
           (plain_args true) tt [] (lit "2.0.0")).
  - reflexivity.
  - split_and!; [reflexivity|reflexivity|discriminate].
  - reflexivity.
  - reflexivity.
  - reflexivity.
  - unfold tag_listed. vm_compute. by intros H.
Defined.
(** ** Claim C9: a failed build does not stop the release *)

(** Whether something is printed in an explicit list of events. *)
Ltac in_explicit :=
  cbn [In app]; split;
  [first [discriminate | intros _; auto 10]
  |let H := fresh in
   intros H; first [reflexivity | repeat (destruct H as [H|H]; try discriminate H);
                                  destruct H]].

Section LiveRun.
Context {E : Type} (w : world E).

Ltac exec :=
  repeat first [rewrite bind_run | rewrite say_run | rewrite ret_run
               | progress cbn [env stdin trace negb andb]].

Lemma run_command_run cmd d check (s : state E) :
  which w (env s) (hd [] cmd) = true ->
  let r := spawn w (env s) cmd None in
  let e1 := effect w (env s) (Spawn cmd None) in
  run_command w cmd d check s =
  if check && negb (returncode r =? 0)%Z
  then (Raise (SystemExit (returncode r)),
        State e1 (stdin s) (trace s ++ [Spawn cmd None; Print (ErrFailed d)]))
  else if (returncode r =? 0)%Z
       then (Ret r, State e1 (stdin s) (trace s ++ [Spawn cmd None; Print (OkDone d)]))
       else (Ret r, State e1 (stdin s) (trace s ++ [Spawn cmd None])).
Proof.
  intros Hw r e1. unfold run_command. rewrite bind_run.
  rewrite subprocess_run_found by done. fold r e1.
  destruct check, (returncode r =? 0)%Z; exec; rewrite <- ?app_assoc; done.
Qed.

(** A command whose failure ends the run: it passes, or the run ends; either
    way nothing of the later steps is printed. *)
Lemma run_command_checked cmd d (s : state E) :
  exists e' evs,
    Forall prelude_event evs
    /\ (run_command w cmd d true s = (Ret (spawn w (env s) cmd None),
                                     State e' (stdin s) (trace s ++ evs))
        \/ exists x, run_command w cmd d true s
                     = (Raise x, State e' (stdin s) (trace s ++ evs))).
Proof.
  destruct (which w (env s) (hd [] cmd)) eqn:Hw.
  - rewrite run_command_run by done. cbn [andb].
    destruct (returncode (spawn w (env s) cmd None) =? 0)%Z; cbn [negb].
    + eexists _, _. split; [|left; reflexivity]. trace_ok.
    + eexists _, _. split; [|right; eexists; reflexivity]. trace_ok.
  - exists (env s), []. split; [trace_ok|]. right. exists FileNotFoundError.
    unfold run_command. rewrite bind_run, subprocess_run_missing by done.
    by rewrite app_nil_r, state_eta.
Qed.

Lemma input_run (e : E) l ls tr :
  input (State e (l :: ls) tr) = (Ret l, State e ls tr).
Proof. done. Qed.

Lemma input_eof (e : E) tr :
  input (State e [] tr) = (Raise EOFError, State e [] tr).
Proof. done. Qed.

(** From the confirmation on, when the run is not a dry run: the builds are
    reached, or the run ends before them. *)
Lemma tag_stage_live (a : args) version tag (s : state E) :
  dry_run a = false ->
  exists e' evs,
    Forall prelude_event evs
    /\ (tag_stage w a version tag s
        = build_stage w a version tag (State e' (tl (stdin s)) (trace s ++ evs))
        \/ exists x typed', tag_stage w a version tag s
                            = (Raise x, State e' typed' (trace s ++ evs))).
Proof.
  intros Hdry. unfold tag_stage. rewrite Hdry.
  destruct s as [e [|reply typed] tr]; cbn [env stdin trace tl]; exec.
  { rewrite input_eof. exists e, []. split; [trace_ok|]. right.
    exists EOFError, []. by rewrite app_nil_r. }
  rewrite input_run.
  destruct (str_in (py_lower (strip reply)) [lit "y"; lit "yes"]); exec.
  2: { eexists _, _. split; [|right; eexists _, _; reflexivity]. trace_ok. }
  set (c1 := [lit "git"; lit "tag"; lit "-a"; tag; lit "-m"; lit "Release " ++ version]).
  set (c2 := [lit "git"; lit "push"; lit "origin"; lit "main"]).
  set (c3 := [lit "git"; lit "push"; lit "origin"; lit "--tags"]).
  set (s1 := State e typed (tr ++ [Print HdrCreatingTag])).
  destruct (run_command_checked c1 (lit "Create tag " ++ tag) s1)
    as (e1 & evs1 & Hevs1 & [-> | [x ->]]).
  2: { exists e1, ([Print HdrCreatingTag] ++ evs1).
       split; [apply Forall_app; split; [trace_ok|done]|].
       right. exists x, typed. subst s1. cbn [env stdin trace].
       by rewrite <- app_assoc. }
  subst s1. cbn [env stdin trace]. exec.
  match goal with |- context [run_command w c2 ?d true ?s2] =>
    destruct (run_command_checked c2 d s2) as (e2 & evs2 & Hevs2 & [-> | [x ->]])
  end.
  2: { exists e2, ([Print HdrCreatingTag] ++ evs1 ++ evs2).
       split; [repeat (apply Forall_app; split; [trace_ok; done|]); done|].
       right. exists x, typed. cbn [env stdin trace].
       by rewrite <- !app_assoc. }
  cbn [env stdin trace]. exec.
  match goal with |- context [run_command w c3 ?d true ?s3] =>
    destruct (run_command_checked c3 d s3) as (e3 & evs3 & Hevs3 & [-> | [x ->]])
  end.
  2: { exists e3, ([Print HdrCreatingTag] ++ evs1 ++ evs2 ++ evs3).
       split; [repeat (apply Forall_app; split; [trace_ok; done|]); done|].
       right. exists x, typed. cbn [env stdin trace].
       by rewrite <- !app_assoc. }
  cbn [env stdin trace]. exec.
  exists e3, ([Print HdrCreatingTag] ++ evs1 ++ evs2 ++ evs3).
  split; [repeat (apply Forall_app; split; [trace_ok; done|]); done|].
  left. by rewrite <- !app_assoc.
Qed.

Lemma validation_stage_live (a : args) version tag (s : state E) :
  dry_run a = false ->
  exists e' evs,
    Forall prelude_event evs
    /\ (validation_stage w a version tag s
        = build_stage w a version tag (State e' (tl (stdin s)) (trace s ++ evs))
        \/ exists x typed', validation_stage w a version tag s
                            = (Raise x, State e' typed' (trace s ++ evs))).
Proof.
  intros Hdry. unfold validation_stage. rewrite Hdry. exec.
  destruct (which w (env s) (lit "git")) eqn:Hgit.
  2: { rewrite check_git_status_missing by done. cbn [env stdin trace].
       eexists _, _. split; [|right; eexists _, _; reflexivity]. trace_ok. }
  rewrite check_git_status_found by done. exec.
  destruct (length (strip (stdout (spawn w (env s) git_status_cmd None))) =? 0)%nat;
    exec.
  2: { unfold sys_exit, raise. rewrite <- !app_assoc.
       eexists _, _. split; [|right; eexists _, _; reflexivity]. trace_ok. }
  destruct (which w (after_status w (env s)) (lit "git")) eqn:Hgit'.
  2: { rewrite check_tag_exists_missing by done. cbn [env stdin trace].
       rewrite <- !app_assoc.
       eexists _, _. split; [|right; eexists _, _; reflexivity]. trace_ok. }
  rewrite check_tag_exists_found by done. exec.
  destruct (0 <? length _)%nat; exec.
  { unfold sys_exit, raise. rewrite <- !app_assoc.
    eexists _, _. split; [|right; eexists _, _; reflexivity]. trace_ok. }
  match goal with |- context [tag_stage w a version tag ?s1] =>
    destruct (tag_stage_live a version tag s1 Hdry)
      as (e1 & evs1 & Hevs1 & [-> | (x & typed' & ->)])
  end; cbn [env stdin trace]; rewrite <- !app_assoc.
  - eexists _, _. split; [|left; reflexivity].
    repeat (apply Forall_app; split; [trace_ok|]). done.
  - eexists _, _. split; [|right; eexists _, _; reflexivity].
    repeat (apply Forall_app; split; [trace_ok|]). done.
Qed.

(** A run that is not a dry run reaches the builds, or ends before them. *)
Lemma main_live (a : args) (e : E) (typed : list str) :
  dry_run a = false ->
  exists e' evs,
    Forall prelude_event evs
    /\ ((exists version,
           main w a (State e typed [])
           = build_stage w a version (tag_of version) (State e' (tl typed) evs))
        \/ exists x typed', main w a (State e typed [])
                            = (Raise x, State e' typed' evs)).
Proof.
  intros Hdry. rewrite main_stages. exec.
  rewrite read_version_from_setup_run. cbn [env stdin trace app].
  destruct (if file_exists w e (SETUP_PY w) then _ else None) as [[|c current]|];
    exec.
  1, 3: unfold sys_exit, raise;
        eexists _, _; (split; [|right; eexists _, _; reflexivity]); trace_ok.
  match goal with |- context [validation_stage w a ?v ?t ?s1] =>
    destruct (validation_stage_live a v t s1 Hdry)
      as (e1 & evs1 & Hevs1 & [-> | (x & typed' & ->)])
  end; cbn [env stdin trace].
  - eexists _, _. split; [|left; eexists; reflexivity].
    apply Forall_app. split; [trace_ok|done].
  - eexists _, _. split; [|right; eexists _, _; reflexivity].
    apply Forall_app. split; [trace_ok|done].
Qed.

(** The build of the PyPI packages returns, whatever happens to it. *)
Lemma build_pypi_live (s : state E) :
  exists b e' evs,
    build_pypi_packages w false s
    = (Ret b, State e' (stdin s) (trace s ++ Print HdrBuildingPypi :: evs))
    /\ (b = true <-> In (Print OkPypi) evs).
Proof.
  unfold build_pypi_packages, command_exists, observe. exec.
  destruct (which w (env s) (lit "python3")) eqn:Hpy; exec.
  2: { rewrite <- !app_assoc. eexists _, _, _. split; [reflexivity|].
       in_explicit. }
  destruct (file_exists w (env s) (pjoin (repo_root w) (lit "publish.py"))); exec.
  2: { rewrite <- !app_assoc. eexists _, _, _. split; [reflexivity|].
       in_explicit. }
  rewrite subprocess_run_found by done. exec.
  destruct (returncode _ =? 0)%Z; exec.
  2: { rewrite <- !app_assoc. eexists _, _, _. split; [reflexivity|].
       in_explicit. }
  destruct (negb (file_exists w _ _) || _); exec; rewrite <- !app_assoc;
    (eexists _, _, _; split; [reflexivity|]); in_explicit.
Qed.

(** So does the build of the Debian package, when python3 can be launched. *)
Lemma build_deb_live (s : state E) :
  (forall e, which w e (lit "python3") = true) ->
  exists b e' evs,
    build_debian_package w false s
    = (Ret b, State e' (stdin s) (trace s ++ Print HdrBuildingDeb :: evs))
    /\ (b = true <-> In (Print OkDeb) evs).
Proof.
  intros Hpy. unfold build_debian_package, observe. exec.
  destruct (file_exists w (env s) (pjoin (repo_root w) (lit "deb_publish.py"))); exec.
  2: { rewrite <- !app_assoc. eexists _, _, _. split; [reflexivity|].
       in_explicit. }
  rewrite subprocess_run_found by apply Hpy. exec.
  destruct (returncode _ =? 0)%Z; exec.
  2: { rewrite <- !app_assoc. eexists _, _, _. split; [reflexivity|].
       in_explicit. }
  destruct (negb (file_exists w _ _) || _); exec; rewrite <- !app_assoc;
    (eexists _, _, _; split; [reflexivity|]); in_explicit.
Qed.

Lemma get_release_notes_run version (e : E) reply typed tr :
  exists notes typed',
    get_release_notes version (State e (reply :: typed) tr)
    = (Ret notes, State e typed' tr).
Proof.
  unfold get_release_notes. exec. rewrite input_run.
  destruct (str_in _ _); exec; [by eexists _, _|].
  unfold input_lines. cbn [env stdin trace]. by eexists _, _.
Qed.

(** The release step returns, whatever happens to it, and shows itself. *)
Lemma create_github_release_live version tag notes (s : state E) :
  exists b e' evs,
    create_github_release w version tag notes false s
    = (Ret b, State e' (stdin s) (trace s ++ evs))
    /\ Exists release_step_event evs.
Proof.
  unfold create_github_release, command_exists, observe. exec.
  destruct (which w (env s) (lit "gh")) eqn:Hgh; exec.
  2: { eexists _, _, _. split; [reflexivity|]. by left. }
  match goal with
  | |- context [match ?l with [] => say WarnNoAssets | _ :: _ => _ end] =>
      destruct l
  end;
  exec; rewrite run_command_run by done; cbn [andb env stdin trace];
  destruct (returncode _ =? 0)%Z eqn:Hrc; exec; rewrite ?Hrc; exec;
  rewrite <- !app_assoc;
    (eexists _, _, _; split; [reflexivity|]); by left.
Qed.

(** From the release notes on, when the run is not a dry run and the
    operator answers the question about the notes: the release step is
    entered unless it was turned off, and the summary follows. *)
Lemma publish_stage_live (a : args) version tag b1 b2 (s : state E) :
  dry_run a = false ->
  no_github a = true \/ stdin s <> [] ->
  exists e' typed' evs,
    publish_stage w a version tag b1 b2 s
    = (Ret tt, State e' typed' (trace s ++ evs ++ summary_events a version b1 b2))
    /\ (no_github a = false -> Exists release_step_event evs).
Proof.
  intros Hdry Hin. unfold publish_stage. rewrite Hdry.
  destruct (no_github a) eqn:Hgh; exec.
  { rewrite summary_stage_run. cbn [env stdin trace].
    exists (env s), (stdin s), []. split; [done|]. done. }
  destruct Hin as [?|Hin]; [done|].
  destruct s as [e [|reply typed] tr]; [done|].
  destruct (get_release_notes_run version e reply typed tr) as (notes & typed' & ->).
  exec.
  match goal with |- context [create_github_release w version tag notes false ?s1] =>
    destruct (create_github_release_live version tag notes s1)
      as (b & e' & evs & -> & Hevs)
  end.
  exec. rewrite summary_stage_run. cbn [env stdin trace]. rewrite <- app_assoc.
  by eexists _, _, _.
Qed.

(** From the builds on, when both kinds are asked for: both builds are run,
    then the release step and the summary, whatever the builds return. *)
Lemma build_stage_live (a : args) version tag (s : state E) :
  no_pypi a = false -> no_deb a = false -> dry_run a = false ->
  (forall e, which w e (lit "python3") = true) ->
  no_github a = true \/ stdin s <> [] ->
  exists e' typed' pypi deb pub b1 b2,
    build_stage w a version tag s
    = (Ret tt, State e' typed'
                 (trace s ++ (Print HdrBuildingPypi :: pypi)
                  ++ (Print HdrBuildingDeb :: deb)
                  ++ pub ++ summary_events a version b1 b2))
    /\ (b1 = true <-> In (Print OkPypi) pypi)
    /\ (b2 = true <-> In (Print OkDeb) deb)
    /\ (no_github a = false -> Exists release_step_event pub).
Proof.
  intros Hpypi Hdeb Hdry Hpy Hin. unfold build_stage.
  rewrite Hpypi, Hdeb, Hdry. exec.
  destruct (build_pypi_live s) as (b1 & e1 & pypi & -> & Hb1). exec.
  match goal with |- context [build_debian_package w false ?s1] =>
    destruct (build_deb_live s1 Hpy) as (b2 & e2 & deb & -> & Hb2)
  end. exec.
  match goal with |- context [publish_stage w a version tag b1 b2 ?s2] =>
    destruct (publish_stage_live a version tag b1 b2 s2 Hdry Hin)
      as (e3 & typed' & pub & -> & Hpub)
  end. cbn [env stdin trace].
  exists e3, typed', pypi, deb, pub, b1, b2. split_and!; [|done..].
  do 2 f_equal. rewrite <- !app_assoc. reflexivity.
Qed.

End LiveRun.

(** C9, as amended. In a run for both package kinds (not a dry run) that
    gets to the builds, with python3 at hand and the operator there for the
    question about the release notes: the build of the PyPI packages and the
    build of the Debian package are both run, each succeeding or failing;
    then comes the release step, unless it was turned off, and the summary,
    which names the kinds that were built; the exit status is 0. A build
    that fails stops neither the other build nor what follows. *)
Theorem failed_build_does_not_stop_release
    {E : Type} (w : world E) (a : args) (e : E) (typed : list str)
    (status : Z) (s' : state E) :
  no_pypi a = false -> no_deb a = false -> dry_run a = false ->
  (forall e', which w e' (lit "python3") = true) ->
  no_github a = true \/ (2 <= length typed)%nat ->
  release_py w a (State e typed []) = (status, s') ->
  In (Print HdrBuildingPypi) (trace s') ->
  exists version pre pypi deb pub b1 b2,
    status = 0%Z
    /\ trace s' = pre ++ (Print HdrBuildingPypi :: pypi)
                  ++ (Print HdrBuildingDeb :: deb)
                  ++ pub ++ summary_events a version b1 b2
    /\ Forall prelude_event pre
    /\ (b1 = true <-> In (Print OkPypi) pypi)
    /\ (b2 = true <-> In (Print OkDeb) deb)
    /\ (no_github a = false -> Exists release_step_event pub).
Proof.
  intros Hpypi Hdeb Hdry Hpy Hin Hrun Hreached.
  destruct (main_live w a e typed Hdry)
    as (e1 & pre & Hpre & [[version Hmain] | (x & typed' & Hmain)]).
  - destruct (build_stage_live w a version (tag_of version) (State e1 (tl typed) pre)
                Hpypi Hdeb Hdry Hpy)
      as (e2 & typed' & pypi & deb & pub & b1 & b2 & Hbuild & Hb1 & Hb2 & Hpub).
    { destruct Hin as [?|Hlen]; [by left|right].
      destruct typed as [|? [|? ?]]; simpl in *; [lia|lia|done]. }
    unfold release_py in Hrun. rewrite Hmain, Hbuild in Hrun.
    injection Hrun as <- <-. by exists version, pre, pypi, deb, pub, b1, b2.
  - exfalso. unfold release_py in Hrun. rewrite Hmain in Hrun.
    assert (Forall prelude_event (trace s')) as Hall.
    { destruct x; injection Hrun as <- <-; cbn [say snd env stdin trace];
        try done; apply Forall_app; split; try done; trace_ok. }
    rewrite Forall_forall in Hall. apply list_elem_of_In in Hreached.
    exact (Hall _ Hreached).
Qed.

Lemma failed_build_does_not_stop_release_witness :
  let run := release_py (box_world repo failing_builds_repository)
               (plain_args false) (start [lit "y"; []]) in
  exists version pre pypi deb pub b1 b2,
    run.1 = 0%Z
    /\ trace run.2 = pre ++ (Print HdrBuildingPypi :: pypi)
                     ++ (Print HdrBuildingDeb :: deb)
                     ++ pub ++ summary_events (plain_args false) version b1 b2
    /\ Forall prelude_event pre
    /\ (b1 = true <-> In (Print OkPypi) pypi)
    /\ (b2 = true <-> In (Print OkDeb) deb)
    /\ (no_github (plain_args false) = false -> Exists release_step_event pub).
Proof.
  intros run.
  apply (failed_build_does_not_stop_release
           (box_world repo failing_builds_repository) (plain_args false) tt
           [lit "y"; []] run.1 run.2).
  - reflexivity.
  - reflexivity.
  - reflexivity.
  - intros []. reflexivity.
  - right. simpl. lia.
  - exact (surjective_pairing run).
  - vm_compute. repeat first [left; reflexivity | right].
Defined.

(** C9 as it stands fails in two runs for both package kinds, neither a dry
    run. On a machine without python3, the operator there for every
    question: the PyPI build returns failure, the Debian build is attempted
    and cannot launch python3, and the run ends there with status 1. With
    python3 at hand, both builds failing, and nothing typed after the
    confirmation: both builds return failure, the question about the release
    notes finds the end of the input, and the run ends there with status 1.
    Neither run has a release step or a summary. *)
Lemma failed_build_stops_release :
  let a := plain_args false in
  let no_python := box_world repo no_python_repository in
  let failing := box_world repo failing_builds_repository in
  let run1 := release_py no_python a (start [lit "y"; []]) in
  let run2 := release_py failing a (start [lit "y"]) in
  (no_pypi a = false /\ no_deb a = false /\ no_github a = false /\ dry_run a = false)
  /\ (build_pypi_packages no_python false (start [])).1 = Ret false
  /\ (build_pypi_packages failing false (start [])).1 = Ret false
  /\ (build_debian_package failing false (start [])).1 = Ret false
  /\ (forall run, run = run1 \/ run = run2 ->
        run.1 = 1%Z
        /\ In (Print HdrBuildingPypi) (trace run.2)
        /\ In (Print HdrBuildingDeb) (trace run.2)
        /\ ~ Exists release_step_event (trace run.2)
        /\ ~ In (Print HdrComplete) (trace run.2)).
Proof.
  intros a no_python failing run1 run2.
  split; [by split_and!|]. split; [by vm_compute|]. split; [by vm_compute|].
  split; [by vm_compute|].
  intros run [->| ->]; (split; [by vm_compute|]);
    (split; [vm_compute; repeat first [left; reflexivity | right]|]);
    (split; [vm_compute; repeat first [left; reflexivity | right]|]);
    (split;
     [ rewrite Exists_exists; intros (ev & Hin & Hev);
       apply list_elem_of_In in Hin; vm_compute in Hin;
       repeat destruct Hin as [<-|Hin]; done
     | intros Hin; vm_compute in Hin; repeat destruct Hin as [Hin|Hin]; done ]).
Qed.

(** ** Claims C6 and C7: the unmet build dependencies *)

Lemma ci_match_length l m : ci_match l m -> length m = length l.
Proof. intros H. symmetry. by eapply Forall2_length. Qed.

Lemma den_lits_ci l : forall rest rec prev s acc r,
  den (List.map (fun c => One (ci c)) l ++ rest) rec prev s acc r <->
  exists m s', s = m ++ s' /\ ci_match l m
               /\ den rest rec (lastc m prev) s' (pushall rec m acc) r.
Proof.
  induction l as [|c l IH]; intros rest rec prev s acc r.
  - simpl. split.
    + intros H. exists [], s. rewrite pushall_nil. split_and!; [done|constructor|done].
    + intros (m & s' & -> & Hm & H). inversion Hm; subst.
      by rewrite pushall_nil in H.
  - simpl. split.
    + intros (x & s' & -> & Hx & H).
      apply IH in H as (m & s'' & -> & Hm & H). exists (x :: m), s''.
      rewrite lastc_cons, pushall_cons. split_and!; [done|by constructor|done].
    + intros (m & s' & -> & Hm & H). inversion Hm as [|? x ? m' Hx Hm']; subst.
      exists x, (m' ++ s'). split_and!; [done..|].
      apply IH. exists m', s'. by rewrite lastc_cons, pushall_cons in H.
Qed.

Lemma run_lits_ci l : forall rest rec prev m s acc,
  ci_match l m ->
  run (List.map (fun c => One (ci c)) l ++ rest) rec prev (m ++ s) acc
  = run rest rec (lastc m prev) s (pushall rec m acc).
Proof.
  induction l as [|c l IH]; intros rest rec prev m s acc Hm;
    inversion Hm as [|? x ? m' Hx Hm']; subst.
  - by rewrite pushall_nil.
  - simpl. rewrite Hx, lastc_cons, pushall_cons. by apply IH.
Qed.

(** A greedy repetition takes the whole run of its class when what follows
    the repetition in the pattern matches after it. *)
Lemma star_greedy p k rec : forall a b prev acc r,
  forallb p a = true ->
  (match b with [] => true | c :: _ => negb (p c) end) = true ->
  k (lastc a prev) b (pushall rec a acc) = Some r ->
  star p k rec prev (a ++ b) acc = Some r.
Proof.
  induction a as [|c a IH]; intros b prev acc r Ha Hb Hk.
  - rewrite pushall_nil in Hk. destruct b as [|c b]; simpl; [done|].
    apply negb_true_iff in Hb. by rewrite Hb.
  - simpl in Ha. apply andb_prop in Ha as [Hc Ha].
    rewrite lastc_cons, pushall_cons in Hk. simpl. rewrite Hc.
    by rewrite (IH b (Some c) (push rec c acc) r Ha Hb Hk).
Qed.

Lemma takewhile_dropwhile p s : takewhile p s ++ dropwhile p s = s.
Proof. induction s as [|c s IH]; simpl; [done|]. destruct (p c); simpl; congruence. Qed.

Lemma forallb_takewhile p s : forallb p (takewhile p s) = true.
Proof. induction s as [|c s IH]; simpl; [done|]. destruct (p c) eqn:H; simpl; [|done]. by rewrite H. Qed.

Lemma dropwhile_head p s :
  (match dropwhile p s with [] => true | c :: _ => negb (p c) end) = true.
Proof. induction s as [|c s IH]; simpl; [done|]. destruct (p c) eqn:H; simpl; [done|]. by rewrite H. Qed.

Lemma at_eol_dropwhile s : at_eol (dropwhile notnl s) = true.
Proof.
  pose proof (dropwhile_head notnl s) as H. unfold at_eol.
  destruct (dropwhile notnl s) as [|c ?]; [done|].
  unfold notnl in H. by rewrite negb_involutive in H.
Qed.

Lemma unmet_re_split : unmet_re = lits_ci "Unmet build dependencies:" ++ unmet_tail.
Proof. reflexivity. Qed.

(** It matches anywhere. *)
Lemma den_unmet_tail prev s :
  exists r, den unmet_tail false prev s [] r.
Proof.
  exists (takewhile notnl s). simpl.
  exists [], s. split_and!; [done..|].
  exists (takewhile notnl s), (dropwhile notnl s).
  split_and!; [by rewrite takewhile_dropwhile|apply forallb_takewhile| |].
  - apply at_eol_dropwhile.
  - by rewrite app_nil_r, rev_involutive.
Qed.

Lemma den_unmet_re prev post r :
  den unmet_re false prev post [] r ->
  exists m post', post = m ++ post' /\ ci_match marker m.
Proof.
  rewrite unmet_re_split. unfold lits_ci. rewrite den_lits_ci.
  intros (m & s' & -> & Hm & _). by exists m, s'.
Qed.

(** The search finds a match exactly in the texts that hold the marker. *)
Lemma search_unmet_none text :
  re_search unmet_re text = None <-> ~ has_marker text.
Proof.
  split.
  - intros H (pre & m & post & -> & Hm).
    destruct (den_unmet_tail (lastc m (lastc pre None)) post) as [r Hr].
    eapply (search_at_none _ _ _ H pre (m ++ post) r); [done|].
    rewrite unmet_re_split. unfold lits_ci. apply den_lits_ci.
    exists m, post. split_and!; [done..|]. exact Hr.
  - intros Hno. unfold re_search.
    destruct (search_at unmet_re None text) as [r|] eqn:H; [|done].
    exfalso. apply Hno.
    apply search_at_some in H as (pre & post & -> & H & _).
    apply den_unmet_re in H as (m & post' & -> & Hm). by exists pre, m, post'.
Qed.

Section BuildDeps.
Context {E : Type} (w : world E).

Lemma check_debian_build_deps_run (s : state E) :
  let r := spawn w (env s) dpkg_checkbuilddeps_cmd None in
  check_debian_build_deps w s =
  if which w (env s) (lit "dpkg-checkbuilddeps") then
    (Ret (if (returncode r =? 0)%Z then []
          else _parse_unmet_build_deps (combined_output r)),
     State (effect w (env s) (Spawn dpkg_checkbuilddeps_cmd None)) (stdin s)
           (trace s ++ [Spawn dpkg_checkbuilddeps_cmd None]))
  else (Ret [], s).
Proof.
  intros r. unfold check_debian_build_deps, command_exists, observe.
  rewrite bind_run. cbn [env].
  destruct (which w (env s) (lit "dpkg-checkbuilddeps")) eqn:Hw; cbn [negb]; [|done].
  rewrite bind_run, subprocess_run_found by done.
  fold dpkg_checkbuilddeps_cmd r. by destruct (returncode r =? 0)%Z.
Qed.

End BuildDeps.

(** C6. The check of the build dependencies returns the empty list without
    looking for names in three situations: dpkg-checkbuilddeps is not at
    hand; it exits with 0, whatever it prints; it exits with another status
    and its two streams together do not hold the marker. In the one other
    situation (another status, and the marker is there) the result is what
    the parser finds after the marker. The check never raises. *)
Theorem build_deps_check_empty_cases
    {E : Type} (w : world E) (s : state E) :
  let r := spawn w (env s) [lit "dpkg-checkbuilddeps"] None in
  (which w (env s) (lit "dpkg-checkbuilddeps") = false ->
     check_debian_build_deps w s = (Ret [], s))
  /\ (which w (env s) (lit "dpkg-checkbuilddeps") = true ->
      returncode r = 0%Z ->
      fst (check_debian_build_deps w s) = Ret [])
  /\ (which w (env s) (lit "dpkg-checkbuilddeps") = true ->
      returncode r <> 0%Z -> ~ has_marker (combined_output r) ->
      fst (check_debian_build_deps w s) = Ret [])
  /\ (which w (env s) (lit "dpkg-checkbuilddeps") = true ->
      returncode r <> 0%Z -> has_marker (combined_output r) ->
      exists deps,
        re_search unmet_re (combined_output r) = Some deps
        /\ fst (check_debian_build_deps w s)
           = Ret (omap (re_match name_re)
                    (List.filter nonempty (List.map strip (split_on 44 deps))))).
Proof.
  intros r. subst r. rewrite check_debian_build_deps_run. cbv zeta.
  unfold dpkg_checkbuilddeps_cmd.
  set (r := spawn w (env s) [lit "dpkg-checkbuilddeps"] None).
  split_and!.
  - by intros ->.
  - intros -> Hrc. by rewrite Hrc.
  - intros -> Hrc Hno. apply Z.eqb_neq in Hrc. rewrite Hrc. cbn [fst].
    apply search_unmet_none in Hno. unfold _parse_unmet_build_deps. by rewrite Hno.
  - intros -> Hrc Hm. apply Z.eqb_neq in Hrc. rewrite Hrc. cbn [fst].
    destruct (re_search unmet_re (combined_output r)) as [deps|] eqn:Hs.
    + exists deps. split; [done|]. unfold _parse_unmet_build_deps. by rewrite Hs.
    + by apply search_unmet_none in Hs.
Qed.

Lemma build_deps_check_empty_cases_witness :
  fst (check_debian_build_deps
         (box_world repo (box_with_checkbuilddeps 0 unmet_example)) (start []))
  = Ret []
  /\ fst (check_debian_build_deps
            (box_world repo (box_with_checkbuilddeps 1 (lit "dpkg-checkbuilddeps: error: cannot read debian/control")))
            (start []))
     = Ret []
  /\ fst (check_debian_build_deps (box_world repo (box_with_setup setup_plain)) (start []))
     = Ret [].
Proof.
  split_and!.
  - destruct (build_deps_check_empty_cases
                (box_world repo (box_with_checkbuilddeps 0 unmet_example)) (start []))
      as (_ & H & _).
    apply H; reflexivity.
  - destruct (build_deps_check_empty_cases
                (box_world repo (box_with_checkbuilddeps 1
                   (lit "dpkg-checkbuilddeps: error: cannot read debian/control")))
                (start [])) as (_ & _ & H & _).
    apply H; [reflexivity|discriminate|].
    apply search_unmet_none. reflexivity.
  - destruct (build_deps_check_empty_cases
                (box_world repo (box_with_setup setup_plain)) (start []))
      as (H & _).
    rewrite H; reflexivity.
Defined.

Example build_deps_check_names :
  fst (check_debian_build_deps
         (box_world repo (box_with_checkbuilddeps 1 unmet_example)) (start []))
  = Ret [lit "debhelper-compat"; lit "foo"].
Proof. reflexivity. Qed.
(** *** Claim C7: the names after the marker *)

Lemma re_match_name token : re_match name_re token = leading_ident token.
Proof.
  unfold re_match, name_re, leading_ident. destruct token as [|c token]; [done|].
  simpl. destruct (identch c) eqn:Hc; [|done].
  rewrite <- (takewhile_dropwhile identch token) at 1.
  apply star_greedy.
  - apply forallb_takewhile.
  - apply dropwhile_head.
  - simpl. unfold pushall, push. by rewrite rev_app_distr, rev_involutive.
Qed.

Lemma unmet_tail_run prev ws line rest :
  forallb isspace ws = true ->
  (match line ++ rest with [] => true | c :: _ => negb (isspace c) end) = true ->
  forallb notnl line = true ->
  at_eol rest = true ->
  run unmet_tail false prev (ws ++ line ++ rest) [] = Some line.
Proof.
  intros Hws Hhd Hline Hrest. unfold unmet_tail.
  change (run [Star isspace; Open; Star notnl; Close; EndLine] false prev
            (ws ++ line ++ rest) [])
    with (star isspace (run [Open; Star notnl; Close; EndLine] false) false prev
            (ws ++ line ++ rest) []).
  apply star_greedy; [done..|].
  change (star notnl (run [Close; EndLine] true) true (lastc ws prev)
            (line ++ rest) [] = Some line).
  apply star_greedy; [done| |].
  - unfold at_eol in Hrest. destruct rest as [|c rest]; [done|].
    unfold notnl. by rewrite negb_involutive.
  - simpl. rewrite Hrest. unfold pushall. by rewrite app_nil_r, rev_involutive.
Qed.

(** The search stops at the first position where the pattern matches. *)
Lemma search_at_first pat pre : forall post prev r,
  (forall pre' post', pre ++ post = pre' ++ post' ->
     (length pre' < length pre)%nat ->
     run pat false (lastc pre' prev) post' [] = None) ->
  run pat false (lastc pre prev) post [] = Some r ->
  search_at pat prev (pre ++ post) = Some r.
Proof.
  induction pre as [|c pre IH]; intros post prev r Hmin Hrun;
    rewrite search_at_unfold.
  - rewrite lastc_nil in Hrun. simpl. by rewrite Hrun.
  - pose proof (Hmin [] ((c :: pre) ++ post) eq_refl) as H0.
    rewrite lastc_nil in H0. rewrite H0 by (simpl; lia).
    simpl. rewrite lastc_cons in Hrun. apply IH; [|done].
    intros pre' post' Heq Hlen. rewrite <- (lastc_cons c pre' prev).
    apply Hmin; [simpl; by rewrite Heq|simpl; lia].
Qed.

Lemma split_on_blank_prefix ws l :
  forallb isspace ws = true ->
  exists f fs, split_on 44 l = f :: fs /\ split_on 44 (ws ++ l) = (ws ++ f) :: fs.
Proof.
  intros Hws. induction ws as [|c ws IH].
  - destruct (split_on 44 l) as [|f fs] eqn:Hl.
    + destruct l as [|x l]; simpl in Hl; [done|].
      destruct (x =? 44); [done|]. by destruct (split_on 44 l).
    + by exists f, fs.
  - simpl in Hws. apply andb_prop in Hws as [Hc Hws].
    destruct (IH Hws) as (f & fs & Hl & Hwl). exists f, fs. split; [done|].
    simpl. rewrite Hwl.
    destruct (c =? 44) eqn:Hc44; [|done].
    apply N.eqb_eq in Hc44. by subst c.
Qed.

Lemma strip_blank_prefix ws f :
  forallb isspace ws = true -> strip (ws ++ f) = strip f.
Proof.
  intros Hws. unfold strip, lstrip. f_equal.
  induction ws as [|c ws IH]; [done|].
  simpl in Hws. apply andb_prop in Hws as [Hc Hws]. simpl. rewrite Hc. by apply IH.
Qed.

Lemma names_of_blank_prefix ws l :
  forallb isspace ws = true -> names_of (ws ++ l) = names_of l.
Proof.
  intros Hws. unfold names_of.
  destruct (split_on_blank_prefix ws l Hws) as (f & fs & -> & ->).
  simpl. by rewrite strip_blank_prefix.
Qed.

Lemma parse_unmet_found text deps :
  re_search unmet_re text = Some deps ->
  _parse_unmet_build_deps text = names_of deps.
Proof.
  intros H. unfold _parse_unmet_build_deps, names_of. rewrite H.
  apply list_omap_ext. apply Forall2_same_length_lookup_2; [done|].
  intros i x y Hx Hy. rewrite Hx in Hy. injection Hy as <-. apply re_match_name.
Qed.

Lemma forallb_dropwhile (p q : char -> bool) (s : str) :
  forallb q s = true -> forallb q (dropwhile p s) = true.
Proof.
  induction s as [|c s IH]; simpl; [done|]. intros [Hc Hs]%andb_prop.
  destruct (p c); [by apply IH|]. simpl. by rewrite Hc, Hs.
Qed.

Lemma existsb_not_all (p : char -> bool) (s : str) :
  forallb p s = true -> existsb (fun c => negb (p c)) s = false.
Proof.
  induction s as [|c s IH]; simpl; [done|]. intros [-> Hs]%andb_prop. by apply IH.
Qed.

(** The pattern at the marker: the blanks after it are skipped, and the line
    reached is group 1. *)
Lemma run_unmet_re prev m ws line rest :
  ci_match marker m ->
  forallb isspace ws = true ->
  (match line ++ rest with [] => true | c :: _ => negb (isspace c) end) = true ->
  forallb notnl line = true ->
  at_eol rest = true ->
  run unmet_re false prev (m ++ ws ++ line ++ rest) [] = Some line.
Proof.
  intros Hm Hws Hhd Hline Hrest. rewrite unmet_re_split. unfold lits_ci.
  rewrite run_lits_ci by done. simpl pushall. by apply unmet_tail_run.
Qed.

Lemma search_unmet_first pre m ws line rest :
  ci_match marker m ->
  (forall pre', marker_at (pre ++ m ++ ws ++ line ++ rest) pre' ->
                (length pre <= length pre')%nat) ->
  forallb isspace ws = true ->
  (match line ++ rest with [] => true | c :: _ => negb (isspace c) end) = true ->
  forallb notnl line = true ->
  at_eol rest = true ->
  re_search unmet_re (pre ++ m ++ ws ++ line ++ rest) = Some line.
Proof.
  intros Hm Hfirst Hws Hhd Hline Hrest. unfold re_search.
  apply search_at_first; [|by apply run_unmet_re].
  intros pre' post' Heq Hlen.
  destruct (run unmet_re false (lastc pre' None) post' []) as [r|] eqn:Hrun; [|done].
  exfalso. apply run_sound, den_unmet_re in Hrun as (m' & post'' & -> & Hm').
  enough (length pre <= length pre')%nat by lia.
  apply Hfirst. exists m', post''. by rewrite Heq.
Qed.

(** C7, as amended. Take the first occurrence of the marker in the text,
    whatever the case of its letters, and the rest of its line. When that
    rest holds a character that is not white space, or when nothing but white
    space follows the marker in the whole text, the parser returns the names
    of the rest of the line: it is split on commas, each token is stripped,
    empty tokens are dropped, and of each token the leading identifier is
    kept (letters, digits, [+], [.] and [-]), which leaves out a version
    constraint after it; tokens without a leading identifier are dropped. On
    the example of the specification the result is [debhelper-compat; foo]. *)
Theorem unmet_build_deps_of_marker_line :
  (forall pre m remainder rest,
     ci_match marker m ->
     (forall pre', marker_at (pre ++ m ++ remainder ++ rest) pre' ->
                   (length pre <= length pre')%nat) ->
     forallb notnl remainder = true ->
     at_eol rest = true ->
     existsb (fun c => negb (isspace c)) remainder = true
     \/ forallb isspace rest = true ->
     _parse_unmet_build_deps (pre ++ m ++ remainder ++ rest) = names_of remainder)
  /\ _parse_unmet_build_deps unmet_example = [lit "debhelper-compat"; lit "foo"].
Proof.
  split; [|reflexivity].
  intros pre m remainder rest Hm Hfirst Hline Hrest Hcase.
  pose proof (takewhile_dropwhile isspace remainder) as Hsplit.
  pose proof (forallb_takewhile isspace remainder) as Hws.
  pose proof (dropwhile_head isspace remainder) as Hhd.
  pose proof (forallb_dropwhile isspace notnl remainder Hline) as Hline'.
  set (ws := takewhile isspace remainder) in *.
  set (line := dropwhile isspace remainder) in *.
  assert (names_of remainder = names_of line) as ->.
  { rewrite <- Hsplit. by apply names_of_blank_prefix. }
  clearbody ws line. subst remainder. destruct line as [|c line].
  - (* nothing but white space up to the end of the line *)
    rewrite app_nil_r in *.
    destruct Hcase as [Hex|Hall].
    { by rewrite (existsb_not_all isspace ws Hws) in Hex. }
    replace (pre ++ m ++ ws ++ rest) with (pre ++ m ++ (ws ++ rest) ++ [] ++ []) in *.
    2: { by rewrite !app_nil_r. }
    apply parse_unmet_found, search_unmet_first; try done.
    rewrite forallb_app. by rewrite Hws, Hall.
  - rewrite <- !app_assoc in *.
    by apply parse_unmet_found, search_unmet_first.
Qed.

Lemma ci_match_refl_marker : ci_match marker marker.
Proof. unfold ci_match. repeat constructor. Qed.

Lemma unmet_build_deps_of_marker_line_witness :
  _parse_unmet_build_deps (marker ++ lit " debhelper-compat (= 13), foo")
  = names_of (lit " debhelper-compat (= 13), foo").
Proof.
  destruct unmet_build_deps_of_marker_line as [H _].
  apply (H [] marker (lit " debhelper-compat (= 13), foo") []).
  - exact ci_match_refl_marker.
  - intros; simpl; lia.
  - reflexivity.
  - reflexivity.
  - left. reflexivity.
Defined.

(** C7, as the claim words it, fails: here the marker ends its line, so the
    rest of its line holds no name, and the parser returns the names of the
    next line. *)
Lemma unmet_build_deps_crosses_line_end :
  unmet_next_line = marker ++ [] ++ ([10] ++ lit "foo, bar")
  /\ names_of [] = []
  /\ _parse_unmet_build_deps unmet_next_line = [lit "foo"; lit "bar"].
Proof. split_and!; reflexivity. Qed.
(** ** Claim C5: the debhelper compat level *)

(** Group 1 of a pattern that ends with a group of one or more characters of
    a class. *)
Lemma den_group_tail pre p : forall rec prev s acc r,
  den (pre ++ [Open; Plus p; Close]) rec prev s acc r ->
  r <> [] /\ forallb p r = true.
Proof.
  induction pre as [|it pre IH]; intros rec prev s acc r H.
  - simpl in H. destruct H as (a & b & -> & Hne & Ha & ->).
    rewrite app_nil_r, rev_involutive. done.
  - rewrite <- app_comm_cons in H. destruct it; simpl in H.
    + destruct H as (c & s' & -> & _ & H). by eapply IH.
    + destruct H as (a & b & -> & _ & H). by eapply IH.
    + destruct H as (a & b & -> & _ & _ & H). by eapply IH.
    + by eapply IH.
    + by eapply IH.
    + destruct H as [_ H]. by eapply IH.
    + destruct H as [_ H]. by eapply IH.
Qed.

(** The value of the decimal digits of a number is the number. *)
Lemma fold_digits_acc decimal_hi (d : Decimal.uint) : forall acc : positive,
  fold_left (fun acc c => 10 * acc + default 0 (decimal decimal_hi c))
            (uint_digits d) (N.pos acc)
  = N.pos (Pos.of_uint_acc d acc).
Proof.
  induction d as [|d IH|d IH|d IH|d IH|d IH|d IH|d IH|d IH|d IH|d IH]; intros acc;
    [done|..]; cbn [uint_digits fold_left Pos.of_uint_acc]; rewrite <- IH; f_equal;
    unfold decimal, isdigit_ascii; simpl; lia.
Qed.

Lemma fold_digits decimal_hi (d : Decimal.uint) :
  fold_left (fun acc c => 10 * acc + default 0 (decimal decimal_hi c))
            (uint_digits d) 0
  = N.of_uint d.
Proof.
  unfold N.of_uint.
  induction d as [|d IH|d IH|d IH|d IH|d IH|d IH|d IH|d IH|d IH|d IH];
    [done|exact IH|..]; cbn [uint_digits fold_left Pos.of_uint];
    exact (fold_digits_acc decimal_hi d _).
Qed.

Lemma py_int_py_str decimal_hi (n : N) :
  py_int decimal_hi (py_str (Z.of_N n)) = Z.of_N n.
Proof.
  unfold py_int, py_str.
  assert ((Z.of_N n <? 0)%Z = false) as -> by (apply Z.ltb_ge; lia).
  rewrite Zabs2N.id, fold_digits. f_equal. apply DecimalN.Unsigned.of_to.
Qed.

Lemma too_long_app limit (a g b : str) :
  too_long limit (a ++ g ++ b) = false -> too_long limit g = false.
Proof.
  unfold too_long. destruct (0 <? limit)%nat; [|done]. cbn [andb].
  rewrite !Nat.ltb_ge, !length_app. lia.
Qed.

Section CompatLevel.
Context {E : Type} (w : world E).
Variable decimal_hi : char -> option N.

Lemma compat_re_group out g :
  re_search (compat_re decimal_hi) out = Some g ->
  g <> [] /\ forallb (isdecimal decimal_hi) g = true.
Proof.
  intros H. apply search_at_some in H as (pre & post & _ & H & _).
  change (compat_re decimal_hi)
    with ((lits_ci "debhelper" ++ [Plus isspace] ++ lits_ci "version" ++ [Plus isspace])
          ++ [Open; Plus (isdecimal decimal_hi); Close]) in H.
  by eapply den_group_tail.
Qed.

Lemma py_int_nonneg g : (0 <= py_int decimal_hi g)%Z.
Proof. unfold py_int. lia. Qed.

(** What the pattern matches at a position: the two words with white space
    after each, and digits. *)
Lemma den_compat_re prev post r :
  den (compat_re decimal_hi) false prev post [] r ->
  exists m1 ws1 m2 ws2 rest,
    post = m1 ++ ws1 ++ m2 ++ ws2 ++ r ++ rest
    /\ ci_match (lit "debhelper") m1
    /\ ws1 <> [] /\ forallb isspace ws1 = true
    /\ ci_match (lit "version") m2
    /\ ws2 <> [] /\ forallb isspace ws2 = true
    /\ r <> [] /\ forallb (isdecimal decimal_hi) r = true.
Proof.
  unfold compat_re, lits_ci. rewrite den_lits_ci.
  intros (m1 & s1 & -> & Hm1 & H).
  cbn [app den] in H. destruct H as (ws1 & s2 & -> & Hne1 & Hws1 & H).
  change (den (List.map (fun c => One (ci c)) (lit "version")
               ++ [Plus isspace; Open; Plus (isdecimal decimal_hi); Close])
            false (lastc ws1 (lastc m1 prev)) s2
            (pushall false ws1 (pushall false m1 [])) r) in H.
  rewrite den_lits_ci in H. destruct H as (m2 & s3 & -> & Hm2 & H).
  cbn [den] in H. destruct H as (ws2 & s4 & -> & Hne2 & Hws2 & g & rest & -> & Hne & Hg & ->).
  exists m1, ws1, m2, ws2, rest. rewrite rev_pushall_true. by split_and!.
Qed.

Hypothesis decimal_not_space : forall c, isspace c = true -> decimal_hi c = None.

Lemma isspace_decimal c : isdecimal decimal_hi c = true -> isspace c = false.
Proof.
  unfold isdecimal, decimal. intros H.
  destruct (isspace c) eqn:Hsp; [|done]. exfalso.
  destruct (c <? 128) eqn:Hlt.
  - unfold isdigit_ascii in H. destruct ((48 <=? c) && (c <=? 57)) eqn:Hd; [|done].
    apply andb_true_iff in Hd as [H1%N.leb_le H2%N.leb_le].
    unfold isspace in Hsp.
    repeat (apply orb_true_iff in Hsp as [Hsp|Hsp]);
      rewrite ?andb_true_iff, ?N.leb_le, ?N.eqb_eq in Hsp; lia.
  - by rewrite (decimal_not_space c Hsp) in H.
Qed.

Lemma isspace_ci_v x : ci 118 x = true -> isspace x = false.
Proof.
  unfold ci, lower.
  change (if (65 <=? 118) && (118 <=? 90) then 118 + 32 else 118) with 118.
  change (118 =? 105) with false. change (118 =? 115) with false.
  change (118 =? 107) with false. cbn [andb orb]. rewrite !orb_false_r.
  intros H%N.eqb_eq. unfold isspace.
  destruct ((65 <=? x) && (x <=? 90)) eqn:Hup.
  - apply andb_true_iff in Hup as [H1%N.leb_le H2%N.leb_le].
    assert (x = 86) as -> by lia. done.
  - subst x. done.
Qed.

(** The match at a position takes all the white space and all the digits. *)
Lemma run_compat_re prev m1 ws1 m2 ws2 digits post :
  ci_match (lit "debhelper") m1 ->
  ws1 <> [] -> forallb isspace ws1 = true ->
  ci_match (lit "version") m2 ->
  ws2 <> [] -> forallb isspace ws2 = true ->
  digits <> [] -> forallb (isdecimal decimal_hi) digits = true ->
  (match post with [] => true | c :: _ => negb (isdecimal decimal_hi c) end) = true ->
  run (compat_re decimal_hi) false prev
      (m1 ++ ws1 ++ m2 ++ ws2 ++ digits ++ post) []
  = Some digits.
Proof.
  intros Hm1 Hne1 Hws1 Hm2 Hne2 Hws2 Hne Hd Hpost.
  unfold compat_re, lits_ci. rewrite run_lits_ci by done.
  destruct ws1 as [|c1 ws1]; [done|]. cbn [forallb] in Hws1.
  apply andb_true_iff in Hws1 as [Hc1 Hws1].
  cbn [app run]. rewrite Hc1.
  assert (exists x m2', m2 = x :: m2' /\ isspace x = false) as (x & m2' & -> & Hx).
  { inversion Hm2 as [|? x ? m2' Hv _]; subst. exists x, m2'. split; [done|].
    by apply isspace_ci_v. }
  rewrite (star_greedy isspace _ false ws1 ((x :: m2') ++ ws2 ++ digits ++ post) _ _ digits);
    [done|done|by cbn; rewrite Hx|].
  change (run (List.map (fun c => One (ci c)) (lit "version")
               ++ [Plus isspace; Open; Plus (isdecimal decimal_hi); Close])
            false (lastc ws1 (Some c1)) ((x :: m2') ++ ws2 ++ digits ++ post)
            (pushall false ws1 (push false c1 (pushall false m1 [])))
          = Some digits).
  rewrite run_lits_ci by done.
  destruct ws2 as [|c2 ws2]; [done|]. cbn [forallb] in Hws2.
  apply andb_true_iff in Hws2 as [Hc2 Hws2].
  cbn [app run]. rewrite Hc2.
  destruct digits as [|d digits]; [done|]. cbn [forallb] in Hd.
  apply andb_true_iff in Hd as [Hd0 Hd].
  rewrite (star_greedy isspace _ false ws2 ((d :: digits) ++ post) _ _ (d :: digits));
    [done|done|by cbn; rewrite (isspace_decimal d Hd0)|].
  cbn [app run]. rewrite Hd0.
  rewrite (star_greedy (isdecimal decimal_hi) _ true digits post _ _ (d :: digits));
    [done|done|done|].
  cbn [run]. unfold pushall, push. by rewrite rev_app_distr, rev_involutive.
Qed.

(** The first report of a version is what the search finds. *)
Lemma search_compat_first text pre digits :
  first_version (isdecimal decimal_hi) text pre digits ->
  re_search (compat_re decimal_hi) text = Some digits.
Proof.
  intros [(m1 & ws1 & m2 & ws2 & post & -> & Hm1 & Hne1 & Hws1 & Hm2 & Hne2 & Hws2
           & Hne & Hd & Hpost) Hfirst].
  unfold re_search. apply search_at_first; [|by apply run_compat_re].
  intros pre' post' Heq Hlen.
  destruct (run (compat_re decimal_hi) false (lastc pre' None) post' []) as [r|] eqn:Hrun;
    [|done].
  exfalso. apply run_sound, den_compat_re in Hrun
    as (m1' & ws1' & m2' & ws2' & rest & -> & Hm1' & Hne1' & Hws1' & Hm2' & Hne2' & Hws2'
        & Hne' & Hr).
  enough (length pre <= length pre')%nat by lia.
  apply (Hfirst pre' (r ++ takewhile (isdecimal decimal_hi) rest)).
  exists m1', ws1', m2', ws2', (dropwhile (isdecimal decimal_hi) rest).
  split_and!; try done.
  - rewrite Heq. rewrite <- (app_assoc r), takewhile_dropwhile. done.
  - by destruct r.
  - rewrite forallb_app, Hr. apply forallb_takewhile.
  - apply dropwhile_head.
Qed.

Lemma search_compat_none text :
  ~ has_version (isdecimal decimal_hi) text ->
  re_search (compat_re decimal_hi) text = None.
Proof.
  intros Hnone.
  destruct (re_search (compat_re decimal_hi) text) as [g|] eqn:Hg; [|done].
  exfalso. apply Hnone.
  apply search_at_some in Hg as (pre & post & -> & Hden & _).
  apply den_compat_re in Hden
    as (m1 & ws1 & m2 & ws2 & rest & -> & Hm1 & Hne1 & Hws1 & Hm2 & Hne2 & Hws2 & Hne & Hr).
  exists pre, (g ++ takewhile (isdecimal decimal_hi) rest).
  exists m1, ws1, m2, ws2, (dropwhile (isdecimal decimal_hi) rest).
  split_and!; try done.
  - rewrite <- (app_assoc g), takewhile_dropwhile. done.
  - by destruct g.
  - rewrite forallb_app, Hr. apply forallb_takewhile.
  - apply dropwhile_head.
Qed.

End CompatLevel.

Section CompatLevelRun.
Context {E : Type} (w : world E).
Variable decimal_hi : char -> option N.

(** The digits that the search finds are a run of digits of the text. *)
Lemma search_compat_fits text g :
  digit_runs_fit (int_max_str_digits w) (isdecimal decimal_hi) text ->
  re_search (compat_re decimal_hi) text = Some g ->
  too_long (int_max_str_digits w) g = false.
Proof.
  intros Hfit Hg. destruct (compat_re_group decimal_hi _ _ Hg) as [_ Hall].
  apply search_at_some in Hg as (pre & post & -> & Hden & _).
  apply den_compat_re in Hden
    as (m1 & ws1 & m2 & ws2 & rest & -> & _).
  apply (Hfit (pre ++ m1 ++ ws1 ++ m2 ++ ws2) g rest); [|done].
  by rewrite <- !app_assoc.
Qed.

Lemma int_run g (s : state E) :
  int_ w decimal_hi g s
  = if too_long (int_max_str_digits w) g then (Raise ValueError, s)
    else (Ret (py_int decimal_hi g), s).
Proof. unfold int_. by destruct (too_long _ g). Qed.

Lemma debhelper_compat_level_run (s : state E) :
  let r := spawn w (env s) dh_version_cmd None in
  let asked := State (effect w (env s) (Spawn dh_version_cmd None)) (stdin s)
                     (trace s ++ [Spawn dh_version_cmd None]) in
  _debhelper_compat_level w decimal_hi s =
  if which w (env s) (lit "dh") then
    if (returncode r =? 0)%Z then
      match re_search (compat_re decimal_hi) (stdout r) with
      | Some g =>
          if too_long (int_max_str_digits w) g then (Raise ValueError, asked)
          else (Ret (Z.max 12 (py_int decimal_hi g)), asked)
      | None => (Ret 12%Z, asked)
      end
    else (Ret 12%Z, asked)
  else (Ret 12%Z, s).
Proof.
  intros r asked. unfold _debhelper_compat_level, command_exists, observe.
  rewrite bind_run. cbn [env].
  destruct (which w (env s) (lit "dh")) eqn:Hdh; cbn [negb]; [|done].
  rewrite bind_run. unfold try_except, check_output. rewrite !bind_run.
  rewrite subprocess_run_found by done. fold dh_version_cmd r asked.
  destruct (returncode r =? 0)%Z; cbn; [|done].
  destruct (re_search _ _) as [g|]; [|done].
  rewrite bind_run, int_run. by destruct (too_long _ g).
Qed.

(** The level, when it is computed, is 12 or more; it is not computed only
    when [int()] refuses the version number. *)
Lemma debhelper_compat_level_cases (s : state E) :
  exists r e' evs,
    _debhelper_compat_level w decimal_hi s = (r, State e' (stdin s) (trace s ++ evs))
    /\ e' = foldl (effect w) (env s) evs
    /\ Forall (fun ev => ev = Spawn dh_version_cmd None) evs
    /\ ((exists level, r = Ret level /\ (12 <= level)%Z)
        \/ (r = Raise ValueError
            /\ evs = [Spawn dh_version_cmd None]
            /\ ~ digit_runs_fit (int_max_str_digits w) (isdecimal decimal_hi)
                   (stdout (spawn w (env s) dh_version_cmd None)))).
Proof.
  rewrite debhelper_compat_level_run. cbv zeta.
  destruct (which w (env s) (lit "dh")).
  2: { exists (Ret 12%Z), (env s), []. rewrite app_nil_r, state_eta.
       split_and!; [done|done|done|]. left. by exists 12%Z. }
  destruct (returncode _ =? 0)%Z.
  2: { eexists _, _, [_]. split_and!; [done|done|by repeat constructor|].
       left. by exists 12%Z. }
  destruct (re_search _ _) as [g|] eqn:Hg.
  2: { eexists _, _, [_]. split_and!; [done|done|by repeat constructor|].
       left. by exists 12%Z. }
  destruct (too_long _ g) eqn:Hlong.
  - eexists _, _, [_]. split_and!; [done|done|by repeat constructor|].
    right. split_and!; [done|done|]. intros Hfit.
    by rewrite (search_compat_fits _ _ Hfit Hg) in Hlong.
  - eexists _, _, [_]. split_and!; [done|done|by repeat constructor|].
    left. eexists. split; [done|]. lia.
Qed.

End CompatLevelRun.

(** C5, as amended. For every answer of the helper in which no run of
    digits is longer than [int()] takes, the compat level is computed and is
    12 or more. It is 12 when [dh] is not at hand, when [dh --version] fails
    and when its output reports no version: the words debhelper and version,
    in any case of letters, each followed by white space, and digits. When
    the output reports one, the level is the larger of 12 and the number that
    the digits of the first report stand for, all of them: for the digits of
    a number [n] as they are written in base ten, the larger of 12 and [n].
    When [int()] does not take these digits, the helper raises
    [ValueError]. (That the first report is the one that is read rests on
    one fact about the digits beyond ASCII: no white space is a digit.) *)
Theorem compat_level_at_least_12
    {E : Type} (w : world E) (decimal_hi : char -> option N) (s : state E) :
  let r := spawn w (env s) [lit "dh"; lit "--version"] None in
  let isdec := isdecimal decimal_hi in
  let limit := int_max_str_digits w in
  let run := _debhelper_compat_level w decimal_hi s in
  let asked := State (effect w (env s) (Spawn dh_version_cmd None)) (stdin s)
                     (trace s ++ [Spawn dh_version_cmd None]) in
  (digit_runs_fit limit isdec (stdout r) ->
   exists level, run.1 = Ret level /\ (12 <= level)%Z)
  /\ (which w (env s) (lit "dh") = false -> run = (Ret 12%Z, s))
  /\ (which w (env s) (lit "dh") = true -> returncode r <> 0%Z ->
      run = (Ret 12%Z, asked))
  /\ (which w (env s) (lit "dh") = true -> returncode r = 0%Z ->
      ~ has_version isdec (stdout r) ->
      run = (Ret 12%Z, asked))
  /\ (forall pre digits,
        (forall c, isspace c = true -> decimal_hi c = None) ->
        which w (env s) (lit "dh") = true -> returncode r = 0%Z ->
        first_version isdec (stdout r) pre digits ->
        if too_long limit digits then run = (Raise ValueError, asked)
        else run = (Ret (Z.max 12 (py_int decimal_hi digits)), asked)
             /\ forall n : N, digits = py_str (Z.of_N n) ->
                              run = (Ret (Z.max 12 (Z.of_N n)), asked)).
Proof.
  intros r isdec limit run asked. subst run.
  pose proof (debhelper_compat_level_run w decimal_hi s) as Hrun.
  pose proof (debhelper_compat_level_cases w decimal_hi s)
    as (res & e' & evs & Hres & _ & _ & Hcases).
  cbv zeta in Hrun. fold dh_version_cmd in r. fold r asked in Hrun, Hcases.
  split_and!.
  - intros Hfit. rewrite Hres. destruct Hcases as [Hlevel|(_ & _ & Hno)]; [done|].
    by destruct Hno.
  - intros Hdh. by rewrite Hrun, Hdh.
  - intros Hdh Hrc. apply Z.eqb_neq in Hrc. by rewrite Hrun, Hdh, Hrc.
  - intros Hdh Hrc Hnone. apply Z.eqb_eq in Hrc.
    by rewrite Hrun, Hdh, Hrc, (search_compat_none decimal_hi _ Hnone).
  - intros pre digits Hsp Hdh Hrc Hfirst. apply Z.eqb_eq in Hrc.
    rewrite Hrun, Hdh, Hrc, (search_compat_first decimal_hi Hsp _ _ _ Hfirst).
    fold limit. destruct (too_long limit digits); [done|].
    split; [done|]. intros n ->. by rewrite py_int_py_str.
Qed.

Lemma compat_level_at_least_12_witness :
  _debhelper_compat_level
    (box_world repo (box_with_dh (lit "debhelper version 13.11.4" ++ [10])))
    ascii_only_decimal (start [])
  = (Ret 13%Z, State tt [] [Spawn dh_version_cmd None]).
Proof.
  destruct (compat_level_at_least_12
              (box_world repo (box_with_dh (lit "debhelper version 13.11.4" ++ [10])))
              ascii_only_decimal (start []))
    as (_ & _ & _ & _ & H).
  specialize (H [] (lit "13") (fun c _ => eq_refl) eq_refl eq_refl).
  cbv zeta in H. change (too_long _ (lit "13")) with false in H. cbv iota in H.
  assert (first_version (isdecimal ascii_only_decimal)
            (lit "debhelper version 13.11.4" ++ [10]) [] (lit "13")) as Hfirst.
  { split.
    - exists (lit "debhelper"), (lit " "), (lit "version"), (lit " "),
        (lit ".11.4" ++ [10]).
      split_and!; try done; unfold ci_match; repeat constructor.
    - intros pre' digits' _. simpl. lia. }
  destruct (H Hfirst) as [_ Hn]. apply (Hn 13). reflexivity.
Defined.

(** The claim as it was: a version number of 4301 digits is one answer of
    the helper for which no level is computed, the limit of [int()] being
    4300 digits. *)
Lemma compat_level_of_long_version_raises :
  ~ (forall text : str,
       exists level,
         (_debhelper_compat_level (box_world repo (box_with_dh text))
            ascii_only_decimal (start [])).1 = Ret level
         /\ (12 <= level)%Z).
Proof.
  intros H. destruct (H long_version_report) as (level & Hrun & _).
  vm_compute in Hrun. discriminate.
Qed.

Example compat_level_of_debhelper_13 :
  fst (_debhelper_compat_level
         (box_world repo (box_with_dh (lit "debhelper version 13.11.4" ++ [10])))
         ascii_only_decimal (start [])) = Ret 13%Z.
Proof. reflexivity. Qed.

Example compat_level_of_debhelper_9 :
  fst (_debhelper_compat_level
         (box_world repo (box_with_dh (lit "debhelper version 9.20160115" ++ [10])))
         ascii_only_decimal (start [])) = Ret 12%Z.
Proof. reflexivity. Qed.

Example compat_level_without_dh :
  fst (_debhelper_compat_level (box_world repo (box_with_setup setup_plain))
         ascii_only_decimal (start [])) = Ret 12%Z.
Proof. reflexivity. Qed.

(** ** Claim C10: the floor of Build-Depends *)

Lemma build_depends_line_12 (compat : Z) :
  (12 <= compat)%Z ->
  build_depends_line compat = lit "Build-Depends: debhelper (>= 12)".
Proof. intros H. unfold build_depends_line. by rewrite Z.min_r. Qed.

Lemma control_template_12 name email (compat : Z) :
  (12 <= compat)%Z ->
  control_template name email compat = control_template name email 12.
Proof.
  intros H. unfold control_template.
  by rewrite (build_depends_line_12 compat H).
Qed.

Section Skeleton.
Context {E : Type} (w : world E).
Variables (alnum_hi : char -> bool) (decimal_hi : char -> option N)
          (dedent : str -> str).

Lemma emit_run ev (s : state E) :
  emit w ev s = (Ret tt, State (effect w (env s) ev) (stdin s) (trace s ++ [ev])).
Proof. done. Qed.

Ltac exec :=
  repeat first
    [ match goal with
      | |- context [bind _ _ _] => rewrite bind_run
      | |- context [say _ _] => rewrite say_run
      | |- context [ret _ _] => rewrite ret_run
      | |- context [emit _ _ _] => rewrite emit_run
      end; cbn [env stdin trace negb andb]
    | progress cbn [env stdin trace negb andb]].

Lemma pjoin_inj (d a b : str) : pjoin d a = pjoin d b -> a = b.
Proof. unfold pjoin. intros H. by apply app_inv_head, app_inv_head in H. Qed.

(** The skeleton, event by event: it is generated unless [int()] refuses
    the version number of [dh], which stops it after the two directories and
    the question to [dh]. *)
Lemma generate_debian_skeleton_cases work_dir (s : state E) :
  let debian_dir := pjoin work_dir (lit "debian") in
  let e2 := effect w (effect w (env s) (Mkdir debian_dir))
              (Mkdir (pjoin debian_dir (lit "source"))) in
  exists r e' evs,
    generate_debian_skeleton w alnum_hi decimal_hi dedent work_dir s
    = (r, State e' (stdin s) (trace s ++ evs))
    /\ e' = foldl (effect w) (env s) evs
    /\ Forall (skeleton_event work_dir) evs
    /\ (forall content,
          In (WriteText (pjoin debian_dir (lit "control")) content) evs ->
          exists name email, content = dedent (control_template name email 12))
    /\ ((r = Ret (project_version_or_default w alnum_hi e2 ++ lit "-1")
         /\ exists name email,
              In (WriteText (pjoin debian_dir (lit "control"))
                    (dedent (control_template name email 12))) evs)
        \/ (r = Raise ValueError
            /\ evs = [Mkdir debian_dir; Mkdir (pjoin debian_dir (lit "source"));
                      Spawn dh_version_cmd None]
            /\ ~ digit_runs_fit (int_max_str_digits w) (isdecimal decimal_hi)
                   (stdout (spawn w e2 dh_version_cmd None)))).
Proof.
  intros debian_dir e2. unfold generate_debian_skeleton. fold debian_dir. exec.
  rewrite read_project_version_run. exec. fold e2.
  assert (Hversion :
    or_else (if file_exists w e2 (SETUP_PY w)
             then strip <$> re_search (project_version_re alnum_hi)
                              (read_text w e2 (SETUP_PY w))
             else None) (lit "0.0.0")
    = project_version_or_default w alnum_hi e2).
  { unfold project_version_or_default, or_else, SETUP_PY. cbv zeta.
    by destruct (if file_exists _ _ _ then _ else _) as [[|]|]. }
  rewrite Hversion. clear Hversion.
  match goal with |- context [_debhelper_compat_level w decimal_hi ?s1] =>
    destruct (debhelper_compat_level_cases w decimal_hi s1)
      as (r & e3 & dh & -> & He3 & Hdh & Hcases)
  end.
  cbn [env stdin trace] in He3, Hcases |- *.
  assert (Forall (skeleton_event work_dir) dh) as Hdh'.
  { eapply Forall_impl; [exact Hdh|]. by intros ev ->. }
  assert (forall c, ~ In (WriteText (pjoin debian_dir (lit "control")) c) dh) as Hnodh.
  { intros c Hin. rewrite Forall_forall in Hdh.
    by specialize (Hdh _ (proj2 (list_elem_of_In _ _) Hin)). }
  destruct Hcases as [(level & -> & Hlevel)|(-> & -> & Hno)].
  - unfold _maintainer_identity, _rfc2822_now_utc, observe. exec.
    rewrite (control_template_12 _ _ level Hlevel).
    rewrite <- !app_assoc. cbn [app].
    eexists _, _, ([Mkdir debian_dir; Mkdir (pjoin debian_dir (lit "source"))] ++ dh ++ _).
    split_and!.
    + cbn [app]. reflexivity.
    + rewrite He3, !foldl_app. reflexivity.
    + apply Forall_app. split; [repeat constructor; cbn; tauto|].
      apply Forall_app. split; [done|].
      repeat constructor; cbn; tauto.
    + intros content Hin. cbn [app] in Hin.
      destruct Hin as [?|[?|Hin]]; [done|done|].
      apply in_app_or in Hin as [Hin|Hin]; [by apply Hnodh in Hin|].
      destruct Hin as [[= <-]|Hin]; [by eexists _, _|].
      exfalso.
      repeat (destruct Hin as [Heq|Hin];
              [first [discriminate Heq
                     |injection Heq as Heq _; unfold pjoin in Heq;
                      rewrite <- ?app_assoc in Heq; apply app_inv_head in Heq;
                      by vm_compute in Heq]|]).
      done.
    + left. split; [done|]. eexists _, _.
      apply in_or_app. right. apply in_or_app. right. by left.
  - exec.
    eexists _, _, [Mkdir debian_dir; Mkdir (pjoin debian_dir (lit "source"));
                   Spawn dh_version_cmd None].
    split_and!.
    + rewrite <- !app_assoc. reflexivity.
    + rewrite He3. reflexivity.
    + repeat constructor; cbn; tauto.
    + intros content Hin. by repeat destruct Hin as [?|Hin].
    + right. by split_and!.
Qed.

End Skeleton.

(** C10, as amended. The floor rendered is the smaller of the level and 12,
    and the level is the larger of 12 and a number, so it is 12 whatever the
    number. Whatever [dh --version] answers, and without [dh], every control
    file that the generator writes has the line
    [Build-Depends: debhelper (>= 12)]; and the generator writes one when no
    run of digits in the answer is longer than [int()] takes. *)
Theorem build_depends_floor_is_12
    {E : Type} (w : world E) (alnum_hi : char -> bool)
    (decimal_hi : char -> option N) (dedent : str -> str)
    (work_dir : str) (s : state E) :
  let debian_dir := pjoin work_dir (lit "debian") in
  let control := pjoin debian_dir (lit "control") in
  let asked := effect w (effect w (env s) (Mkdir debian_dir))
                 (Mkdir (pjoin debian_dir (lit "source"))) in
  let run := generate_debian_skeleton w alnum_hi decimal_hi dedent work_dir s in
  let written := drop (length (trace s)) (trace run.2) in
  (forall major : Z,
     Z.min (Z.max 12 major) 12 = 12%Z
     /\ build_depends_line (Z.max 12 major) = lit "Build-Depends: debhelper (>= 12)")
  /\ (forall content,
        In (WriteText control content) written ->
        exists name email, content = dedent (control_template name email 12))
  /\ (digit_runs_fit (int_max_str_digits w) (isdecimal decimal_hi)
        (stdout (spawn w asked dh_version_cmd None)) ->
      exists deb_version name email,
        run.1 = Ret deb_version
        /\ In (WriteText control (dedent (control_template name email 12))) written)
  /\ (forall name email,
        control_template name email 12
        = tline (lit "Source: kport")
          ++ tline (lit "Section: utils")
          ++ tline (lit "Priority: optional")
          ++ tline (lit "Maintainer: " ++ name ++ lit " <" ++ email ++ lit ">")
          ++ tline (lit "Build-Depends: debhelper (>= 12)")
          ++ tline (lit "Standards-Version: 4.5.0")
          ++ tline (lit "Homepage: https://github.com/farman20ali/port-killer")
          ++ tline (lit "Rules-Requires-Root: no")
          ++ [10]
          ++ tline (lit "Package: kport")
          ++ tline (lit "Architecture: all")
          ++ tline (lit "Depends: ${misc:Depends}, python3, python3-psutil")
          ++ tline (lit "Description: Cross-platform port inspector and killer")
          ++ tline (lit " kport helps you list, inspect, and kill processes using ports.")
          ++ tline (lit " It can also show Docker port mappings when Docker is installed.")
          ++ lit "        ").
Proof.
  intros debian_dir control asked run written. subst written run.
  destruct (generate_debian_skeleton_cases w alnum_hi decimal_hi dedent work_dir s)
    as (r & e' & evs & -> & _ & _ & Hcontrol & Hcases).
  cbv zeta in Hcases. fold debian_dir asked in Hcontrol, Hcases. fold control in Hcontrol, Hcases.
  cbn [fst snd trace]. rewrite drop_app_length.
  split_and!.
  - intros major. split; [lia|]. apply build_depends_line_12. lia.
  - exact Hcontrol.
  - intros Hfit. destruct Hcases as [(-> & name & email & Hin)|(_ & _ & Hno)]; [|done].
    by eexists _, name, email.
  - done.
Qed.

Lemma build_depends_floor_is_12_witness :
  let w := box_world repo (box_with_dh (lit "debhelper version 13.11.4" ++ [10])) in
  let run := generate_debian_skeleton w ascii_only_alnum ascii_only_decimal (fun x => x)
               (lit "/tmp/w") (start []) in
  exists deb_version name email,
    run.1 = Ret deb_version
    /\ In (WriteText (pjoin (pjoin (lit "/tmp/w") (lit "debian")) (lit "control"))
             (control_template name email 12))
          (drop (length (trace (start []))) (trace run.2)).
Proof.
  intros w run.
  destruct (build_depends_floor_is_12 w ascii_only_alnum ascii_only_decimal
              (fun x => x) (lit "/tmp/w") (start [])) as (_ & _ & H & _).
  apply H. intros pre digits post Heq _. apply (f_equal length) in Heq.
  rewrite !length_app in Heq.
  change (length (stdout _)) with 26%nat in Heq.
  unfold too_long. apply andb_false_iff. right. apply Nat.ltb_ge.
  apply Nat.le_trans with 26%nat; [lia|].
  apply Nat.leb_le. vm_compute. reflexivity.
Defined.

(** The claim as it was: with a version number of 4301 digits the generator
    stops before it writes a control file. *)
Lemma skeleton_of_long_version_writes_no_control :
  ~ (forall text : str,
       let run := generate_debian_skeleton (box_world repo (box_with_dh text))
                    ascii_only_alnum ascii_only_decimal (fun x => x)
                    (lit "/tmp/w") (start []) in
       exists content,
         In (WriteText (pjoin (pjoin (lit "/tmp/w") (lit "debian")) (lit "control"))
               content)
            (trace run.2)).
Proof.
  intros H. destruct (H long_version_report) as (content & Hin).
  vm_compute in Hin. decompose [or] Hin; discriminate || done.
Qed.
(** ** Claim C8: what is new after the build *)

Section NewDebs.
Context {E : Type} (w : world E).

Ltac exec :=
  repeat first [rewrite bind_run | rewrite say_run | rewrite ret_run
               | rewrite emit_run
               | progress cbn [env stdin trace negb andb]].

Lemma for_each_emit {A B} (f : A -> M E B) (ev : A -> event) (g : A -> B) :
  (forall x s, f x s = (Ret (g x), State (effect w (env s) (ev x)) (stdin s)
                                     (trace s ++ [ev x]))) ->
  forall l s,
  exists e',
    for_each f l s
    = (Ret (List.map g l), State e' (stdin s) (trace s ++ List.map ev l)).
Proof.
  intros Hf. induction l as [|x l IH]; intros s.
  - exists (env s). simpl. unfold ret. by rewrite app_nil_r, state_eta.
  - simpl for_each. rewrite bind_run, Hf.
    destruct (IH (State (effect w (env s) (ev x)) (stdin s) (trace s ++ [ev x])))
      as (e' & He).
    rewrite bind_run, He. cbn [env stdin trace]. exec.
    exists e'. simpl. by rewrite <- app_assoc.
Qed.

Lemma copy_new_debs_run (build_parent : str) (before : gset (list N)) (s : state E) :
  let after := glob w (env s) build_parent (lit ".deb") in
  let new := List.filter (fun name => bool_decide (name ∉ before)) after in
  exists e',
    _copy_new_debs w build_parent before s
    = (Ret (List.map (pjoin (DIST_DIR w)) new),
       State e' (stdin s)
         (trace s ++ match new with
                     | [] => []
                     | _ => Mkdir (DIST_DIR w)
                            :: List.map (copy_event w build_parent) new
                     end)).
Proof.
  intros after new. unfold _copy_new_debs, observe. exec. fold after new.
  destruct new as [|name new'] eqn:Hnew.
  - exists (env s). unfold ret. by rewrite app_nil_r, state_eta.
  - exec.
    match goal with |- context [for_each ?f ?l ?s1] =>
      destruct (for_each_emit f (copy_event w build_parent) (pjoin (DIST_DIR w))
                  (fun x s => eq_refl) l s1) as (e' & ->)
    end.
    exists e'. cbn [env stdin trace]. by rewrite <- app_assoc.
Qed.

Lemma filter_new_spec (before : gset (list N)) (after : list str) (name : str) :
  In name (List.filter (fun name => bool_decide (name ∉ before)) after)
  <-> In name after /\ name ∉ before.
Proof.
  rewrite List.filter_In. by rewrite bool_decide_eq_true.
Qed.

Lemma In_insert_by x y l : In x (insert_by y l) <-> x = y \/ In x l.
Proof.
  induction l as [|z l IH]; simpl.
  - intuition congruence.
  - destruct (key_leb y z); simpl; [intuition congruence|].
    rewrite IH. intuition congruence.
Qed.

Lemma In_sort_debs x l : In x (sort_debs l) <-> In x l.
Proof.
  unfold sort_debs. induction l as [|y l IH]; simpl; [done|].
  rewrite In_insert_by, IH. intuition congruence.
Qed.

Lemma dest_name_pjoin name : dest_name w (pjoin (DIST_DIR w) name) = name.
Proof.
  unfold dest_name, pjoin at 1. rewrite drop_app_ge by lia.
  replace (length (DIST_DIR w) + 1 - length (DIST_DIR w))%nat with 1%nat by lia.
  done.
Qed.

Lemma map_dest_name l :
  List.map (dest_name w) (List.map (pjoin (DIST_DIR w)) l) = l.
Proof.
  induction l as [|x l IH]; simpl; [done|]. by rewrite dest_name_pjoin, IH.
Qed.

Lemma run_run cmd d (s : state E) :
  run_ w cmd d s =
  if which w (env s) (hd [] cmd) then
    let r := spawn w (env s) cmd None in
    let e1 := effect w (env s) (Spawn cmd None) in
    if (returncode r =? 0)%Z
    then (Ret r, State e1 (stdin s) (trace s ++ [Spawn cmd None; Print (OkDone d)]))
    else (Raise (SystemExit (returncode r)),
          State e1 (stdin s) (trace s ++ [Spawn cmd None; Print (ErrFailed d)]))
  else (Raise FileNotFoundError, s).
Proof.
  unfold run_. rewrite bind_run.
  destruct (which w (env s) (hd [] cmd)) eqn:Hw.
  - rewrite subprocess_run_found by done. cbv zeta.
    destruct (returncode _ =? 0)%Z; exec; unfold sys_exit, raise;
      by rewrite <- app_assoc.
  - by rewrite subprocess_run_missing.
Qed.

Section BuildDeb.
Variables (alnum_hi : char -> bool) (decimal_hi : char -> option N)
          (dedent : str -> str).

(** The artifact that [build_deb] returns was not in the build directory
    when the snapshot was taken, and is there after the build. *)
Lemma build_deb_new (s s' : state E) (dest : str) :
  build_deb w alnum_hi decimal_hi dedent s = (Ret (Some dest), s') ->
  let td := mkdtemp w (effect w (env s) (Mkdir (DIST_DIR w))) (lit "kport-deb-") in
  exists e1 name,
    dest = pjoin (DIST_DIR w) name
    /\ ~ In name (glob w e1 td (lit ".deb"))
    /\ In name (glob w (effect w e1 (Spawn dpkg_buildpackage_cmd None)) td (lit ".deb")).
Proof.
  intros H td. unfold build_deb, observe in H. revert H. exec. fold td.
  unfold finally.
  match goal with |- context [bind ?m ?f ?s0] =>
    destruct (bind m f s0) as [r s''] eqn:Hbody
  end.
  intros [= -> <-]. revert Hbody. exec.
  match goal with |- context [generate_debian_skeleton w _ _ _ ?d ?s1] =>
    destruct (generate_debian_skeleton_cases w alnum_hi decimal_hi dedent d s1)
      as (res & e1 & evs & -> & _ & _ & _ & [[-> _]|[-> _]])
  end; [|done].
  exec. rewrite run_run. fold dpkg_buildpackage_cmd. cbn [env stdin trace].
  destruct (which w e1 (hd [] dpkg_buildpackage_cmd)); [|done].
  cbv zeta. destruct (returncode _ =? 0)%Z; [|done]. exec.
  match goal with |- context [_copy_new_debs w td ?before ?s2] =>
    destruct (copy_new_debs_run td before s2) as (e2 & ->)
  end.
  cbn [env stdin trace]. exec.
  set (new := List.filter _ _).
  destruct (List.map (pjoin (DIST_DIR w)) new) as [|d0 ds] eqn:Hmap; [done|].
  rewrite <- Hmap, map_dest_name. unfold ret. intros [= Hhead].
  assert (In dest (List.map (pjoin (DIST_DIR w)) (sort_debs new))) as Hin.
  { destruct (List.map _ (sort_debs new)); [done|]. injection Hhead as ->. by left. }
  apply in_map_iff in Hin as (name & <- & Hname).
  apply In_sort_debs, filter_new_spec in Hname as [Hafter Hbefore].
  exists e1, name. split_and!; [done| |done].
  intros Hin. apply Hbefore. apply elem_of_list_to_set. by apply list_elem_of_In.
Qed.

End BuildDeb.

End NewDebs.

(** C8. The artifacts that the builder takes as new, and copies into
    dist/deb, are the [.deb] files of the build directory whose names are
    not in the snapshot, in the order of the listing: a name of the snapshot
    is neither reported nor copied. For [build_deb], whose snapshot is the
    listing of the build directory right before the build: the artifact it
    returns was not in that listing and is in the listing after the build. *)
Theorem new_debs_exclude_snapshot
    {E : Type} (w : world E) (alnum_hi : char -> bool)
    (decimal_hi : char -> option N) (dedent : str -> str) :
  (forall (build_parent : str) (before : gset (list N)) (s : state E),
     let after := glob w (env s) build_parent (lit ".deb") in
     exists new e',
       _copy_new_debs w build_parent before s
       = (Ret (List.map (pjoin (DIST_DIR w)) new),
          State e' (stdin s)
            (trace s ++ match new with
                        | [] => []
                        | _ => Mkdir (DIST_DIR w)
                               :: List.map (copy_event w build_parent) new
                        end))
       /\ (forall name, In name new <-> In name after /\ name ∉ before))
  /\ (forall (s s' : state E) (dest : str),
        build_deb w alnum_hi decimal_hi dedent s = (Ret (Some dest), s') ->
        let td := mkdtemp w (effect w (env s) (Mkdir (DIST_DIR w))) (lit "kport-deb-") in
        exists e1 name,
          dest = pjoin (DIST_DIR w) name
          /\ ~ In name (glob w e1 td (lit ".deb"))
          /\ In name (glob w (effect w e1 (Spawn dpkg_buildpackage_cmd None)) td
                        (lit ".deb"))).
Proof.
  split.
  - intros build_parent before s after.
    destruct (copy_new_debs_run w build_parent before s) as (e' & H).
    eexists _, e'. split; [exact H|]. intros name. apply filter_new_spec.
  - intros s s' dest H. by eapply build_deb_new.
Qed.

Lemma new_debs_exclude_snapshot_witness :
  exists e1 name,
    pjoin (DIST_DIR build_world) (lit "kport_2.0-1_all.deb")
    = pjoin (DIST_DIR build_world) name
    /\ ~ In name (glob build_world e1 (lit "/tmp/kport-deb-0") (lit ".deb"))
    /\ In name (glob build_world
                  (effect build_world e1 (Spawn dpkg_buildpackage_cmd None))
                  (lit "/tmp/kport-deb-0") (lit ".deb")).
Proof.
  destruct (new_debs_exclude_snapshot build_world ascii_only_alnum
              ascii_only_decimal (fun x => x)) as [_ H].
  apply (H (State false [] [])
           (snd (build_deb build_world ascii_only_alnum ascii_only_decimal
                   (fun x => x) (State false [] [])))).
  vm_compute. reflexivity.
Defined.

Example copy_new_debs_skips_old :
  fst (_copy_new_debs (box_world repo box_with_debs) (lit "/tmp/b")
         {[ lit "kport_1.0-1_all.deb" ]} (start []))
  = Ret [pjoin (DIST_DIR (box_world repo box_with_debs)) (lit "kport_2.0-1_all.deb")].
Proof. reflexivity. Qed.
(** * Further properties *)

(** Running a script step by step. *)
Ltac step :=
  repeat first
    [ match goal with
      | |- context [bind _ _ _] => rewrite bind_run
      | |- context [say _ _] => rewrite say_run
      | |- context [ret _ _] => rewrite ret_run
      | |- context [emit _ _ _] => rewrite emit_run
      | |- context [input (State _ (_ :: _) _)] => rewrite input_run
      | |- context [input (State _ [] _)] => rewrite input_eof
      end; cbn [env stdin trace negb andb orb fst snd]
    | progress cbn [env stdin trace negb andb orb fst snd]].

(** ** release.py: the ways out of [main] before the tag *)

(** Without a version in setup.py the release stops at once, with or without
    [--version]: nothing is run. *)
Theorem no_version_in_setup_aborts
    {E : Type} (w : world E) (a : args) (e : E) (typed : list str) :
  (forall current, ~ resolves w e current) ->
  release_py w a (State e typed [])
  = (1%Z, State e typed [Print HdrRelease; Print ErrNoVersion]).
Proof.
  intros Hno. unfold release_py. rewrite main_stages. step.
  rewrite read_version_from_setup_run. step.
  destruct (file_exists w e (SETUP_PY w)) eqn:Hex; [|done].
  destruct (re_search version_re (read_text w e (SETUP_PY w))) as [g|] eqn:Hg;
    [|done].
  unfold fmap, option_fmap, option_map.
  destruct (strip g) as [|c current] eqn:Hs; [done|].
  exfalso. apply (Hno (c :: current)). unfold resolves. rewrite Hex, Hg.
  unfold fmap, option_fmap, option_map. by rewrite Hs.
Qed.

Lemma no_version_in_setup_aborts_witness :
  release_py (box_world repo not_a_repository)
             (Args (Some (lit "3.1.2")) false false false false) (start [])
  = (1%Z, State tt [] [Print HdrRelease; Print ErrNoVersion]).
Proof.
  apply (no_version_in_setup_aborts (box_world repo not_a_repository)
           (Args (Some (lit "3.1.2")) false false false false) tt []).
  intros current (Hex & _). discriminate Hex.
Defined.

Section Leaving.
Context {E : Type} (w : world E).

(** When both checks pass, the validation hands over to the confirmation. *)
Lemma validation_stage_passed (a : args) version tag (s : state E) :
  which w (env s) (lit "git") = true ->
  which w (after_status w (env s)) (lit "git") = true ->
  clean w (env s) ->
  ~ tag_listed w tag (after_status w (env s)) ->
  validation_stage w a version tag s
  = tag_stage w a version tag
      (State (after_queries w tag (env s)) (stdin s)
             (trace s ++ validation_events a tag)).
Proof.
  intros Hgit Hgit' Hclean Htag. unfold validation_stage, validation_events.
  assert (forall k : unit -> M E unit,
             bind (if dry_run a then say WarnDryRun else ret tt) k s
             = k tt (State (env s) (stdin s)
                           (trace s ++ if dry_run a then [Print WarnDryRun] else [])))
    as ->.
  { intros k. destruct (dry_run a); step; [done|]. by rewrite app_nil_r, state_eta. }
  step. rewrite check_git_status_found by done. step.
  apply length_eqb_0 in Hclean. rewrite Hclean. step.
  rewrite check_tag_exists_found by done. step.
  destruct (0 <? length _)%nat eqn:Hl; [by apply length_ltb_0 in Hl|].
  step. unfold after_queries. by rewrite <- !app_assoc.
Qed.

End Leaving.

(** With uncommitted changes the release stops after the status query, with
    exit status 1; the tag is not even looked up. *)
Theorem dirty_tree_aborts
    {E : Type} (w : world E) (a : args) (e : E) (typed : list str) (current : str) :
  resolves w e current ->
  which w e (lit "git") = true ->
  ~ clean w e ->
  release_py w a (State e typed [])
  = (1%Z, State (after_status w e) typed
            ([Print HdrRelease]
             ++ (if dry_run a then [Print WarnDryRun] else [])
             ++ [Print HdrPreflight; Spawn git_status_cmd None; Print ErrDirty])).
Proof.
  intros Hres Hgit Hdirty. unfold release_py.
  rewrite (main_resolved w a e typed current Hres). unfold validation_stage.
  destruct (dry_run a); step; rewrite check_git_status_found by done; step.
  all: destruct (length _ =? 0)%nat eqn:Hl; [by apply length_eqb_0 in Hl|].
  all: step; unfold sys_exit, raise; by rewrite <- ?app_assoc.
Qed.

Lemma dirty_tree_aborts_witness :
  release_py (box_world repo dirty_repository) (plain_args false) (start [lit "y"])
  = (1%Z, State tt [lit "y"]
            [Print HdrRelease; Print HdrPreflight; Spawn git_status_cmd None;
             Print ErrDirty]).
Proof.
  apply (dirty_tree_aborts (box_world repo dirty_repository) (plain_args false)
           tt [lit "y"] (lit "2.0.0")).
  - split_and!; [reflexivity|reflexivity|discriminate].
  - reflexivity.
  - unfold clean. vm_compute. discriminate.
Defined.

(** When the operator does not answer yes, the release is cancelled with exit
    status 0; when there is no answer at all, it ends with exit status 1.
    Either way nothing but the two queries has been run. *)
Theorem declined_release_changes_nothing
    {E : Type} (w : world E) (a : args) (e : E) (typed : list str) (current : str) :
  let version := release_version a current in
  let tag := tag_of version in
  let e2 := after_queries w tag e in
  let done_ := [Print HdrRelease] ++ validation_events a tag in
  dry_run a = false ->
  resolves w e current ->
  which w e (lit "git") = true ->
  which w (after_status w e) (lit "git") = true ->
  clean w e ->
  ~ tag_listed w tag (after_status w e) ->
  match typed with
  | [] =>
      release_py w a (State e typed [])
      = (1%Z, State e2 [] (done_ ++ [Print ErrUnexpected]))
  | reply :: rest =>
      says_yes reply = false ->
      release_py w a (State e typed [])
      = (0%Z, State e2 rest (done_ ++ [Print Cancelled]))
  end.
Proof.
  intros version tag e2 done_ Hdry Hres Hgit Hgit' Hclean Htag.
  unfold release_py. rewrite (main_resolved w a e typed current Hres).
  fold version tag. rewrite validation_stage_passed by done.
  cbn [env stdin trace]. fold e2. unfold tag_stage. rewrite Hdry.
  destruct typed as [|reply rest]; step; [done|].
  intros Hno. fold (says_yes reply). rewrite Hno. step.
  unfold sys_exit, raise. by rewrite <- !app_assoc.
Qed.

Lemma declined_release_changes_nothing_witness :
  release_py (box_world repo fresh_repository) (plain_args false) (start [lit "n"])
  = (0%Z, State tt []
            ([Print HdrRelease] ++ validation_events (plain_args false) (lit "v2.0.0")
             ++ [Print Cancelled])).
Proof.
  apply (declined_release_changes_nothing (box_world repo fresh_repository)
           (plain_args false) tt [lit "n"] (lit "2.0.0")).
  - reflexivity.
  - split_and!; [reflexivity|reflexivity|discriminate].
  - reflexivity.
  - reflexivity.
  - reflexivity.
  - unfold tag_listed. vm_compute. by intros H.
  - reflexivity.
Defined.

(** ** release.py: the tag comes before the builds *)

Section Tagging.
Context {E : Type} (w : world E).

Lemma run_command_missing cmd d check (s : state E) :
  which w (env s) (hd [] cmd) = false ->
  run_command w cmd d check s = (Raise FileNotFoundError, s).
Proof.
  intros H. unfold run_command. by rewrite bind_run, subprocess_run_missing.
Qed.

(** From the confirmation on, when the run is not a dry run: the builds are
    reached with the tag created and pushed, or the run ends before them. *)
Lemma tag_stage_tagged (a : args) version tag (s : state E) :
  dry_run a = false ->
  exists e' evs,
    Forall prelude_event evs
    /\ (tag_stage w a version tag s
        = build_stage w a version tag
            (State e' (tl (stdin s)) (trace s ++ tagging_events version tag))
        \/ exists x typed', tag_stage w a version tag s
                            = (Raise x, State e' typed' (trace s ++ evs))).
Proof.
  intros Hdry. unfold tag_stage. rewrite Hdry.
  fold (git_tag_a_cmd version tag) git_push_main_cmd git_push_tags_cmd.
  destruct s as [e [|reply typed] tr]; step.
  { exists e, []. split; [trace_ok|]. right. exists EOFError, [].
    by rewrite app_nil_r. }
  destruct (str_in (py_lower (strip reply)) [lit "y"; lit "yes"]); step.
  2: { eexists _, _. split; [|right; eexists _, _; reflexivity]. trace_ok. }
  destruct (which w e (lit "git")) eqn:Hg1.
  2: { rewrite run_command_missing by done. step.
       eexists _, _. split; [|right; eexists _, _; reflexivity]. trace_ok. }
  rewrite run_command_run by done. cbn [andb env stdin trace].
  destruct (returncode _ =? 0)%Z; cbn [negb].
  2: { rewrite <- !app_assoc.
       eexists _, _. split; [|right; eexists _, _; reflexivity]. trace_ok. }
  step.
  match goal with |- context [run_command w git_push_main_cmd _ true ?s1] =>
    destruct (which w (env s1) (lit "git")) eqn:Hg2
  end; cbn [env] in Hg2.
  2: { rewrite run_command_missing by done. step. rewrite <- !app_assoc.
       eexists _, _. split; [|right; eexists _, _; reflexivity]. trace_ok. }
  rewrite run_command_run by done. cbn [andb env stdin trace].
  destruct (returncode _ =? 0)%Z; cbn [negb].
  2: { rewrite <- !app_assoc.
       eexists _, _. split; [|right; eexists _, _; reflexivity]. trace_ok. }
  step.
  match goal with |- context [run_command w git_push_tags_cmd _ true ?s1] =>
    destruct (which w (env s1) (lit "git")) eqn:Hg3
  end; cbn [env] in Hg3.
  2: { rewrite run_command_missing by done. step. rewrite <- !app_assoc.
       eexists _, _. split; [|right; eexists _, _; reflexivity]. trace_ok. }
  rewrite run_command_run by done. cbn [andb env stdin trace].
  destruct (returncode _ =? 0)%Z; cbn [negb].
  2: { rewrite <- !app_assoc.
       eexists _, _. split; [|right; eexists _, _; reflexivity]. trace_ok. }
  step. rewrite <- !app_assoc.
  eexists _, []. split; [trace_ok|]. left. reflexivity.
Qed.

End Tagging.

Section Appends.
Context {E : Type} (w : world E).

Lemma appends_ret {A} (x : A) : appends (ret (E:=E) x).
Proof. intros s. exists []. by rewrite app_nil_r. Qed.

Lemma appends_raise {A} x : appends (raise (E:=E) (A:=A) x).
Proof. intros s. exists []. by rewrite app_nil_r. Qed.

Lemma appends_say m : appends (say (E:=E) m).
Proof. intros s. by eexists. Qed.

Lemma appends_emit ev : appends (emit w ev).
Proof. intros s. by eexists. Qed.

Lemma appends_observe {A} (f : E -> A) : appends (observe f).
Proof. intros s. exists []. by rewrite app_nil_r. Qed.

Lemma appends_input : appends (input (E:=E)).
Proof. intros [e [|l ls] tr]; exists []; by rewrite app_nil_r. Qed.

Lemma appends_input_lines : appends (input_lines (E:=E)).
Proof. intros s. exists []. by rewrite app_nil_r. Qed.

Lemma appends_subprocess_run cmd inp : appends (subprocess_run w cmd inp).
Proof.
  intros s. unfold subprocess_run. destruct (which w (env s) (hd [] cmd)).
  - by eexists.
  - exists []. by rewrite app_nil_r.
Qed.

Lemma appends_bind {A B} (m : M E A) (f : A -> M E B) :
  appends m -> (forall x, appends (f x)) -> appends (bind m f).
Proof.
  intros Hm Hf s. unfold bind. destruct (Hm s) as [evs1 H1].
  destruct (m s) as [[x|x] s1]; simpl in H1.
  - destruct (Hf x s1) as [evs2 H2]. exists (evs1 ++ evs2).
    by rewrite H2, H1, app_assoc.
  - by exists evs1.
Qed.

Lemma appends_if {A} (c : bool) (m1 m2 : M E A) :
  appends m1 -> appends m2 -> appends (if c then m1 else m2).
Proof. by destruct c. Qed.

End Appends.

(** A computation put together from steps that only add events does so
    too. *)
Ltac appends_tac :=
  repeat first
    [ apply appends_bind; [|intros ?]
    | apply appends_ret | apply appends_raise | apply appends_say
    | apply appends_emit | apply appends_observe | apply appends_input
    | apply appends_input_lines | apply appends_subprocess_run
    | apply appends_if
    | match goal with
      | |- appends (match ?x with _ => _ end) => destruct x
      | |- appends (let _ := _ in _) => cbv zeta
      end ].

Section AppendsRelease.
Context {E : Type} (w : world E).

Lemma appends_run_command cmd d check : appends (run_command w cmd d check).
Proof. unfold run_command, sys_exit. appends_tac. Qed.

Lemma appends_build_stage a version tag : appends (build_stage w a version tag).
Proof.
  unfold build_stage, build_pypi_packages, build_debian_package, publish_stage,
    get_release_notes, create_github_release, summary_stage, command_exists.
  appends_tac; apply appends_run_command || idtac.
Qed.

End AppendsRelease.

Section TagFirst.
Context {E : Type} (w : world E).

Lemma validation_stage_tagged (a : args) version tag (s : state E) :
  dry_run a = false ->
  exists e' evs,
    Forall prelude_event evs
    /\ (validation_stage w a version tag s
        = build_stage w a version tag
            (State e' (tl (stdin s)) (trace s ++ evs ++ tagging_events version tag))
        \/ exists x typed', validation_stage w a version tag s
                            = (Raise x, State e' typed' (trace s ++ evs))).
Proof.
  intros Hdry. unfold validation_stage. rewrite Hdry. step.
  destruct (which w (env s) (lit "git")) eqn:Hgit.
  2: { rewrite check_git_status_missing by done. cbn [env stdin trace].
       eexists _, _. split; [|right; eexists _, _; reflexivity]. trace_ok. }
  rewrite check_git_status_found by done. step.
  destruct (length (strip (stdout (spawn w (env s) git_status_cmd None))) =? 0)%nat;
    step.
  2: { unfold sys_exit, raise. rewrite <- !app_assoc.
       eexists _, _. split; [|right; eexists _, _; reflexivity]. trace_ok. }
  destruct (which w (after_status w (env s)) (lit "git")) eqn:Hgit'.
  2: { rewrite check_tag_exists_missing by done. cbn [env stdin trace].
       rewrite <- !app_assoc.
       eexists _, _. split; [|right; eexists _, _; reflexivity]. trace_ok. }
  rewrite check_tag_exists_found by done. step.
  destruct (0 <? length _)%nat; step.
  { unfold sys_exit, raise. rewrite <- !app_assoc.
    eexists _, _. split; [|right; eexists _, _; reflexivity]. trace_ok. }
  match goal with |- context [tag_stage w a version tag ?s1] =>
    destruct (tag_stage_tagged w a version tag s1 Hdry)
      as (e1 & evs1 & Hevs1 & [-> | (x & typed' & ->)])
  end; cbn [env stdin trace]; rewrite <- !app_assoc.
  - eexists _, [Print HdrPreflight; Spawn git_status_cmd None; Print OkClean;
                Spawn (git_tag_l_cmd tag) None; Print (OkTagAvailable tag)].
    split; [trace_ok|left; reflexivity].
  - eexists _, _. split; [|right; eexists _, _; reflexivity].
    repeat (apply Forall_app; split; [trace_ok|]). done.
Qed.

Lemma main_tagged (a : args) (e : E) (typed : list str) :
  dry_run a = false ->
  exists e' evs,
    Forall prelude_event evs
    /\ ((exists version,
           main w a (State e typed [])
           = build_stage w a version (tag_of version)
               (State e' (tl typed) (evs ++ tagging_events version (tag_of version))))
        \/ exists x typed', main w a (State e typed [])
                            = (Raise x, State e' typed' evs)).
Proof.
  intros Hdry. rewrite main_stages. step.
  rewrite read_version_from_setup_run. cbn [env stdin trace app].
  destruct (if file_exists w e (SETUP_PY w) then _ else None) as [[|c current]|];
    step.
  1, 3: unfold sys_exit, raise;
        eexists _, _; (split; [|right; eexists _, _; reflexivity]); trace_ok.
  match goal with |- context [validation_stage w a ?v ?t ?s1] =>
    destruct (validation_stage_tagged a v t s1 Hdry)
      as (e1 & evs1 & Hevs1 & [-> | (x & typed' & ->)])
  end; cbn [env stdin trace].
  - exists e1, ([Print HdrRelease] ++ evs1).
    split; [apply Forall_app; split; [trace_ok|done]|].
    left. eexists. by rewrite <- app_assoc.
  - eexists _, _. split; [|right; eexists _, _; reflexivity].
    apply Forall_app. split; [trace_ok|done].
Qed.

End TagFirst.

Section TagExact.
Context {E : Type} (w : world E).

(** From the confirmation on, outside of a dry run: the operator says yes
    and the three git commands succeed, which leads to the builds, or the
    run ends with nothing of the builds in its trace. *)
Lemma tag_stage_exact (a : args) version tag (s : state E) :
  dry_run a = false ->
  let e3 := effect w (env s) (Spawn (git_tag_a_cmd version tag) None) in
  let e4 := effect w e3 (Spawn git_push_main_cmd None) in
  let e5 := effect w e4 (Spawn git_push_tags_cmd None) in
  (exists reply rest,
     stdin s = reply :: rest /\ says_yes reply = true
     /\ returncode (spawn w (env s) (git_tag_a_cmd version tag) None) = 0%Z
     /\ returncode (spawn w e3 git_push_main_cmd None) = 0%Z
     /\ returncode (spawn w e4 git_push_tags_cmd None) = 0%Z
     /\ tag_stage w a version tag s
        = build_stage w a version tag
            (State e5 rest (trace s ++ tagging_events version tag)))
  \/ exists x e' typed' evs,
       tag_stage w a version tag s = (Raise x, State e' typed' (trace s ++ evs))
       /\ Forall before_builds_event evs.
Proof.
  intros Hdry e3 e4 e5. subst e3 e4 e5. unfold tag_stage. rewrite Hdry.
  fold (git_tag_a_cmd version tag) git_push_main_cmd git_push_tags_cmd.
  destruct s as [e [|reply typed] tr]; step.
  { right. exists EOFError, e, [], []. by rewrite app_nil_r. }
  fold (says_yes reply). destruct (says_yes reply) eqn:Hyes; step.
  2: { right. eexists _, _, _, _. split; [reflexivity|]. trace_ok. }
  destruct (which w e (lit "git")) eqn:Hg1.
  2: { rewrite run_command_missing by done. step.
       right. eexists _, _, _, _. split; [reflexivity|]. trace_ok. }
  rewrite run_command_run by done. cbn [andb env stdin trace].
  destruct (returncode _ =? 0)%Z eqn:Hrc1; cbn [negb].
  2: { rewrite <- !app_assoc.
       right. eexists _, _, _, _. split; [reflexivity|]. trace_ok. }
  apply Z.eqb_eq in Hrc1.
  step.
  match goal with |- context [run_command w git_push_main_cmd _ true ?s1] =>
    destruct (which w (env s1) (lit "git")) eqn:Hg2
  end; cbn [env] in Hg2.
  2: { rewrite run_command_missing by done. step. rewrite <- !app_assoc.
       right. eexists _, _, _, _. split; [reflexivity|]. trace_ok. }
  rewrite run_command_run by done. cbn [andb env stdin trace].
  destruct (returncode _ =? 0)%Z eqn:Hrc2; cbn [negb].
  2: { rewrite <- !app_assoc.
       right. eexists _, _, _, _. split; [reflexivity|]. trace_ok. }
  apply Z.eqb_eq in Hrc2.
  step.
  match goal with |- context [run_command w git_push_tags_cmd _ true ?s1] =>
    destruct (which w (env s1) (lit "git")) eqn:Hg3
  end; cbn [env] in Hg3.
  2: { rewrite run_command_missing by done. step. rewrite <- !app_assoc.
       right. eexists _, _, _, _. split; [reflexivity|]. trace_ok. }
  rewrite run_command_run by done. cbn [andb env stdin trace].
  destruct (returncode _ =? 0)%Z eqn:Hrc3; cbn [negb].
  2: { rewrite <- !app_assoc.
       right. eexists _, _, _, _. split; [reflexivity|]. trace_ok. }
  apply Z.eqb_eq in Hrc3.
  step. rewrite <- !app_assoc.
  left. exists reply, typed. by split_and!.
Qed.

(** The validation, outside of a dry run: both checks pass, which leads to
    the confirmation, or the run ends with nothing of the builds in its
    trace. *)
Lemma validation_stage_exact (a : args) version tag (s : state E) :
  dry_run a = false ->
  (clean w (env s) /\ ~ tag_listed w tag (after_status w (env s))
   /\ validation_stage w a version tag s
      = tag_stage w a version tag
          (State (after_queries w tag (env s)) (stdin s)
             (trace s ++ validation_events a tag)))
  \/ exists x e' typed' evs,
       validation_stage w a version tag s = (Raise x, State e' typed' (trace s ++ evs))
       /\ Forall before_builds_event evs.
Proof.
  intros Hdry.
  destruct (which w (env s) (lit "git")) eqn:Hgit.
  2: { right. unfold validation_stage. rewrite Hdry. step.
       rewrite check_git_status_missing by done. cbn [env stdin trace].
       eexists _, _, _, _. split; [reflexivity|]. trace_ok. }
  destruct (length (strip (stdout (spawn w (env s) git_status_cmd None))) =? 0)%nat
    eqn:Hclean.
  2: { right. unfold validation_stage. rewrite Hdry. step.
       rewrite check_git_status_found by done. step. rewrite Hclean. step.
       unfold sys_exit, raise. rewrite <- !app_assoc.
       eexists _, _, _, _. split; [reflexivity|]. trace_ok. }
  apply length_eqb_0 in Hclean.
  destruct (which w (after_status w (env s)) (lit "git")) eqn:Hgit'.
  2: { right. unfold validation_stage. rewrite Hdry. step.
       rewrite check_git_status_found by done. step.
       apply length_eqb_0 in Hclean. rewrite Hclean. step.
       rewrite check_tag_exists_missing by done. cbn [env stdin trace].
       rewrite <- !app_assoc.
       eexists _, _, _, _. split; [reflexivity|]. trace_ok. }
  destruct (0 <? length (strip (stdout (spawn w (after_status w (env s))
                                          (git_tag_l_cmd tag) None))))%nat eqn:Htag.
  { right. unfold validation_stage. rewrite Hdry. step.
    rewrite check_git_status_found by done. step.
    apply length_eqb_0 in Hclean. rewrite Hclean. step.
    rewrite check_tag_exists_found by done. step. rewrite Htag. step.
    unfold sys_exit, raise. rewrite <- !app_assoc.
    eexists _, _, _, _. split; [reflexivity|]. trace_ok. }
  assert (~ tag_listed w tag (after_status w (env s))) as Hfree.
  { intros Hl. apply length_ltb_0 in Hl. unfold tag_listed in *. congruence. }
  left. split_and!; [done|done|]. by apply validation_stage_passed.
Qed.

(** [main], outside of a dry run: a version in setup.py, both checks passed,
    a yes and the three git commands run with success lead to the builds;
    or the run ends with nothing of the builds in its trace. *)
Lemma main_exact (a : args) (e : E) (typed : list str) :
  dry_run a = false ->
  (exists current reply rest,
     let version := release_version a current in
     let tag := tag_of version in
     let e2 := after_queries w tag e in
     let e3 := effect w e2 (Spawn (git_tag_a_cmd version tag) None) in
     let e4 := effect w e3 (Spawn git_push_main_cmd None) in
     let e5 := effect w e4 (Spawn git_push_tags_cmd None) in
     resolves w e current
     /\ clean w e /\ ~ tag_listed w tag (after_status w e)
     /\ typed = reply :: rest /\ says_yes reply = true
     /\ returncode (spawn w e2 (git_tag_a_cmd version tag) None) = 0%Z
     /\ returncode (spawn w e3 git_push_main_cmd None) = 0%Z
     /\ returncode (spawn w e4 git_push_tags_cmd None) = 0%Z
     /\ main w a (State e typed [])
        = build_stage w a version tag
            (State e5 rest
               ([Print HdrRelease] ++ validation_events a tag
                ++ tagging_events version tag)))
  \/ exists x e' typed' evs,
       main w a (State e typed []) = (Raise x, State e' typed' evs)
       /\ Forall before_builds_event evs.
Proof.
  intros Hdry.
  destruct (file_exists w e (SETUP_PY w)) eqn:Hex.
  2: { right. rewrite main_stages. step. rewrite read_version_from_setup_run.
       cbn [env stdin trace app]. rewrite Hex. step. unfold sys_exit, raise.
       eexists _, _, _, _. split; [reflexivity|]. trace_ok. }
  destruct (strip <$> re_search version_re (read_text w e (SETUP_PY w)))
    as [[|c current]|] eqn:Hre.
  1, 3: right; rewrite main_stages; step; rewrite read_version_from_setup_run;
        cbn [env stdin trace app]; rewrite Hex, Hre; step; unfold sys_exit, raise;
        eexists _, _, _, _; (split; [reflexivity|]); trace_ok.
  assert (resolves w e (c :: current)) as Hres by done.
  rewrite (main_resolved w a e typed _ Hres).
  set (version := release_version a (c :: current)).
  set (tag := tag_of version).
  destruct (validation_stage_exact a version tag (State e typed [Print HdrRelease]) Hdry)
    as [(Hclean & Hfree & ->)|(x & e' & typed' & evs & -> & Hevs)];
    cbn [env stdin trace] in *.
  2: { right. eexists _, _, _, _. split; [reflexivity|].
       apply Forall_app. split; [trace_ok|done]. }
  match goal with |- context [tag_stage w a version tag ?s1] =>
    destruct (tag_stage_exact a version tag s1 Hdry)
      as [(reply & rest & Hin & Hyes & Hrc1 & Hrc2 & Hrc3 & ->)
         |(x & e' & typed' & evs & -> & Hevs)]
  end; cbn [env stdin trace] in *.
  2: { right. eexists _, _, _, _. rewrite <- app_assoc. split; [reflexivity|].
       apply Forall_app. split; [trace_ok|].
       apply Forall_app. split; [|done].
       unfold validation_events. rewrite Hdry. trace_ok. }
  left. exists (c :: current), reply, rest. cbv zeta. fold version tag.
  rewrite <- !app_assoc. by split_and!.
Qed.

End TagExact.

(** Outside of a dry run, a trace that holds anything but events from
    before the builds, that is a command other than a git command or a
    print that is not one of the validation, the confirmation and the
    tagging step, starts with exactly the header, the events of a validation
    that passed and those of the tagging step with its three commands run
    with success (the annotated tag, the push of the commits, the push of
    the tags), after a yes of the operator; whatever else the run leaves
    comes after them. *)
Theorem builds_follow_the_tag
    {E : Type} (w : world E) (a : args) (e : E) (typed : list str)
    (status : Z) (s' : state E) :
  dry_run a = false ->
  release_py w a (State e typed []) = (status, s') ->
  Exists (fun ev => ~ before_builds_event ev) (trace s') ->
  exists current reply rest after,
    let version := release_version a current in
    let tag := tag_of version in
    let e2 := after_queries w tag e in
    let e3 := effect w e2 (Spawn (git_tag_a_cmd version tag) None) in
    let e4 := effect w e3 (Spawn git_push_main_cmd None) in
    let before := [Print HdrRelease] ++ validation_events a tag in
    resolves w e current
    /\ clean w e /\ ~ tag_listed w tag (after_status w e)
    /\ typed = reply :: rest /\ says_yes reply = true
    /\ returncode (spawn w e2 (git_tag_a_cmd version tag) None) = 0%Z
    /\ returncode (spawn w e3 git_push_main_cmd None) = 0%Z
    /\ returncode (spawn w e4 git_push_tags_cmd None) = 0%Z
    /\ trace s' = before ++ tagging_events version tag ++ after
    /\ Forall before_builds_event (before ++ tagging_events version tag).
Proof.
  intros Hdry Hrun Hex.
  destruct (main_exact w a e typed Hdry)
    as [(current & reply & rest & Hmain)|(x & e' & typed' & evs & Hmain & Hevs)].
  - cbv zeta in Hmain.
    destruct Hmain as (Hres & Hclean & Hfree & Hin & Hyes & Hrc1 & Hrc2 & Hrc3 & Hmain).
    match type of Hmain with _ = build_stage w a ?v ?t ?s1 =>
      destruct (appends_build_stage w a v t s1) as [evs Hevs]
    end.
    rewrite <- Hmain in Hevs. cbn [trace] in Hevs.
    destruct (release_py_main w a (State e typed [])) as (tail & Hrel & _).
    rewrite Hrun in Hrel. injection Hrel as _ ->. cbn [trace].
    exists current, reply, rest, (evs ++ tail). cbv zeta.
    split_and!; try done.
    + rewrite Hevs. by rewrite <- !app_assoc.
    + apply Forall_app. split; [|unfold tagging_events; trace_ok].
      apply Forall_app. split; [trace_ok|].
      unfold validation_events. rewrite Hdry. trace_ok.
  - exfalso. unfold release_py in Hrun. rewrite Hmain in Hrun.
    assert (Forall before_builds_event (trace s')) as Hall.
    { destruct x; injection Hrun as <- <-; cbn [say snd env stdin trace];
        try done; apply Forall_app; split; try done; trace_ok. }
    apply Exists_exists in Hex as (ev & Hin & Hnot).
    rewrite Forall_forall in Hall. by apply Hnot, Hall.
Qed.

Lemma builds_follow_the_tag_witness :
  let w := box_world repo failing_builds_repository in
  let a := plain_args false in
  let run := release_py w a (start [lit "y"; []]) in
  exists after,
    trace run.2
    = [Print HdrRelease] ++ validation_events a (lit "v2.0.0")
      ++ tagging_events (lit "2.0.0") (lit "v2.0.0") ++ after.
Proof.
  intros w a run.
  destruct (builds_follow_the_tag w a tt [lit "y"; []] run.1 run.2)
    as (current & reply & rest & after & Hres & _ & _ & _ & _ & _ & _ & _ & Htr & _).
  - reflexivity.
  - exact (surjective_pairing run).
  - apply Exists_exists. exists (Spawn (publish_cmd w) (Some (lit "1" ++ [10]))). split.
    + apply list_elem_of_In. vm_compute. repeat first [left; reflexivity | right].
    + intros H. exact H.
  - destruct Hres as (_ & Hre & _). vm_compute in Hre. injection Hre as <-.
    exists after. exact Htr.
Defined.

(** When [git tag -a] fails, the release ends with the exit status of git,
    right there: nothing is pushed and nothing is built. *)
Theorem failed_tag_creation_aborts
    {E : Type} (w : world E) (a : args) (e : E) (reply : str) (rest : list str)
    (current : str) :
  let version := release_version a current in
  let tag := tag_of version in
  let e2 := after_queries w tag e in
  let result := spawn w e2 (git_tag_a_cmd version tag) None in
  dry_run a = false ->
  resolves w e current ->
  which w e (lit "git") = true ->
  which w (after_status w e) (lit "git") = true ->
  which w e2 (lit "git") = true ->
  clean w e ->
  ~ tag_listed w tag (after_status w e) ->
  says_yes reply = true ->
  returncode result <> 0%Z ->
  release_py w a (State e (reply :: rest) [])
  = (returncode result,
     State (effect w e2 (Spawn (git_tag_a_cmd version tag) None)) rest
       ([Print HdrRelease] ++ validation_events a tag
        ++ [Print HdrCreatingTag; Spawn (git_tag_a_cmd version tag) None;
            Print (ErrFailed (lit "Create tag " ++ tag))])).
Proof.
  intros version tag e2 result Hdry Hres Hgit Hgit' Hgit2 Hclean Htag Hyes Hrc.
  unfold release_py. rewrite (main_resolved w a e (reply :: rest) current Hres).
  fold version tag. rewrite validation_stage_passed by done.
  cbn [env stdin trace]. fold e2. unfold tag_stage. rewrite Hdry. step.
  fold (says_yes reply). rewrite Hyes. step.
  fold (git_tag_a_cmd version tag). rewrite run_command_run by done.
  cbn [env stdin trace andb]. fold result.
  apply Z.eqb_neq in Hrc. rewrite Hrc. cbn [negb]. by rewrite <- !app_assoc.
Qed.

Lemma failed_tag_creation_aborts_witness :
  (release_py (box_world repo failing_tag_repository) (plain_args false)
     (start [lit "yes"])).1 = 128%Z.
Proof.
  unfold start.
  rewrite (failed_tag_creation_aborts (box_world repo failing_tag_repository)
             (plain_args false) tt (lit "yes") [] (lit "2.0.0")).
  - reflexivity.
  - reflexivity.
  - split_and!; [reflexivity|reflexivity|discriminate].
  - reflexivity.
  - reflexivity.
  - reflexivity.
  - reflexivity.
  - unfold tag_listed. vm_compute. by intros H.
  - reflexivity.
  - vm_compute. discriminate.
Defined.

(** ** release.py: the release notes *)

(** The notes are never empty. A reply that is empty, [y] or [yes] (in any
    case, blanks around it aside) takes the default notes; any other reply
    makes the lines that follow, up to the end of the input, the notes, and
    the default notes again when those lines are empty. Without a reply
    [EOFError] is raised. *)
Theorem release_notes_never_empty {E : Type} (version : str) (s : state E) :
  match stdin s with
  | [] => get_release_notes version s = (Raise EOFError, s)
  | reply :: rest =>
      exists notes,
        notes <> []
        /\ if takes_default reply then
             notes = default_notes version
             /\ get_release_notes version s
                = (Ret notes, State (env s) rest (trace s))
           else
             notes = (if nonempty (join [10] rest) then join [10] rest
                      else default_notes version)
             /\ get_release_notes version s
                = (Ret notes, State (env s) [] (trace s))
  end.
Proof.
  destruct s as [e [|reply rest] tr]; cbn [stdin env trace]; [done|].
  unfold get_release_notes. step. fold (takes_default reply).
  destruct (takes_default reply).
  - exists (default_notes version). by split_and!.
  - step. unfold input_lines. cbn [env stdin trace].
    destruct (join [10] rest) as [|c text] eqn:Hj; cbn [nonempty].
    + exists (default_notes version). by split_and!.
    + exists (c :: text). by split_and!.
Qed.

(** ** release.py: the release step and the builds *)

(** The release step never raises and never ends the run. It runs one
    command at most, [gh release create] with the tag, the title, the notes
    and the assets, and only when gh is at hand outside of a dry run. It
    returns [True] in a dry run with gh at hand and when that command exits
    with 0, [False] otherwise. *)
Theorem github_release_is_soft
    {E : Type} (w : world E) (version tag notes : str) (dry : bool) (s : state E) :
  let cmd := gh_release_cmd version tag notes (release_assets w (env s)) in
  exists b e' evs,
    create_github_release w version tag notes dry s
    = (Ret b, State e' (stdin s) (trace s ++ evs))
    /\ spawned evs = (if which w (env s) (lit "gh") && negb dry
                      then [(cmd, None)] else [])
    /\ (b = true <->
        which w (env s) (lit "gh") = true
        /\ (dry = true \/ returncode (spawn w (env s) cmd None) = 0%Z)).
Proof.
  intros cmd. unfold create_github_release, command_exists, observe. step.
  destruct (which w (env s) (lit "gh")) eqn:Hgh; step.
  2: { eexists _, _, _. split_and!; [reflexivity|done|]. intuition congruence. }
  destruct dry; step.
  { eexists _, _, _. split_and!; [reflexivity|done|]. intuition congruence. }
  fold (dist_dir w). fold (deb_dir w). fold (release_assets w (env s)). fold cmd.
  set (warn := match release_assets w (env s) with
               | [] => say WarnNoAssets
               | _ :: _ => ret tt
               end).
  assert (Hwarn : forall s0 : state E, exists evs0,
             warn s0 = (Ret tt, State (env s0) (stdin s0) (trace s0 ++ evs0))
             /\ spawned evs0 = []).
  { intros [e0 i0 t0]. unfold warn. destruct (release_assets w (env s)); step.
    - by eexists [_].
    - exists []. by rewrite app_nil_r. }
  match goal with |- context [warn ?s0] => destruct (Hwarn s0) as (evs0 & -> & Hev0) end.
  cbn [env stdin trace]. step.
  rewrite run_command_run by done. cbn [andb env stdin trace].
  destruct (returncode _ =? 0)%Z eqn:Hrc; step; rewrite ?Hrc; step;
    rewrite <- !app_assoc;
    (eexists _, _, _; split_and!; [reflexivity| |]).
  all: rewrite ?Z.eqb_eq, ?Z.eqb_neq in Hrc.
  all: unfold spawned in *; rewrite ?omap_app, ?Hev0; try done.
  all: intuition congruence.
Qed.

(** A build that is reported as done has left its artifact: outside of a dry
    run, [build_pypi_packages] and [build_debian_package] return [True] only
    when the build script has exited with 0 and, after it, the directory of
    the artifacts is there and holds a wheel (a Debian package for the
    Debian build). *)
Theorem reported_build_left_artifact
    {E : Type} (w : world E) (deb : bool) (s s' : state E) :
  (if deb then build_debian_package w false s else build_pypi_packages w false s)
  = (Ret true, s') ->
  let cmd := if deb then deb_publish_cmd w else publish_cmd w in
  let typed := if deb then lit "3" ++ [10] else lit "1" ++ [10] in
  let dir := if deb then deb_dir w else dist_dir w in
  let ext := if deb then lit ".deb" else lit ".whl" in
  returncode (spawn w (env s) cmd (Some typed)) = 0%Z
  /\ env s' = effect w (env s) (Spawn cmd (Some typed))
  /\ file_exists w (env s') dir = true
  /\ glob w (env s') dir ext <> [].
Proof.
  destruct deb; cbn zeta.
  - unfold build_debian_package, observe, deb_publish_cmd, deb_dir, dist_dir.
    step. destruct (file_exists w (env s) _); step; [|done].
    destruct (which w (env s) (lit "python3")) eqn:Hpy.
    2: { by rewrite subprocess_run_missing. }
    rewrite subprocess_run_found by done. step.
    destruct (returncode _ =? 0)%Z eqn:Hrc; step; [|done].
    destruct (file_exists w _ _) eqn:Hex; step; [|done].
    destruct (glob w _ _ _) eqn:Hglob; step; [done|].
    intros [= <-]. apply Z.eqb_eq in Hrc.
    split_and!; [exact Hrc|reflexivity|exact Hex|].
    intros Hnone. by pose proof (eq_trans (eq_sym Hglob) Hnone).
  - unfold build_pypi_packages, command_exists, observe, publish_cmd, dist_dir.
    step. destruct (which w (env s) (lit "python3")) eqn:Hpy; step; [|done].
    destruct (file_exists w (env s) _); step; [|done].
    rewrite subprocess_run_found by done. step.
    destruct (returncode _ =? 0)%Z eqn:Hrc; step; [|done].
    destruct (file_exists w _ _) eqn:Hex; step; [|done].
    destruct (glob w _ _ _) eqn:Hglob; step; [done|].
    intros [= <-]. apply Z.eqb_eq in Hrc.
    split_and!; [exact Hrc|reflexivity|exact Hex|].
    intros Hnone. by pose proof (eq_trans (eq_sym Hglob) Hnone).
Qed.

Lemma reported_build_left_artifact_witness :
  let w := box_world repo built_repository in
  returncode (spawn w tt (publish_cmd w) (Some (lit "1" ++ [10]))) = 0%Z
  /\ tt = effect w tt (Spawn (publish_cmd w) (Some (lit "1" ++ [10])))
  /\ file_exists w tt (dist_dir w) = true
  /\ glob w tt (dist_dir w) (lit ".whl") <> [].
Proof.
  intros w.
  apply (reported_build_left_artifact w false (start [])
           (State tt [] [Print HdrBuildingPypi;
                         Spawn (publish_cmd w) (Some (lit "1" ++ [10]));
                         Print OkPypi])).
  vm_compute. reflexivity.
Defined.

(** On a machine without python3, a release of the Debian package (not a dry
    run, deb_publish.py in place) that gets to the builds has created and
    pushed the tag, and ends there with the exit status 1, as an unexpected
    error: the PyPI build, when asked for, reports that python3 is missing
    and runs nothing, the Debian build does not look for python3 and fails
    to launch it. There is no release step and no summary. *)
Theorem release_without_python3
    {E : Type} (w : world E) (a : args) (e : E) (typed : list str)
    (status : Z) (s' : state E) :
  dry_run a = false -> no_deb a = false ->
  (forall e', which w e' (lit "python3") = false) ->
  (forall e', file_exists w e' (pjoin (repo_root w) (lit "deb_publish.py")) = true) ->
  release_py w a (State e typed []) = (status, s') ->
  In (Print HdrBuildingDeb) (trace s') ->
  exists version before,
    status = 1%Z
    /\ trace s' = before ++ tagging_events version (tag_of version)
                  ++ (if no_pypi a then [] else [Print HdrBuildingPypi; Print ErrNoPython])
                  ++ [Print HdrBuildingDeb; Print ErrUnexpected]
    /\ Forall prelude_event before.
Proof.
  intros Hdry Hdeb Hpy Hscript Hrun Hreached.
  destruct (main_tagged w a e typed Hdry)
    as (e1 & pre & Hpre & [[version Hmain] | (x & typed' & Hmain)]).
  - exists version, pre. unfold release_py in Hrun. rewrite Hmain in Hrun.
    unfold build_stage, build_pypi_packages, build_debian_package,
      command_exists, observe in Hrun.
    rewrite Hdry, Hdeb in Hrun.
    destruct (no_pypi a); cbn [negb] in Hrun.
    + revert Hrun. step. rewrite Hscript. step.
      rewrite subprocess_run_missing by apply Hpy.
      intros [= <- <-]. cbn [trace say snd]. split_and!; [done| |done].
      by rewrite <- !app_assoc.
    + revert Hrun. step. rewrite Hpy. step. rewrite Hscript. step.
      rewrite subprocess_run_missing by apply Hpy.
      intros [= <- <-]. cbn [trace say snd]. split_and!; [done| |done].
      by rewrite <- !app_assoc.
  - exfalso. unfold release_py in Hrun. rewrite Hmain in Hrun.
    assert (Forall prelude_event (trace s')) as Hall.
    { destruct x; injection Hrun as <- <-; cbn [say snd env stdin trace];
        try done; apply Forall_app; split; try done; trace_ok. }
    rewrite Forall_forall in Hall. apply list_elem_of_In in Hreached.
    exact (Hall _ Hreached).
Qed.

Lemma release_without_python3_witness :
  let run := release_py (box_world repo no_python_repository)
               (plain_args false) (start [lit "y"]) in
  exists version before,
    run.1 = 1%Z
    /\ trace run.2 = before ++ tagging_events version (tag_of version)
                     ++ [Print HdrBuildingPypi; Print ErrNoPython]
                     ++ [Print HdrBuildingDeb; Print ErrUnexpected]
    /\ Forall prelude_event before.
Proof.
  intros run.
  apply (release_without_python3 (box_world repo no_python_repository)
           (plain_args false) tt [lit "y"] run.1 run.2).
  - reflexivity.
  - reflexivity.
  - intros []. vm_compute. reflexivity.
  - intros []. vm_compute. reflexivity.
  - exact (surjective_pairing run).
  - vm_compute. repeat first [left; reflexivity | right].
Defined.

(** ** deb_publish.py: the parser, the skeleton and the build *)

(** The leading identifiers of tokens are package names. *)
Lemma leading_idents_package_names (tokens : list str) :
  Forall package_name (omap (re_match name_re) tokens).
Proof.
  induction tokens as [|token l IH]; [done|].
  cbn [omap list_omap]. rewrite re_match_name. unfold leading_ident.
  destruct (takewhile identch token) as [|c name] eqn:Hname; [exact IH|].
  constructor; [|exact IH]. split; [done|].
  rewrite <- Hname. apply forallb_takewhile.
Qed.

(** Whatever the output of [dpkg-checkbuilddeps], every name that the parser
    returns is a package name: not empty, and made of letters, digits, [+],
    [.] and [-] only, so without blanks, commas, parentheses or version
    constraints. *)
Theorem unmet_build_deps_are_package_names (output : str) :
  Forall package_name (_parse_unmet_build_deps output).
Proof.
  unfold _parse_unmet_build_deps.
  destruct (re_search unmet_re output) as [deps|]; [|constructor].
  apply leading_idents_package_names.
Qed.

(** The generation of the skeleton prints nothing and reads nothing of what
    is typed. All it does is make the directories [debian] and
    [debian/source] of [work_dir], write the five files of the skeleton
    there, make [debian/rules] executable, and ask [dh] for its version.
    It returns the version of setup.py followed by [-1], with [0.0.0] for
    the version when setup.py is missing, holds no version or holds a blank
    one. It fails in one case only: when [int()] refuses the version number
    of [dh] for its length, it raises [ValueError] after the two directories
    and the question to [dh], with no file written. *)
Theorem skeleton_stays_in_debian_dir
    {E : Type} (w : world E) (alnum_hi : char -> bool)
    (decimal_hi : char -> option N) (dedent : str -> str)
    (work_dir : str) (s : state E) :
  let debian_dir := pjoin work_dir (lit "debian") in
  let e2 := effect w (effect w (env s) (Mkdir debian_dir))
              (Mkdir (pjoin debian_dir (lit "source"))) in
  let run := generate_debian_skeleton w alnum_hi decimal_hi dedent work_dir s in
  exists evs,
    trace run.2 = trace s ++ evs
    /\ stdin run.2 = stdin s
    /\ Forall (skeleton_event work_dir) evs
    /\ (run.1 = Ret (project_version_or_default w alnum_hi e2 ++ lit "-1")
        \/ (run.1 = Raise ValueError
            /\ evs = [Mkdir debian_dir; Mkdir (pjoin debian_dir (lit "source"));
                      Spawn dh_version_cmd None]))
    /\ (digit_runs_fit (int_max_str_digits w) (isdecimal decimal_hi)
          (stdout (spawn w e2 dh_version_cmd None)) ->
        run.1 = Ret (project_version_or_default w alnum_hi e2 ++ lit "-1")).
Proof.
  intros debian_dir e2 run. subst run.
  destruct (generate_debian_skeleton_cases w alnum_hi decimal_hi dedent work_dir s)
    as (r & e' & evs & -> & _ & Hevs & _ & Hcases).
  cbv zeta in Hcases. fold debian_dir e2 in Hcases.
  exists evs. cbn [fst snd trace stdin]. split_and!; [done|done|exact Hevs| |].
  - destruct Hcases as [[-> _]|(-> & -> & _)]; [by left|by right].
  - intros Hfit. by destruct Hcases as [[-> _]|(_ & _ & Hno)].
Qed.

Lemma skeleton_stays_in_debian_dir_witness :
  let w := box_world repo (box_with_dh (lit "debhelper version 13.11.4" ++ [10])) in
  (generate_debian_skeleton w ascii_only_alnum ascii_only_decimal (fun x => x)
     (lit "/tmp/w") (start [])).1
  = Ret (lit "0.0.0-1").
Proof.
  intros w.
  destruct (skeleton_stays_in_debian_dir w ascii_only_alnum ascii_only_decimal
              (fun x => x) (lit "/tmp/w") (start [])) as (evs & _ & _ & _ & _ & H).
  apply H. intros pre digits post Heq _. apply (f_equal length) in Heq.
  rewrite !length_app in Heq.
  change (length (stdout _)) with 26%nat in Heq.
  unfold too_long. apply andb_false_iff. right. apply Nat.ltb_ge.
  apply Nat.le_trans with 26%nat; [lia|].
  apply Nat.leb_le. vm_compute. reflexivity.
Defined.

(** The order of the artifacts. *)
Lemma str_leb_refl a : str_leb a a = true.
Proof.
  induction a as [|x a IH]; simpl; [done|].
  by rewrite N.eqb_refl, IH, orb_true_r.
Qed.

Lemma str_leb_total a b : str_leb a b = false -> str_leb b a = true.
Proof.
  revert b. induction a as [|x a IH]; intros [|y b]; simpl; try done.
  intros H. apply orb_false_iff in H as [Hlt H].
  apply N.ltb_ge in Hlt.
  destruct (N.eqb_spec x y) as [->|Hne].
  - simpl in H. rewrite N.eqb_refl, (IH _ H). apply orb_true_r.
  - assert ((y <? x) = true) as -> by (apply N.ltb_lt; lia). done.
Qed.

Lemma str_leb_trans a b c :
  str_leb a b = true -> str_leb b c = true -> str_leb a c = true.
Proof.
  revert b c. induction a as [|x a IH]; intros [|y b] [|z c]; simpl; try done.
  intros H1 H2.
  apply orb_true_iff in H1 as [H1|H1]; apply orb_true_iff in H2 as [H2|H2];
    rewrite ?andb_true_iff, ?N.ltb_lt, ?N.eqb_eq in *.
  - assert ((x <? z) = true) as -> by (apply N.ltb_lt; lia). done.
  - destruct H2 as [-> _]. assert ((x <? z) = true) as -> by (by apply N.ltb_lt). done.
  - destruct H1 as [-> _]. assert ((y <? z) = true) as -> by (by apply N.ltb_lt). done.
  - destruct H1 as [-> H1], H2 as [-> H2].
    rewrite N.eqb_refl, (IH _ _ H1 H2). apply orb_true_r.
Qed.

Lemma key_leb_refl a : key_leb a a = true.
Proof.
  unfold key_leb. rewrite str_leb_refl. by destruct (contains _ a).
Qed.

Lemma key_leb_total a b : key_leb a b = false -> key_leb b a = true.
Proof.
  unfold key_leb. pose proof (str_leb_total a b).
  destruct (contains _ a), (contains _ b), (str_leb a b); simpl; auto.
Qed.

Lemma key_leb_trans a b c :
  key_leb a b = true -> key_leb b c = true -> key_leb a c = true.
Proof.
  unfold key_leb. pose proof (str_leb_trans a b c).
  destruct (contains _ a), (contains _ b), (contains _ c),
    (str_leb a b), (str_leb b c); simpl; auto.
Qed.

(** The first artifact of the sorted list is the least of the list. *)
Lemma sort_debs_head (l : list str) :
  match sort_debs l with
  | [] => l = []
  | h :: _ => Forall (fun y => key_leb h y = true) l
  end.
Proof.
  induction l as [|x l IH]; [done|].
  change (sort_debs (x :: l)) with (insert_by x (sort_debs l)).
  destruct (sort_debs l) as [|h t]; simpl.
  - subst l. constructor; [apply key_leb_refl|done].
  - destruct (key_leb x h) eqn:Hxh.
    + constructor; [apply key_leb_refl|].
      eapply Forall_impl; [exact IH|]. intros y Hy. by eapply key_leb_trans.
    + constructor; [by apply key_leb_total|done].
Qed.

Section BuildDebRun.
Context {E : Type} (w : world E).
Variables (alnum_hi : char -> bool) (decimal_hi : char -> option N)
          (dedent : str -> str).

(** [build_deb], step by step. *)
Lemma build_deb_run (s : state E) :
  let td := mkdtemp w (effect w (env s) (Mkdir (DIST_DIR w))) (lit "kport-deb-") in
  let work_dir := pjoin td (lit "kport") in
  let run := build_deb w alnum_hi decimal_hi dedent s in
  exists e1 skel,
    Forall (skeleton_event work_dir) skel
    /\ stdin run.2 = stdin s
    /\ let pre := trace s ++ [Mkdir (DIST_DIR w); Mkdir td; CopyTree (repo_root w) work_dir]
                  ++ skel in
       let r := spawn w e1 dpkg_buildpackage_cmd None in
       let new := List.filter
                    (fun name => bool_decide (name ∉ (list_to_set (glob w e1 td (lit ".deb"))
                                                       : gset (list N))))
                    (glob w (effect w e1 (Spawn dpkg_buildpackage_cmd None)) td
                       (lit ".deb")) in
       (run.1 = Raise ValueError
        /\ trace run.2 = pre ++ [RmTree td]
        /\ skel = [Mkdir (pjoin work_dir (lit "debian"));
                   Mkdir (pjoin (pjoin work_dir (lit "debian")) (lit "source"));
                   Spawn dh_version_cmd None])
       \/
       if which w e1 (lit "dpkg-buildpackage") then
         if (returncode r =? 0)%Z then
           run.1 = Ret (head (List.map (pjoin (DIST_DIR w)) (sort_debs new)))
           /\ trace run.2
              = pre ++ [Spawn dpkg_buildpackage_cmd None;
                        Print (OkDone (lit "Build Debian package"))]
                ++ match new with
                   | [] => []
                   | _ => Mkdir (DIST_DIR w) :: List.map (copy_event w td) new
                   end
                ++ [RmTree td]
         else
           run.1 = Raise (SystemExit (returncode r))
           /\ trace run.2
              = pre ++ [Spawn dpkg_buildpackage_cmd None;
                        Print (ErrFailed (lit "Build Debian package"))]
                ++ [RmTree td]
       else
         run.1 = Raise FileNotFoundError
         /\ trace run.2 = pre ++ [RmTree td].
Proof.
  intros td work_dir run. subst run.
  unfold build_deb, observe. step. fold td. unfold finally. step. fold work_dir.
  match goal with |- context [generate_debian_skeleton w _ _ _ work_dir ?s1] =>
    destruct (generate_debian_skeleton_cases w alnum_hi decimal_hi dedent work_dir s1)
      as (res & e1 & skel & -> & _ & Hskel & _ & Hcases)
  end.
  exists e1, skel. split; [exact Hskel|].
  destruct Hcases as [[-> _]|(-> & Hevs & _)].
  2: { cbn [fst snd emit env stdin trace]. split; [done|]. left.
       rewrite <- !app_assoc. by split_and!. }
  step. rewrite run_run. fold dpkg_buildpackage_cmd. cbn [env stdin trace].
  change (hd [] dpkg_buildpackage_cmd) with (lit "dpkg-buildpackage").
  destruct (which w e1 (lit "dpkg-buildpackage")).
  2: { cbn [fst snd emit env stdin trace]. rewrite <- !app_assoc.
       split; [done|]. right. by split_and!. }
  cbv zeta. destruct (returncode _ =? 0)%Z.
  2: { cbn [fst snd emit env stdin trace]. rewrite <- !app_assoc.
       split; [done|]. right. by split_and!. }
  step.
  match goal with |- context [_copy_new_debs w td ?before ?s2] =>
    destruct (copy_new_debs_run w td before s2) as (e2 & ->)
  end.
  cbn [env stdin trace]. step.
  set (new := List.filter _ _).
  assert (Hret :
    (match List.map (pjoin (DIST_DIR w)) new with
     | [] => ret None
     | _ :: _ => ret (head (List.map (pjoin (DIST_DIR w))
                              (sort_debs (List.map (dest_name w)
                                            (List.map (pjoin (DIST_DIR w)) new)))))
     end : M E (option str))
    = ret (head (List.map (pjoin (DIST_DIR w)) (sort_debs new)))).
  { rewrite map_dest_name. destruct new as [|n new']; [done|]. done. }
  rewrite Hret. step. cbn [fst snd emit env stdin trace].
  rewrite <- !app_assoc. split; [done|]. right. by split_and!.
Qed.

End BuildDebRun.

(** [build_deb] removes its temporary directory whatever happens in it:
    when the version number of [dh] is too long for [int()], which raises
    [ValueError] out of the generation of the skeleton; when the build tool
    cannot be launched; when the build fails, which ends the script with the
    exit status of the tool; and when the build is done. Something is copied
    into dist/deb exactly when a path is returned; so a build that fails
    copies nothing. *)
Theorem build_deb_cleans_up
    {E : Type} (w : world E) (alnum_hi : char -> bool)
    (decimal_hi : char -> option N) (dedent : str -> str) (s : state E) :
  let td := mkdtemp w (effect w (env s) (Mkdir (DIST_DIR w))) (lit "kport-deb-") in
  let run := build_deb w alnum_hi decimal_hi dedent s in
  exists evs,
    trace run.2 = trace s ++ [Mkdir (DIST_DIR w); Mkdir td] ++ evs ++ [RmTree td]
    /\ stdin run.2 = stdin s
    /\ (Exists is_copy evs <-> exists dest, run.1 = Ret (Some dest))
    /\ (forall x, run.1 = Raise x ->
          x = FileNotFoundError
          \/ (exists rc, rc <> 0%Z /\ x = SystemExit rc)
          \/ (x = ValueError
              /\ ~ Exists (fun ev => ev = Spawn dpkg_buildpackage_cmd None) evs)).
Proof.
  intros td run.
  destruct (build_deb_run w alnum_hi decimal_hi dedent s)
    as (e1 & skel & Hskel & Hstdin & Hrun).
  fold td run in Hstdin, Hrun. cbv zeta in Hrun. clearbody run td.
  assert (Hnocopy : ~ Exists is_copy skel).
  { intros Hex. apply Exists_exists in Hex as (ev & Hin & Hev).
    rewrite Forall_forall in Hskel. specialize (Hskel ev Hin).
    by destruct ev as [? [?|]| | | | | | |]. }
  destruct Hrun as [(Hr & Htr & Hsk)|Hrun].
  { exists (CopyTree (repo_root w) (pjoin td (lit "kport")) :: skel). split_and!.
    - rewrite Htr. repeat (rewrite <- ?app_assoc; cbn [app]). reflexivity.
    - done.
    - rewrite Hr. split; [|by intros [? ?]].
      intros Hex. apply Exists_cons in Hex as [?|Hex]; [done|]. by apply Hnocopy in Hex.
    - rewrite Hr. intros x [= <-]. right. right. split; [done|].
      rewrite Hsk. intros Hex.
      by repeat (apply Exists_cons in Hex as [?|Hex]; [done|]);
         apply Exists_nil in Hex. }
  destruct (which w e1 (lit "dpkg-buildpackage")).
  2: { destruct Hrun as [Hr Htr].
       exists (CopyTree (repo_root w) (pjoin td (lit "kport")) :: skel). split_and!.
       - rewrite Htr. repeat (rewrite <- ?app_assoc; cbn [app]). reflexivity.
       - done.
       - rewrite Hr. split; [|by intros [? ?]].
         intros Hex. apply Exists_cons in Hex as [?|Hex]; [done|]. by apply Hnocopy in Hex.
       - rewrite Hr. intros x [= <-]. by left. }
  destruct (returncode _ =? 0)%Z eqn:Hrc.
  2: { destruct Hrun as [Hr Htr].
       exists (CopyTree (repo_root w) (pjoin td (lit "kport")) :: skel
               ++ [Spawn dpkg_buildpackage_cmd None;
                   Print (ErrFailed (lit "Build Debian package"))]).
       split_and!.
       - rewrite Htr. repeat (rewrite <- ?app_assoc; cbn [app]). reflexivity.
       - done.
       - rewrite Hr. split; [|by intros [? ?]].
         intros Hex. apply Exists_cons in Hex as [?|Hex]; [done|].
         apply Exists_app in Hex as [Hex|Hex]; [by apply Hnocopy in Hex|].
         by repeat (apply Exists_cons in Hex as [?|Hex]; [done|]);
            apply Exists_nil in Hex.
       - rewrite Hr. intros x [= <-]. right. left. eexists. split; [|done].
         by apply Z.eqb_neq in Hrc. }
  destruct Hrun as [Hr Htr].
  match type of Hr with context [sort_debs ?l] => set (new := l) in *; clearbody new end.
  exists (CopyTree (repo_root w) (pjoin td (lit "kport")) :: skel
          ++ [Spawn dpkg_buildpackage_cmd None;
              Print (OkDone (lit "Build Debian package"))]
          ++ match new with
             | [] => []
             | _ => Mkdir (DIST_DIR w) :: List.map (copy_event w td) new
             end).
  split_and!.
  - rewrite Htr. repeat (rewrite <- ?app_assoc; cbn [app]). reflexivity.
  - done.
  - rewrite Hr.
    pose proof (sort_debs_head new) as Hhead. split.
    + intros Hex. destruct (sort_debs new) as [|h t]; [|by eexists].
      subst new. exfalso.
      apply Exists_cons in Hex as [?|Hex]; [done|].
      apply Exists_app in Hex as [Hex|Hex]; [by apply Hnocopy in Hex|].
      by repeat (apply Exists_cons in Hex as [?|Hex]; [done|]);
         apply Exists_nil in Hex.
    + intros [dest Hdest]. destruct new as [|n new'].
      { done. }
      apply Exists_cons_tl, Exists_app. right.
      do 3 apply Exists_cons_tl. by apply Exists_cons_hd.
  - rewrite Hr. by intros x.
Qed.

(** The path that [build_deb] returns is the copy in dist/deb of the least
    of the new artifacts in the order of the keys: an artifact with [dbgsym]
    in its name is returned only when every artifact copied has it, and among
    artifacts that agree on that the name that comes first is returned. *)
Theorem build_deb_prefers_main_package
    {E : Type} (w : world E) (alnum_hi : char -> bool)
    (decimal_hi : char -> option N) (dedent : str -> str) (s : state E)
    (dest : str) :
  let run := build_deb w alnum_hi decimal_hi dedent s in
  run.1 = Ret (Some dest) ->
  exists name,
    dest = pjoin (DIST_DIR w) name
    /\ (exists src, In (Copy2 src dest) (trace run.2))
    /\ forall src other,
         In (Copy2 src (pjoin (DIST_DIR w) other)) (drop (length (trace s)) (trace run.2)) ->
         (has_dbgsym name = true -> has_dbgsym other = true)
         /\ (has_dbgsym name = has_dbgsym other -> str_leb name other = true).
Proof.
  intros run Hdest.
  destruct (build_deb_run w alnum_hi decimal_hi dedent s)
    as (e1 & skel & Hskel & Hstdin & Hrun).
  fold run in Hstdin, Hrun. cbv zeta in Hrun.
  set (td := mkdtemp w (effect w (env s) (Mkdir (DIST_DIR w))) (lit "kport-deb-")) in *.
  clearbody run td.
  destruct Hrun as [(Hr & _)|Hrun]; [by rewrite Hdest in Hr|].
  destruct (which w e1 (lit "dpkg-buildpackage")); [|by rewrite Hdest in Hrun; destruct Hrun].
  destruct (returncode _ =? 0)%Z; [|by rewrite Hdest in Hrun; destruct Hrun].
  destruct Hrun as [Hr Htr]. rewrite Hdest in Hr. injection Hr as Hhd.
  match type of Hhd with context [sort_debs ?l] => set (new := l) in *; clearbody new end.
  pose proof (sort_debs_head new) as Hleast.
  destruct (sort_debs new) as [|name t] eqn:Hsort; [done|].
  injection Hhd as ->. exists name. split; [done|].
  assert (In name new) as Hname.
  { apply In_sort_debs. rewrite Hsort. by left. }
  split.
  - exists (pjoin td name).
    rewrite Htr. apply in_or_app. right. apply in_or_app. right.
    apply in_or_app. left. destruct new as [|n new']; [done|].
    right. change (Copy2 _ _) with (copy_event w td name).
    by apply in_map.
  - intros src other Hin. rewrite Htr, <- !app_assoc, drop_app_length in Hin.
    assert (In other new) as Hother.
    { repeat (apply in_app_or in Hin as [Hin|Hin]).
      - by repeat destruct Hin as [?|Hin].
      - rewrite Forall_forall in Hskel. apply list_elem_of_In, Hskel in Hin. done.
      - by repeat destruct Hin as [?|Hin].
      - destruct new as [|n new']; [done|].
        destruct Hin as [?|Hin]; [done|].
        apply in_map_iff in Hin as (other' & Heq & Hin).
        unfold copy_event in Heq. injection Heq as _ Heq.
        unfold pjoin in Heq. apply app_inv_head in Heq. by injection Heq as <-.
      - by repeat destruct Hin as [?|Hin]. }
    rewrite Forall_forall in Hleast. apply list_elem_of_In, Hleast in Hother.
    unfold key_leb in Hother. fold (has_dbgsym name) (has_dbgsym other) in Hother.
    destruct (has_dbgsym name), (has_dbgsym other), (str_leb name other); by split.
Qed.

Lemma build_deb_prefers_main_package_witness :
  let run := build_deb dbgsym_world ascii_only_alnum ascii_only_decimal (fun x => x)
               (State false [] []) in
  exists name,
    pjoin (DIST_DIR dbgsym_world) (lit "kport_2.0-1_all.deb")
    = pjoin (DIST_DIR dbgsym_world) name
    /\ (exists src,
          In (Copy2 src (pjoin (DIST_DIR dbgsym_world) (lit "kport_2.0-1_all.deb")))
             (trace run.2))
    /\ forall src other,
         In (Copy2 src (pjoin (DIST_DIR dbgsym_world) other))
            (drop (length (trace (State false [] []))) (trace run.2)) ->
         (has_dbgsym name = true -> has_dbgsym other = true)
         /\ (has_dbgsym name = has_dbgsym other -> str_leb name other = true).
Proof.
  intros run.
  apply (build_deb_prefers_main_package dbgsym_world ascii_only_alnum
           ascii_only_decimal (fun x => x) (State false [] [])
           (pjoin (DIST_DIR dbgsym_world) (lit "kport_2.0-1_all.deb"))).
  vm_compute. reflexivity.
Defined.

(** ** deb_publish.py: the program *)

(** Computations that run nothing with sudo. *)
Section Emits.
Context {E : Type} (w : world E).
Variable P : event -> Prop.

Lemma emits_weaken {A} (Q Q' : A -> Prop) (m : M E A) :
  (forall x, Q x -> Q' x) -> emits P Q m -> emits P Q' m.
Proof.
  intros HQ Hm s. destruct (Hm s) as (evs & Htr & Hall & Hres).
  exists evs. split_and!; [done|done|]. intros x Hx. by apply HQ, Hres.
Qed.

Lemma emits_ret {A} (Q : A -> Prop) (x : A) : Q x -> emits P Q (ret (E:=E) x).
Proof.
  intros Hx s. exists []. rewrite app_nil_r. split_and!; [done|done|].
  by intros ? [= <-].
Qed.

Lemma emits_raise {A} (Q : A -> Prop) x : emits P Q (raise (E:=E) (A:=A) x).
Proof. intros s. exists []. rewrite app_nil_r. by split_and!. Qed.

Lemma emits_say (Q : unit -> Prop) m :
  P (Print m) -> Q tt -> emits P Q (say (E:=E) m).
Proof.
  intros Hm Hq s. exists [Print m]. split_and!; [done|by constructor|].
  by intros [] _.
Qed.

Lemma emits_emit (Q : unit -> Prop) ev : P ev -> Q tt -> emits P Q (emit w ev).
Proof.
  intros Hev Hq s. exists [ev]. split_and!; [done|by constructor|].
  by intros [] _.
Qed.

Lemma emits_observe {A} (Q : A -> Prop) (f : E -> A) :
  (forall e, Q (f e)) -> emits P Q (observe f).
Proof.
  intros Hf s. exists []. rewrite app_nil_r. split_and!; [done|done|].
  intros x [= <-]. apply Hf.
Qed.

Lemma emits_input : emits P anything (input (E:=E)).
Proof. intros [e [|l ls] tr]; exists []; rewrite app_nil_r; by split_and!. Qed.

Lemma emits_subprocess_run cmd inp :
  P (Spawn cmd inp) -> emits P anything (subprocess_run w cmd inp).
Proof.
  intros Hev s. unfold subprocess_run. destruct (which w (env s) (hd [] cmd)).
  - exists [Spawn cmd inp]. split_and!; [done|by constructor|done].
  - exists []. rewrite app_nil_r. by split_and!.
Qed.

Lemma emits_bind {A B} (Q : A -> Prop) (R : B -> Prop) (m : M E A) (f : A -> M E B) :
  emits P Q m -> (forall x, Q x -> emits P R (f x)) -> emits P R (bind m f).
Proof.
  intros Hm Hf s. unfold bind. destruct (Hm s) as (evs1 & H1 & Hall1 & Hres1).
  destruct (m s) as [[x|x] s1]; cbn [fst snd] in *.
  - destruct (Hf x (Hres1 x eq_refl) s1) as (evs2 & H2 & Hall2 & Hres2).
    exists (evs1 ++ evs2). split_and!.
    + by rewrite H2, H1, app_assoc.
    + by apply Forall_app.
    + exact Hres2.
  - exists evs1. by split_and!.
Qed.

Lemma emits_if {A} (Q : A -> Prop) (c : bool) (m1 m2 : M E A) :
  emits P Q m1 -> emits P Q m2 -> emits P Q (if c then m1 else m2).
Proof. by destruct c. Qed.

Lemma emits_finally {A} (Q : A -> Prop) (m : M E A) (cleanup : M E unit) :
  emits P Q m -> emits P anything cleanup -> emits P Q (finally m cleanup).
Proof.
  intros Hm Hc s. unfold finally. destruct (Hm s) as (evs1 & H1 & Hall1 & Hres1).
  destruct (m s) as [r s1]; cbn [fst snd] in *.
  destruct (Hc s1) as (evs2 & H2 & Hall2 & _).
  exists (evs1 ++ evs2). split_and!.
  - by rewrite H2, H1, app_assoc.
  - by apply Forall_app.
  - exact Hres1.
Qed.

Lemma emits_run_ cmd d :
  P (Spawn cmd None) -> P (Print (ErrFailed d)) -> P (Print (OkDone d)) ->
  emits P anything (run_ w cmd d).
Proof.
  intros Hcmd Herr Hok. unfold run_, sys_exit.
  eapply emits_bind; [by apply emits_subprocess_run|]. intros proc _.
  apply emits_if.
  - eapply emits_bind; [by apply (emits_say anything)|]. intros _ _. apply emits_raise.
  - eapply emits_bind; [by apply (emits_say anything)|]. intros _ _. by apply emits_ret.
Qed.

End Emits.

Section DebMain.
Context {E : Type} (w : world E).
Variables (alnum_hi : char -> bool) (decimal_hi : char -> option N)
          (dedent : str -> str) (platform_system : E -> str).

Lemma check_layout_run (s : state E) :
  DebPublish.check_layout w s
  = if laid_out w (env s) then (Ret tt, s) else (Raise (SystemExit 1), s).
Proof.
  unfold DebPublish.check_layout, laid_out, DebPublish.required, observe, sys_exit, raise.
  step. cbn [List.filter forallb].
  by destruct (file_exists w (env s) (pjoin (repo_root w) (lit "setup.py"))),
       (file_exists w (env s) (pjoin (repo_root w) (lit "kport.py"))).
Qed.

Lemma is_debian_like_run (s : state E) :
  exists r,
    DebPublish.is_debian_like w platform_system s = (r, s)
    /\ (r = Raise FileNotFoundError <-> no_release_file w platform_system (env s) = true)
    /\ (forall x, r = Raise x -> x = FileNotFoundError).
Proof.
  unfold DebPublish.is_debian_like, DebPublish.read_text_or_raise, no_release_file,
    observe, raise.
  step. destruct (str_eqb (platform_system (env s)) (lit "Linux")); step.
  2: { eexists. split_and!; [reflexivity| |]; done. }
  destruct (file_exists w (env s) (lit "/etc/debian_version")); step.
  { eexists. split_and!; [reflexivity| |]; done. }
  destruct (file_exists w (env s) (lit "/etc/os-release")); step.
  - eexists. split_and!; [reflexivity| |]; done.
  - eexists. split_and!; [reflexivity| |]; [done|]. by intros x [= <-].
Qed.

Lemma check_build_tools_run (s : state E) :
  exists missing,
    DebPublish.check_build_tools w s = (Ret missing, s)
    /\ nonempty_list missing = negb (tools_at_hand w (env s)).
Proof.
  unfold DebPublish.check_build_tools, tools_at_hand, DebPublish.tools, observe.
  eexists. split; [reflexivity|]. cbn [List.filter forallb].
  by destruct (which w (env s) (lit "dpkg-buildpackage")),
       (which w (env s) (lit "dpkg")), (which w (env s) (lit "fakeroot")),
       (which w (env s) (lit "dpkg-checkbuilddeps")).
Qed.

Lemma preflight_run (s : state E) :
  let td := mkdtemp w (env s) (lit "kport-deb-check-") in
  let work_dir := pjoin td (lit "kport") in
  let copied := [Mkdir td; CopyTree (repo_root w) work_dir] in
  exists e' skel,
    let e1 := foldl (effect w) (env s) (copied ++ skel) in
    Forall (skeleton_event work_dir) skel
    /\ (DebPublish.preflight w alnum_hi decimal_hi dedent s
        = (Ret (unmet_in w e1),
           State e' (stdin s) (trace s ++ preflight_events w td skel e1))
        \/ (DebPublish.preflight w alnum_hi decimal_hi dedent s
            = (Raise ValueError,
               State e' (stdin s) (trace s ++ copied ++ skel ++ [RmTree td]))
            /\ skel = [Mkdir (pjoin work_dir (lit "debian"));
                       Mkdir (pjoin (pjoin work_dir (lit "debian")) (lit "source"));
                       Spawn dh_version_cmd None]
            /\ ~ digit_runs_fit (int_max_str_digits w) (isdecimal decimal_hi)
                   (stdout (spawn w
                              (foldl (effect w) (env s)
                                 (copied ++
                                  [Mkdir (pjoin work_dir (lit "debian"));
                                   Mkdir (pjoin (pjoin work_dir (lit "debian"))
                                            (lit "source"))]))
                              dh_version_cmd None)))).
Proof.
  intros td work_dir copied. subst copied.
  unfold DebPublish.preflight, observe. step. fold td. unfold finally. step.
  fold work_dir.
  match goal with |- context [generate_debian_skeleton w _ _ _ ?d ?s1] =>
    destruct (generate_debian_skeleton_cases w alnum_hi decimal_hi dedent d s1)
      as (res & e1 & skel & -> & He1 & Hskel & _ & Hcases)
  end.
  cbn [env] in He1, Hcases. cbv zeta in Hcases.
  destruct Hcases as [[-> _]|(-> & Hevs & Hno)].
  2: { eexists _, skel. cbv zeta. split; [exact Hskel|]. right.
       cbn [fst snd emit env stdin trace app]. split_and!.
       - rewrite <- !app_assoc. reflexivity.
       - exact Hevs.
       - exact Hno. }
  step. rewrite check_debian_build_deps_run. cbn [env stdin trace]. cbv zeta.
  unfold preflight_events, unmet_in.
  destruct (which w e1 (lit "dpkg-checkbuilddeps")) eqn:Hw;
    (eexists _, skel; cbv zeta; cbn [app foldl]; rewrite <- He1, Hw;
     split; [exact Hskel|]; left; cbn [emit snd env stdin trace];
     rewrite <- !app_assoc; reflexivity).
Qed.

(** [main], choice by choice. *)
Lemma deb_main_run (s : state E) :
  let run := DebPublish.main w alnum_hi decimal_hi dedent platform_system s in
  if negb (laid_out w (env s)) then run = (Raise (SystemExit 1), s) else
  if no_release_file w platform_system (env s) then run = (Raise FileNotFoundError, s) else
  match stdin s with
  | [] => run = (Raise EOFError, s)
  | reply :: rest =>
      let s1 := State (env s) rest (trace s) in
      let choice := strip reply in
      if str_eqb choice (lit "0") then run = (Ret tt, s1) else
      if str_eqb choice (lit "1") then
        if tools_at_hand w (env s)
        then run = (DebPublish.preflight w alnum_hi decimal_hi dedent ;;; ret tt) s1
        else run = (Raise (SystemExit 1), s1)
      else
      if str_eqb choice (lit "2") then run = DebPublish.install_build_deps w s1 else
      if str_in choice [lit "3"; lit "4"] then
        if tools_at_hand w (env s)
        then run = (unmet <- DebPublish.preflight w alnum_hi decimal_hi dedent ;;
                    (if nonempty_list unmet then
                       reply' <- input ;;
                       if str_in (py_lower (strip reply')) [lit "y"; lit "yes"]
                       then DebPublish.install_missing_packages w unmet
                       else sys_exit 1
                     else ret tt) ;;;
                    build_deb w alnum_hi decimal_hi dedent ;;;
                    ret tt) s1
        else run = (Raise (SystemExit 1), s1)
      else run = (Raise (SystemExit 1), s1)
  end.
Proof.
  intros run. subst run. unfold DebPublish.main.
  rewrite bind_run, check_layout_run.
  destruct (laid_out w (env s)); cbn [negb]; [|done].
  rewrite bind_run.
  destruct (is_debian_like_run s) as (r & -> & Hraise & Hother).
  destruct (no_release_file w platform_system (env s)).
  { destruct Hraise as [_ Hr]. by rewrite Hr. }
  destruct r as [b|x].
  2: { specialize (Hother x eq_refl). subst x. destruct Hraise as [Hr _].
       by specialize (Hr eq_refl). }
  destruct s as [e [|reply rest] tr]; cbn [stdin env trace]; [done|].
  rewrite bind_run, input_run. cbn [env stdin trace]. cbv zeta.
  destruct (str_eqb (strip reply) (lit "0")); [done|].
  destruct (str_eqb (strip reply) (lit "1")).
  { rewrite bind_run.
    destruct (check_build_tools_run (State e rest tr)) as (missing & -> & Hmissing).
    cbn [env] in Hmissing. rewrite Hmissing.
    by destruct (tools_at_hand w e). }
  destruct (str_eqb (strip reply) (lit "2")); [done|].
  destruct (str_in (strip reply) [lit "3"; lit "4"]); [|done].
  rewrite bind_run.
  destruct (check_build_tools_run (State e rest tr)) as (missing & -> & Hmissing).
  cbn [env] in Hmissing. rewrite Hmissing.
  by destruct (tools_at_hand w e).
Qed.

End DebMain.

(** What runs nothing with sudo, step by step. *)
Ltac emits_tac :=
  repeat first
    [ eapply emits_bind; [|intros ? ?]
    | apply emits_if
    | apply emits_raise
    | apply (emits_ret _ anything); exact I
    | apply (emits_observe _ anything); intros ?; exact I
    | apply emits_input
    | match goal with
      | |- emits _ _ (match ?x with _ => _ end) => destruct x
      | |- emits _ _ (let _ := _ in _) => cbv zeta
      end ].

Lemma skeleton_event_no_sudo (work_dir : str) (ev : event) :
  skeleton_event work_dir ev -> ~ runs_sudo ev.
Proof.
  destruct ev as [argv [inp|]| | | | | | |]; cbn [skeleton_event runs_sudo];
    try (by intros _ []); try done.
  intros -> H. by vm_compute in H.
Qed.

Section NoSudo.
Context {E : Type} (w : world E).
Variables (alnum_hi : char -> bool) (decimal_hi : char -> option N)
          (dedent : str -> str).
Variable P : event -> Prop.
Hypothesis HP : forall ev, ~ runs_sudo ev -> P ev.

Ltac quiet :=
  apply HP; first [by intros [] | let H := fresh in intros H; by vm_compute in H].

Lemma emits_skeleton work_dir :
  emits P anything (generate_debian_skeleton w alnum_hi decimal_hi dedent work_dir).
Proof.
  intros s.
  destruct (generate_debian_skeleton_cases w alnum_hi decimal_hi dedent work_dir s)
    as (r & e' & evs & -> & _ & Hevs & _).
  exists evs. split_and!; [done| |done].
  eapply Forall_impl; [exact Hevs|]. intros ev Hev.
  by eapply HP, skeleton_event_no_sudo.
Qed.

Lemma emits_check_debian_build_deps :
  emits P (Forall package_name) (check_debian_build_deps w).
Proof.
  intros s. rewrite check_debian_build_deps_run. cbv zeta.
  destruct (which w (env s) (lit "dpkg-checkbuilddeps")).
  - exists [Spawn dpkg_checkbuilddeps_cmd None]. split_and!; [done| |].
    + constructor; [|done]. quiet.
    + intros x [= <-]. destruct (returncode _ =? 0)%Z; [done|].
      unfold _parse_unmet_build_deps. destruct (re_search _ _); [|done].
      apply leading_idents_package_names.
  - exists []. rewrite app_nil_r. split_and!; [done|done|]. by intros x [= <-].
Qed.

Lemma emits_preflight :
  emits P (Forall package_name) (DebPublish.preflight w alnum_hi decimal_hi dedent).
Proof.
  unfold DebPublish.preflight.
  eapply emits_bind; [apply (emits_observe _ anything); by intros ?|]. intros td _.
  eapply emits_bind; [apply (emits_emit _ _ anything); [quiet|done]|]. intros _ _.
  apply emits_finally.
  - cbv zeta.
    eapply emits_bind; [apply (emits_emit _ _ anything); [quiet|done]|]. intros _ _.
    eapply emits_bind; [apply emits_skeleton|]. intros _ _.
    apply emits_check_debian_build_deps.
  - apply emits_emit; [quiet|done].
Qed.

Lemma emits_build_deb :
  emits P anything (build_deb w alnum_hi decimal_hi dedent).
Proof.
  intros s.
  destruct (build_deb_run w alnum_hi decimal_hi dedent s)
    as (e1 & skel & Hskel & _ & Hrun).
  cbv zeta in Hrun.
  set (td := mkdtemp w (effect w (env s) (Mkdir (DIST_DIR w))) (lit "kport-deb-")) in *.
  clearbody td.
  assert (Forall P skel) as Hskel'.
  { eapply Forall_impl; [exact Hskel|]. intros ev Hev.
    by eapply HP, skeleton_event_no_sudo. }
  assert (forall new : list str,
            Forall P (match new with
                      | [] => []
                      | _ => Mkdir (DIST_DIR w) :: List.map (copy_event w td) new
                      end)) as Hcopies.
  { intros new. destruct new as [|n new']; [done|].
    constructor; [quiet|]. apply Forall_forall. intros ev Hev.
    apply list_elem_of_In, in_map_iff in Hev as (name & <- & _). quiet. }
  assert (P (Spawn dpkg_buildpackage_cmd None)) as Hspawn.
  { quiet. }
  destruct Hrun as [(_ & -> & _)|Hrun].
  { eexists. rewrite <- !app_assoc. split_and!; [reflexivity| |done].
    repeat (apply Forall_app; split); try done; repeat constructor; quiet. }
  destruct (which w e1 (lit "dpkg-buildpackage")).
  2: { destruct Hrun as [_ ->]. eexists. rewrite <- !app_assoc.
       split_and!; [reflexivity| |done].
       repeat (apply Forall_app; split); try done; repeat constructor; quiet. }
  destruct (returncode _ =? 0)%Z; destruct Hrun as [_ ->]; eexists;
    rewrite <- !app_assoc; (split_and!; [reflexivity| |done]);
    repeat (apply Forall_app; split); try done; try apply Hcopies;
    repeat constructor; try done; quiet.
Qed.

End NoSudo.

Section SudoSafety.
Context {E : Type} (w : world E).
Variables (alnum_hi : char -> bool) (decimal_hi : char -> option N)
          (dedent : str -> str) (platform_system : E -> str).

Lemma apt_or_not_sudo ev : ~ runs_sudo ev -> runs_sudo ev -> apt_get_event ev.
Proof. by intros H1 H2. Qed.

Lemma build_tool_packages_names : Forall package_name DebPublish.build_tool_packages.
Proof. repeat constructor; by vm_compute. Qed.

Lemma emits_install (pkgs : list str) (d : str) :
  pkgs <> [] -> Forall package_name pkgs ->
  emits (fun ev => runs_sudo ev -> apt_get_event ev) anything
    (run_ w DebPublish.apt_update_cmd (lit "apt-get update") ;;;
     run_ w (DebPublish.apt_install_cmd pkgs) d ;;;
     ret tt).
Proof.
  intros Hne Hnames.
  eapply emits_bind.
  { apply emits_run_; [by left|by intros []|by intros []]. }
  intros _ _. eapply emits_bind.
  { apply emits_run_; [|by intros []|by intros []]. intros _. right. by exists pkgs. }
  intros _ _. by apply emits_ret.
Qed.

Lemma emits_main :
  emits (fun ev => runs_sudo ev -> apt_get_event ev) anything
    (DebPublish.main w alnum_hi decimal_hi dedent platform_system).
Proof.
  unfold DebPublish.main, DebPublish.check_layout, DebPublish.is_debian_like,
    DebPublish.read_text_or_raise, DebPublish.check_build_tools, sys_exit.
  eapply emits_bind; [emits_tac|]. intros _ _.
  eapply emits_bind; [emits_tac|]. intros _ _.
  eapply emits_bind; [apply emits_input|]. intros reply _. cbv zeta.
  apply emits_if; [by apply emits_ret|].
  apply emits_if.
  { eapply emits_bind; [emits_tac|]. intros missing _.
    apply emits_if; [apply emits_raise|].
    eapply emits_bind; [apply emits_preflight, apt_or_not_sudo|]. intros _ _.
    by apply emits_ret. }
  apply emits_if.
  { apply emits_install; [done|apply build_tool_packages_names]. }
  apply emits_if; [|apply emits_raise].
  eapply emits_bind; [emits_tac|]. intros missing _.
  apply emits_if; [apply emits_raise|].
  eapply emits_bind; [apply emits_preflight, apt_or_not_sudo|]. intros unmet Hunmet.
  eapply emits_bind.
  { apply (emits_if _ anything); [|by apply emits_ret].
    eapply emits_bind; [apply emits_input|]. intros reply' _. cbv zeta.
    apply emits_if; [|apply emits_raise].
    unfold DebPublish.install_missing_packages.
    destruct unmet as [|pkg unmet']; [by apply emits_ret|].
    cbn [nonempty_list negb]. by apply emits_install. }
  intros _ _.
  eapply emits_bind; [apply emits_build_deb, apt_or_not_sudo|]. intros _ _.
  by apply emits_ret.
Qed.

End SudoSafety.

(** Whatever is chosen and whatever the machine answers, the Debian helper
    only adds events to the trace, and all it ever runs with sudo is
    [apt-get update] and [apt-get install -y] followed by package names: the
    six build tools of choice 2, or the names found by the check of the build
    dependencies, which are made of letters, digits, [+], [.] and [-]. *)
Theorem sudo_runs_apt_get_only
    {E : Type} (w : world E) (alnum_hi : char -> bool)
    (decimal_hi : char -> option N) (dedent : str -> str)
    (platform_system : E -> str) (s : state E) :
  exists evs,
    trace (DebPublish.deb_publish_py w alnum_hi decimal_hi dedent platform_system s).2
    = trace s ++ evs
    /\ Forall (fun ev => runs_sudo ev -> apt_get_event ev) evs.
Proof.
  destruct (emits_main w alnum_hi decimal_hi dedent platform_system s)
    as (evs & Htr & Hall & _).
  exists evs. split; [|exact Hall].
  unfold DebPublish.deb_publish_py.
  by destruct (DebPublish.main _ _ _ _ _ s) as [[u|[c| | | |]] s'].
Qed.

(** What stops the Debian helper before it does anything. Without setup.py
    or kport.py it ends with status 1, and so it does on a Linux that has
    neither /etc/debian_version nor /etc/os-release (the probe of the system
    fails to read the second) and when no choice can be read; in these cases
    nothing was read of what is typed. With the choice read: choice 0 ends
    with status 0; a choice that is none of 0 to 4 ends with status 1, and so
    do the choices 1, 3 and 4 when one of the four build tools is missing. In
    all these cases nothing is run, created or removed. *)
Theorem deb_publish_stops_early
    {E : Type} (w : world E) (alnum_hi : char -> bool)
    (decimal_hi : char -> option N) (dedent : str -> str)
    (platform_system : E -> str) (s : state E) :
  let run := DebPublish.deb_publish_py w alnum_hi decimal_hi dedent platform_system s in
  (laid_out w (env s) = false -> run = (1%Z, s))
  /\ (laid_out w (env s) = true ->
      no_release_file w platform_system (env s) = true -> run = (1%Z, s))
  /\ (laid_out w (env s) = true ->
      no_release_file w platform_system (env s) = false ->
      match stdin s with
      | [] => run = (1%Z, s)
      | reply :: rest =>
          let choice := strip reply in
          let left := State (env s) rest (trace s) in
          (choice = lit "0" -> run = (0%Z, left))
          /\ (~ In choice [lit "0"; lit "1"; lit "2"; lit "3"; lit "4"] ->
              run = (1%Z, left))
          /\ (In choice [lit "1"; lit "3"; lit "4"] ->
              tools_at_hand w (env s) = false -> run = (1%Z, left))
      end).
Proof.
  intros run. subst run. unfold DebPublish.deb_publish_py.
  pose proof (deb_main_run w alnum_hi decimal_hi dedent platform_system s) as Hmain.
  cbv zeta in Hmain.
  split_and!.
  - intros Hlay. rewrite Hlay in Hmain. cbn [negb] in Hmain. by rewrite Hmain.
  - intros Hlay Hrel. rewrite Hlay, Hrel in Hmain. cbn [negb] in Hmain. by rewrite Hmain.
  - intros Hlay Hrel. rewrite Hlay, Hrel in Hmain. cbn [negb] in Hmain.
    destruct (stdin s) as [|reply rest]; [by rewrite Hmain|].
    cbv zeta. split_and!.
    + intros Hc. rewrite Hc in Hmain. cbn in Hmain. by rewrite Hmain.
    + intros Hnot.
      assert (forall x, In x [lit "0"; lit "1"; lit "2"; lit "3"; lit "4"] ->
                        str_eqb (strip reply) x = false) as Hne.
      { intros x Hx. unfold str_eqb. apply bool_decide_eq_false. by intros <-. }
      unfold str_in in Hmain. cbn [existsb] in Hmain.
      rewrite !Hne in Hmain by (cbn; tauto). cbn [orb] in Hmain. by rewrite Hmain.
    + intros Hin Htools. rewrite Htools in Hmain.
      destruct Hin as [Hc|[Hc|[Hc|[]]]]; rewrite <- Hc in Hmain; cbn in Hmain;
        by rewrite Hmain.
Qed.

Lemma deb_publish_stops_early_witness :
  debian_box_run [lit " 7 "] = (1%Z, State tt [] []).
Proof.
  destruct (deb_publish_stops_early (box_world repo debian_box) ascii_only_alnum
              ascii_only_decimal (fun x => x) on_linux (start [lit " 7 "]))
    as (_ & _ & H).
  destruct (H eq_refl eq_refl) as (_ & Hbad & _).
  apply Hbad. vm_compute. intros H'. decompose [or] H'; discriminate || done.
Defined.

Section Declined.
Context {E : Type} (w : world E).
Variables (alnum_hi : char -> bool) (decimal_hi : char -> option N)
          (dedent : str -> str).

(** The build of choice 3 or 4, from the preflight on, when no yes can be
    read: nothing is run with sudo. *)
Lemma build_choice_quiet (s1 : state E) :
  match stdin s1 with [] => True | reply' :: _ => says_yes reply' = false end ->
  exists evs,
    trace ((unmet <- DebPublish.preflight w alnum_hi decimal_hi dedent ;;
            (if nonempty_list unmet then
               reply' <- input ;;
               if str_in (py_lower (strip reply')) [lit "y"; lit "yes"]
               then DebPublish.install_missing_packages w unmet
               else sys_exit 1
             else ret tt) ;;;
            build_deb w alnum_hi decimal_hi dedent ;;;
            ret tt) s1).2
    = trace s1 ++ evs
    /\ Forall (fun ev => ~ runs_sudo ev) evs.
Proof.
  intros Hno. rewrite bind_run.
  destruct (emits_preflight w alnum_hi decimal_hi dedent (fun ev => ~ runs_sudo ev)
              (fun ev H => H) s1) as (pre & Hpre & Hall & _).
  destruct (preflight_run w alnum_hi decimal_hi dedent s1)
    as (e' & skel & _ & [Hrun|(Hrun & _)]);
    cbv zeta in Hrun; rewrite Hrun in *; cbn [snd trace] in Hpre;
    apply app_inv_head in Hpre; rewrite Hpre; clear Hpre Hrun.
  2: { by exists pre. }
  rewrite bind_run. destruct (nonempty_list _).
  - rewrite bind_run. destruct (stdin s1) as [|reply' rest'].
    + rewrite input_eof. by exists pre.
    + rewrite input_run. cbn [env stdin trace]. fold (says_yes reply'). rewrite Hno.
      by exists pre.
  - rewrite ret_run.
    destruct (emits_build_deb w alnum_hi decimal_hi dedent (fun ev => ~ runs_sudo ev)
                (fun ev H => H) (State e' (stdin s1) (trace s1 ++ pre)))
      as (evs & Hevs & Hall2 & _).
    rewrite bind_run.
    destruct (build_deb w alnum_hi decimal_hi dedent _) as [[d|x] s3];
      cbn [snd trace] in Hevs; rewrite ?ret_run; cbn [snd];
      exists (pre ++ evs); rewrite Hevs, app_assoc; (split; [done|]);
      by apply Forall_app.
Qed.

End Declined.

(** The Debian helper runs something with sudo only when the operator asks
    for it: with choice 2, or with choice 3 or 4 after a reply y or yes
    (blanks and case apart) to the question that follows the check of the
    build dependencies. *)
Theorem sudo_only_when_asked
    {E : Type} (w : world E) (alnum_hi : char -> bool)
    (decimal_hi : char -> option N) (dedent : str -> str)
    (platform_system : E -> str) (s : state E) :
  let run := DebPublish.deb_publish_py w alnum_hi decimal_hi dedent platform_system s in
  Exists runs_sudo (drop (length (trace s)) (trace run.2)) ->
  exists reply rest,
    stdin s = reply :: rest
    /\ (strip reply = lit "2"
        \/ (asks_build reply = true
            /\ exists reply' rest', rest = reply' :: rest' /\ says_yes reply' = true)).
Proof.
  intros run. subst run. unfold DebPublish.deb_publish_py.
  assert (forall r : res unit * state E,
            trace (match r with
                   | (Ret _, s') => (0%Z, s')
                   | (Raise (SystemExit c), s') => (c, s')
                   | (Raise _, s') => (1%Z, s')
                   end).2 = trace r.2) as Hwrap.
  { by intros [[u|[c| | | |]] s']. }
  rewrite Hwrap. clear Hwrap.
  pose proof (deb_main_run w alnum_hi decimal_hi dedent platform_system s) as Hmain.
  cbv zeta in Hmain.
  assert (forall evs, Forall (fun ev => ~ runs_sudo ev) evs ->
                      ~ Exists runs_sudo (drop (length (trace s)) (trace s ++ evs)))
    as Hquiet.
  { intros evs Hall Hex. rewrite drop_app_length in Hex.
    apply Exists_exists in Hex as (ev & Hin & Hsudo).
    rewrite Forall_forall in Hall. by apply (Hall ev). }
  assert (~ Exists runs_sudo (drop (length (trace s)) (trace s))) as Hnone.
  { rewrite drop_all. by intros ?%Exists_nil. }
  destruct (negb (laid_out w (env s))); [by rewrite Hmain|].
  destruct (no_release_file w platform_system (env s)); [by rewrite Hmain|].
  destruct s as [e [|reply rest] tr]; cbn [stdin env trace] in *; [by rewrite Hmain|].
  intros Hex. exists reply, rest. split; [done|].
  unfold asks_build.
  destruct (str_eqb (strip reply) (lit "0")); [by rewrite Hmain in Hex|].
  destruct (str_eqb (strip reply) (lit "1")).
  { exfalso. destruct (tools_at_hand w e); rewrite Hmain in Hex; [|done].
    revert Hex.
    assert (emits (fun ev => ~ runs_sudo ev) anything
              (DebPublish.preflight w alnum_hi decimal_hi dedent ;;; ret tt)) as Hm.
    { eapply emits_bind; [by apply emits_preflight|]. intros _ _. by apply emits_ret. }
    destruct (Hm (State e rest tr)) as (evs & -> & Hall & _).
    by apply Hquiet. }
  destruct (str_eqb (strip reply) (lit "2")) eqn:Htwo.
  { left. unfold str_eqb in Htwo. by apply bool_decide_eq_true in Htwo. }
  destruct (str_in (strip reply) [lit "3"; lit "4"]); [|by rewrite Hmain in Hex].
  right. split; [done|].
  destruct (tools_at_hand w e); rewrite Hmain in Hex; [|done].
  clear Hmain.
  destruct rest as [|reply' rest'].
  - exfalso. revert Hex.
    destruct (build_choice_quiet w alnum_hi decimal_hi dedent (State e [] tr) I)
      as (evs & -> & Hall).
    by apply Hquiet.
  - destruct (says_yes reply') eqn:Hyes; [by exists reply', rest'|].
    exfalso. revert Hex.
    destruct (build_choice_quiet w alnum_hi decimal_hi dedent
                (State e (reply' :: rest') tr) Hyes) as (evs & -> & Hall).
    by apply Hquiet.
Qed.

Lemma sudo_only_when_asked_witness :
  exists reply rest,
    [lit "3"; lit "Yes"] = reply :: rest
    /\ (strip reply = lit "2"
        \/ (asks_build reply = true
            /\ exists reply' rest', rest = reply' :: rest' /\ says_yes reply' = true)).
Proof.
  apply (sudo_only_when_asked (box_world repo debian_box) ascii_only_alnum
           ascii_only_decimal (fun x => x) on_linux (start [lit "3"; lit "Yes"])).
  apply Exists_exists. exists (Spawn DebPublish.apt_update_cmd None). split.
  - apply list_elem_of_In. vm_compute. repeat first [left; reflexivity | right].
  - reflexivity.
Defined.

(** The build of choice 3 or 4 (project files and build tools in place)
    starts with the preflight: a temporary copy of the tree, the skeleton in
    it, the check of the build dependencies, and the removal of the copy.
    When the check finds unmet build dependencies and no y or yes is read in
    reply, be it that the operator declines or that nothing more is typed, as
    when release.py drives the helper, the helper ends with status 1 and has
    done nothing but the preflight: nothing is installed and nothing is
    built. When the check finds none, the build follows the preflight.
    The one other course is that of a version number of [dh] too long for
    [int()]: the skeleton stops at the question to [dh], the copy is
    removed, and the helper ends with status 1, nothing checked and nothing
    built. *)
Theorem unmet_build_deps_stop_the_build
    {E : Type} (w : world E) (alnum_hi : char -> bool)
    (decimal_hi : char -> option N) (dedent : str -> str)
    (platform_system : E -> str) (s : state E) (reply : str) (rest : list str) :
  stdin s = reply :: rest ->
  asks_build reply = true ->
  laid_out w (env s) = true ->
  no_release_file w platform_system (env s) = false ->
  tools_at_hand w (env s) = true ->
  match rest with [] => True | reply' :: _ => says_yes reply' = false end ->
  let run := DebPublish.deb_publish_py w alnum_hi decimal_hi dedent platform_system s in
  let td := mkdtemp w (env s) (lit "kport-deb-check-") in
  let work_dir := pjoin td (lit "kport") in
  let copied := [Mkdir td; CopyTree (repo_root w) work_dir] in
  let dirs := [Mkdir (pjoin work_dir (lit "debian"));
               Mkdir (pjoin (pjoin work_dir (lit "debian")) (lit "source"))] in
  exists skel,
    let e1 := foldl (effect w) (env s) (copied ++ skel) in
    let checked := trace s ++ preflight_events w td skel e1 in
    Forall (skeleton_event work_dir) skel
    /\ (((unmet_in w e1 <> [] -> run.1 = 1%Z /\ trace run.2 = checked)
         /\ (unmet_in w e1 = [] ->
             exists evs, trace run.2 = checked ++ Mkdir (DIST_DIR w) :: evs))
        \/ (~ digit_runs_fit (int_max_str_digits w) (isdecimal decimal_hi)
                (stdout (spawn w (foldl (effect w) (env s) (copied ++ dirs))
                           dh_version_cmd None))
            /\ skel = dirs ++ [Spawn dh_version_cmd None]
            /\ run.1 = 1%Z
            /\ trace run.2 = trace s ++ copied ++ skel ++ [RmTree td])).
Proof.
  intros Hin Hask Hlay Hrel Htools Hno run td work_dir copied dirs. subst run.
  unfold DebPublish.deb_publish_py.
  pose proof (deb_main_run w alnum_hi decimal_hi dedent platform_system s) as Hmain.
  cbv zeta in Hmain. rewrite Hlay, Hrel, Hin, Htools in Hmain. cbn [negb] in Hmain.
  unfold asks_build in Hask. rewrite Hask in Hmain.
  assert (str_eqb (strip reply) (lit "0") = false
          /\ str_eqb (strip reply) (lit "1") = false
          /\ str_eqb (strip reply) (lit "2") = false) as (H0 & H1 & H2).
  { unfold str_in in Hask. cbn [existsb] in Hask.
    rewrite orb_false_r in Hask. apply orb_true_iff in Hask.
    unfold str_eqb in *. rewrite !bool_decide_eq_true in Hask.
    destruct Hask as [->| ->]; by vm_compute. }
  rewrite H0, H1, H2 in Hmain. rewrite Hmain. clear Hmain H0 H1 H2.
  rewrite bind_run.
  destruct (preflight_run w alnum_hi decimal_hi dedent (State (env s) rest (trace s)))
    as (e' & skel & Hskel & Hrun).
  cbv zeta in Hrun. cbn [env stdin trace] in Hrun, Hskel.
  fold td work_dir copied dirs in Hrun, Hskel.
  exists skel. cbv zeta. split; [exact Hskel|].
  destruct Hrun as [Hrun|(Hrun & Hsk & Hfit)]; rewrite Hrun; clear Hrun.
  2: { right. by split_and!. }
  left.
  set (e1 := foldl (effect w) (env s) _).
  set (checked := trace s ++ preflight_events w td skel e1).
  rewrite bind_run.
  destruct (unmet_in w e1) as [|pkg unmet]; cbn [nonempty_list].
  - split; [done|]. intros _. rewrite ret_run.
    destruct (build_deb_run w alnum_hi decimal_hi dedent (State e' rest checked))
      as (e2 & skel2 & _ & _ & Hbuild).
    cbv zeta in Hbuild. cbn [trace env] in Hbuild.
    rewrite bind_run.
    destruct (build_deb w alnum_hi decimal_hi dedent (State e' rest checked))
      as [r s3]; cbn [fst snd] in Hbuild.
    assert (exists evs, trace s3 = checked ++ Mkdir (DIST_DIR w) :: evs) as [evs Hevs].
    { destruct Hbuild as [(_ & -> & _)|Hbuild];
        [rewrite <- !app_assoc; cbn [app]; by eexists|].
      destruct (which w e2 _); [destruct (returncode _ =? 0)%Z|];
        destruct Hbuild as [_ ->]; rewrite <- !app_assoc; cbn [app]; by eexists. }
    exists evs. by destruct r as [d|[c| | | |]].
  - split; [|done]. intros _. rewrite bind_run.
    destruct rest as [|reply' rest'].
    + by rewrite input_eof.
    + rewrite input_run. cbn [env stdin trace]. fold (says_yes reply'). by rewrite Hno.
Qed.

Lemma unmet_build_deps_stop_the_build_witness :
  let w := box_world repo debian_box in
  let td := mkdtemp w tt (lit "kport-deb-check-") in
  exists skel,
    let e1 := foldl (effect w) tt
                ([Mkdir td; CopyTree (repo_root w) (pjoin td (lit "kport"))] ++ skel) in
    let checked := [] ++ preflight_events w td skel e1 in
    Forall (skeleton_event (pjoin td (lit "kport"))) skel
    /\ (unmet_in w e1 <> [] ->
        (debian_box_run [lit "3"]).1 = 1%Z /\ trace (debian_box_run [lit "3"]).2 = checked)
    /\ (unmet_in w e1 = [] ->
        exists evs, trace (debian_box_run [lit "3"]).2 = checked ++ Mkdir (DIST_DIR w) :: evs).
Proof.
  intros w td.
  destruct (unmet_build_deps_stop_the_build w ascii_only_alnum ascii_only_decimal
              (fun x => x) on_linux (start [lit "3"]) (lit "3") []
              eq_refl eq_refl eq_refl eq_refl eq_refl I)
    as (skel & Hskel & [Hfit|(Hno & _)]).
  - exists skel. split; [exact Hskel|exact Hfit].
  - exfalso. apply Hno. intros pre digits post Heq _.
    apply (f_equal length) in Heq. rewrite !length_app in Heq.
    unfold too_long. apply andb_false_iff. right. apply Nat.ltb_ge.
    apply Nat.le_trans with (length (stdout (spawn w tt dh_version_cmd None)));
      [|apply Nat.leb_le; vm_compute; reflexivity].
    change (foldl _ _ _) with tt in Heq. lia.
Defined.

(** ** publish.py: the program *)

Section Steps.
Context {E : Type} (w : world E).
Variable P : event -> Prop.


Lemma steps_ret {A} (x : A) : steps 0 P (ret (E:=E) x).
Proof. intros s. exists [], []. rewrite app_nil_r. by split_and!. Qed.

Lemma steps_raise {A} x : steps 0 P (raise (E:=E) (A:=A) x).
Proof. intros s. exists [], []. rewrite app_nil_r. by split_and!. Qed.

Lemma steps_say m : P (Print m) -> steps 0 P (say (E:=E) m).
Proof. intros Hm s. exists [Print m], []. split_and!; [done|by constructor|done..]. Qed.

Lemma steps_observe {A} (f : E -> A) : steps 0 P (observe f).
Proof. intros s. exists [], []. rewrite app_nil_r. by split_and!. Qed.

Lemma steps_input : steps 1 P (input (E:=E)).
Proof.
  intros [e [|l ls] tr].
  - exists [], []. rewrite app_nil_r. split_and!; [done..|simpl; lia].
  - exists [], [l]. rewrite app_nil_r. split_and!; [done..|simpl; lia].
Qed.

Lemma steps_subprocess_run cmd inp :
  P (Spawn cmd inp) -> steps 0 P (subprocess_run w cmd inp).
Proof.
  intros Hev s. unfold subprocess_run. destruct (which w (env s) (hd [] cmd)).
  - exists [Spawn cmd inp], []. split_and!; [done|by constructor|done..].
  - exists [], []. rewrite app_nil_r. by split_and!.
Qed.

Lemma steps_bind {A B} (n1 n2 : nat) (m : M E A) (f : A -> M E B) :
  steps n1 P m -> (forall x, steps n2 P (f x)) -> steps (n1 + n2) P (bind m f).
Proof.
  intros Hm Hf s. unfold bind.
  destruct (Hm s) as (evs1 & c1 & H1 & Hall1 & Hin1 & Hlen1).
  destruct (m s) as [[x|x] s1]; cbn [fst snd] in *.
  - destruct (Hf x s1) as (evs2 & c2 & H2 & Hall2 & Hin2 & Hlen2).
    exists (evs1 ++ evs2), (c1 ++ c2). split_and!.
    + by rewrite H2, H1, app_assoc.
    + by apply Forall_app.
    + by rewrite Hin1, Hin2, app_assoc.
    + rewrite length_app. lia.
  - exists evs1, c1. split_and!; [done..|lia].
Qed.

Lemma steps_if {A} (n : nat) (c : bool) (m1 m2 : M E A) :
  steps n P m1 -> steps n P m2 -> steps n P (if c then m1 else m2).
Proof. by destruct c. Qed.

Lemma steps_for_each {A B} (f : A -> M E B) (l : list A) :
  (forall x, steps 0 P (f x)) -> steps 0 P (for_each f l).
Proof.
  intros Hf. induction l as [|x l IH]; cbn [for_each]; [apply steps_ret|].
  apply (steps_bind 0 0); [apply Hf|]. intros y.
  apply (steps_bind 0 0); [apply IH|]. intros ys. apply steps_ret.
Qed.

End Steps.


Section PublishRun.
Context {E : Type} (w : world E).
Variables (sys_platform : E -> str) (shell : str -> list str).
Hypothesis shell_inj : forall a b, shell a = shell b -> a = b.








Section Stages.
Variables (c1 c2 c3 is5 : bool) (k : M E unit).
Hypothesis Hk : forall s, (k s).2 = s.






End Stages.

End PublishRun.



Section Failure.
Context {E : Type} (w : world E).
Variables (sys_platform : E -> str) (shell : str -> list str).

Lemma stops_quiet {A} (n : nat) (m : M E A) :
  steps n (fun ev => forall d, ev <> Print (ErrFailed d)) m -> stops_at_failure m.
Proof.
  intros Hm s. destruct (Hm s) as (evs & _ & Htr & Hall & _).
  exists evs. split; [done|]. intros d Hin. exfalso.
  rewrite Forall_forall in Hall.
  by apply (Hall _ (proj2 (list_elem_of_In _ _) Hin) d).
Qed.

Lemma stops_bind {A B} (m : M E A) (f : A -> M E B) :
  stops_at_failure m -> (forall x, stops_at_failure (f x)) ->
  stops_at_failure (bind m f).
Proof.
  intros Hm Hf s. unfold bind. destruct (Hm s) as (evs1 & Htr1 & Hfail1).
  destruct (m s) as [[x|x] s1]; cbn [fst snd] in *.
  - destruct (Hf x s1) as (evs2 & Htr2 & Hfail2).
    exists (evs1 ++ evs2). split; [by rewrite Htr2, Htr1, app_assoc|].
    intros d Hin. apply in_app_or in Hin as [Hin|Hin].
    + by destruct (Hfail1 d Hin).
    + destruct (Hfail2 d Hin) as (Hres & before & ->).
      split; [done|]. exists (evs1 ++ before). by rewrite app_assoc.
  - exists evs1. split; [done|]. intros d Hin.
    destruct (Hfail1 d Hin) as [Hres Hlast]. injection Hres as ->. by split.
Qed.

Lemma stops_if {A} (c : bool) (m1 m2 : M E A) :
  stops_at_failure m1 -> stops_at_failure m2 ->
  stops_at_failure (if c then m1 else m2).
Proof. by destruct c. Qed.

Lemma stops_run_command (cmd d : str) :
  stops_at_failure (Publish.run_command w shell cmd d).
Proof.
  intros s. unfold Publish.run_command, Publish.shell_run, subprocess_run, sys_exit, raise.
  step. destruct (which w (env s) (hd [] (shell cmd))); step.
  2: { exists []. rewrite app_nil_r. split; [by destruct s|]. by intros ? []. }
  destruct (returncode _ =? 0)%Z; step; rewrite <- !app_assoc; cbn [app]; eexists;
    (split; [reflexivity|]); intros d' Hin.
  - exfalso. by repeat destruct Hin as [?|Hin].
  - destruct Hin as [?|[[= <-]|[]]]; [done|]. split; [done|]. by eexists [_].
Qed.

Ltac quiet_steps :=
  repeat first
    [ apply steps_ret | apply steps_raise | apply steps_observe
    | apply steps_if
    | apply steps_say; by intros ?
    | apply steps_subprocess_run; by intros ?
    | apply (steps_bind _ 0 0); [|intros ?]
    | apply steps_for_each; intros ? ].

Lemma stops_main : stops_at_failure (Publish.main w sys_platform shell).
Proof.
  unfold Publish.main.
  apply stops_bind; [apply (stops_quiet 1), steps_input|]. intros reply. cbv zeta.
  apply stops_if; [apply (stops_quiet 0), steps_raise|].
  apply stops_bind.
  { apply stops_if; [|apply (stops_quiet 0), steps_ret].
    apply stops_bind.
    { unfold Publish.check_requirements, Publish.shell_run.
      apply stops_bind; [apply (stops_quiet 0); quiet_steps|]. intros shown. cbv zeta.
      apply stops_if; [|apply (stops_quiet 0), steps_ret].
      apply stops_bind; [apply (stops_quiet 1), steps_input|]. intros install.
      apply stops_if; [|apply (stops_quiet 0), steps_raise].
      apply stops_bind; [apply stops_run_command|]. intros _.
      apply (stops_quiet 0), steps_ret. }
    intros _. apply stops_bind.
    { unfold Publish.clean_build, Publish.shell_run. apply (stops_quiet 0). quiet_steps. }
    intros _. unfold Publish.build_package.
    apply stops_bind; [apply stops_run_command|]. intros _.
    apply (stops_quiet 0), steps_ret. }
  intros _. apply stops_bind.
  { apply stops_if; [|apply (stops_quiet 0), steps_ret].
    unfold Publish.upload_to_test_pypi.
    apply stops_bind; [apply (stops_quiet 1), steps_input|]. intros proceed.
    apply stops_if; [|apply (stops_quiet 0), steps_ret].
    apply stops_bind; [apply stops_run_command|]. intros _.
    apply (stops_quiet 0), steps_ret. }
  intros _. apply stops_bind.
  { apply stops_if; [|apply (stops_quiet 0), steps_ret].
    apply stops_bind.
    { apply stops_if; [|apply (stops_quiet 0), steps_ret].
      apply stops_bind; [apply (stops_quiet 1), steps_input|]. intros proceed.
      apply stops_if; apply (stops_quiet 0); [apply steps_raise|apply steps_ret]. }
    intros _. unfold Publish.upload_to_pypi.
    apply stops_bind; [apply (stops_quiet 1), steps_input|]. intros proceed.
    apply stops_if; [|apply (stops_quiet 0), steps_ret].
    apply stops_bind; [apply stops_run_command|]. intros _.
    apply (stops_quiet 0), steps_ret. }
  intros _. apply stops_bind.
  { apply stops_if; apply (stops_quiet 0), steps_ret. }
  intros _. apply stops_bind.
  { apply stops_if; apply (stops_quiet 0); [apply steps_raise|apply steps_ret]. }
  intros _. apply (stops_quiet 0), steps_ret.
Qed.

End Failure.

Section Checked.
Context {E : Type} (w : world E).
Variables (sys_platform : E -> str) (shell : str -> list str).

Lemma env_after_app (e : E) (l1 l2 : list event) :
  env_after w e (l1 ++ l2) = env_after w (env_after w e l1) l2.
Proof. apply foldl_app. Qed.

Section Tracks.
Variable P : event -> Prop.

Lemma tracks_ret {A} (x : A) : tracks w P (ret (E:=E) x).
Proof. intros s. exists []. rewrite app_nil_r. by split_and!. Qed.

Lemma tracks_raise {A} x : tracks w P (raise (E:=E) (A:=A) x).
Proof. intros s. exists []. rewrite app_nil_r. by split_and!. Qed.

Lemma tracks_observe {A} (f : E -> A) : tracks w P (observe f).
Proof. intros s. exists []. rewrite app_nil_r. by split_and!. Qed.

Lemma tracks_input : tracks w P (input (E:=E)).
Proof. intros [e [|l ls] tr]; exists []; rewrite app_nil_r; by split_and!. Qed.

Lemma tracks_subprocess_run cmd inp :
  P (Spawn cmd inp) -> tracks w P (subprocess_run w cmd inp).
Proof.
  intros Hev s. unfold subprocess_run. destruct (which w (env s) (hd [] cmd)).
  - exists [Spawn cmd inp]. split_and!; [done|done|by constructor].
  - exists []. rewrite app_nil_r. by split_and!.
Qed.

Lemma tracks_bind {A B} (m : M E A) (f : A -> M E B) :
  tracks w P m -> (forall x, tracks w P (f x)) -> tracks w P (bind m f).
Proof.
  intros Hm Hf s. unfold bind. destruct (Hm s) as (evs1 & H1 & He1 & Hall1).
  destruct (m s) as [[x|x] s1]; cbn [fst snd] in *.
  - destruct (Hf x s1) as (evs2 & H2 & He2 & Hall2).
    exists (evs1 ++ evs2). split_and!.
    + by rewrite H2, H1, app_assoc.
    + by rewrite He2, He1, env_after_app.
    + by apply Forall_app.
  - by exists evs1.
Qed.

Lemma tracks_if {A} (c : bool) (m1 m2 : M E A) :
  tracks w P m1 -> tracks w P m2 -> tracks w P (if c then m1 else m2).
Proof. by destruct c. Qed.

Lemma tracks_for_each {A B} (f : A -> M E B) (l : list A) :
  (forall x, tracks w P (f x)) -> tracks w P (for_each f l).
Proof.
  intros Hf. induction l as [|x l IH]; cbn [for_each]; [apply tracks_ret|].
  apply tracks_bind; [apply Hf|]. intros y.
  apply tracks_bind; [apply IH|]. intros ys. apply tracks_ret.
Qed.

End Tracks.

(** Where two lists with a command in the second meet. *)
Lemma app_eq_app_cons (l1 l2 before after : list event) (ev : event) :
  l1 ++ l2 = before ++ ev :: after ->
  (exists mid, l1 = before ++ ev :: mid /\ after = mid ++ l2)
  \/ (exists mid, before = l1 ++ mid /\ l2 = mid ++ ev :: after).
Proof.
  revert before. induction l1 as [|x l1 IH]; intros before Heq.
  - right. by exists before.
  - destruct before as [|y before]; simplify_eq/=.
    + left. by exists l1.
    + destruct (IH _ H0) as [(mid & -> & ->)|(mid & -> & ->)].
      * left. by exists mid.
      * right. by exists mid.
Qed.

Lemma checks_quiet {A} (m : M E A) : tracks w (unchecked shell) m -> checks_commands w shell m.
Proof.
  intros Hm s. destruct (Hm s) as (evs & Htr & Henv & Hall).
  exists evs. split_and!; [done|done|].
  intros before cmd after -> Hcmd _. exfalso.
  apply Forall_app in Hall as [_ Hall]. apply Forall_cons in Hall as [Hev _].
  by apply (Hev cmd).
Qed.

Lemma checks_bind {A B} (m : M E A) (f : A -> M E B) :
  checks_commands w shell m -> (forall x, checks_commands w shell (f x)) ->
  checks_commands w shell (bind m f).
Proof.
  intros Hm Hf s. unfold bind. destruct (Hm s) as (evs1 & Htr1 & He1 & Hfail1).
  destruct (m s) as [[x|x] s1]; cbn [fst snd] in *.
  - destruct (Hf x s1) as (evs2 & Htr2 & He2 & Hfail2).
    exists (evs1 ++ evs2). split_and!.
    + by rewrite Htr2, Htr1, app_assoc.
    + by rewrite He2, He1, env_after_app.
    + intros before cmd after Heq Hcmd Hrc.
      apply app_eq_app_cons in Heq as [(mid & -> & ->)|(mid & -> & ->)].
      * by destruct (Hfail1 before cmd mid eq_refl Hcmd Hrc).
      * rewrite env_after_app, <- He1 in Hrc.
        exact (Hfail2 mid cmd after eq_refl Hcmd Hrc).
  - exists evs1. split_and!; [done|done|]. intros before cmd after Heq Hcmd Hrc.
    destruct (Hfail1 before cmd after Heq Hcmd Hrc) as [Hres Hlast].
    injection Hres as ->. by split.
Qed.

Lemma checks_if {A} (c : bool) (m1 m2 : M E A) :
  checks_commands w shell m1 -> checks_commands w shell m2 ->
  checks_commands w shell (if c then m1 else m2).
Proof. by destruct c. Qed.

Lemma checks_run_command (cmd d : str) :
  checks_commands w shell (Publish.run_command w shell cmd d).
Proof.
  intros s. unfold Publish.run_command, Publish.shell_run, subprocess_run, sys_exit, raise.
  step. destruct (which w (env s) (hd [] (shell cmd))); step.
  2: { exists []. rewrite app_nil_r. split_and!; [by destruct s|done|].
       by intros [|? ?] ? ? ?. }
  destruct (returncode _ =? 0)%Z eqn:Hrc; step; rewrite <- !app_assoc; cbn [app];
    eexists; (split_and!; [reflexivity|reflexivity|]);
    intros before cmd' after Heq _ Hrc'.
  - exfalso. destruct before as [|ev [|ev' [|? ?]]]; simplify_eq/=.
    apply Z.eqb_eq in Hrc. congruence.
  - destruct before as [|ev [|ev' [|? ?]]]; simplify_eq/=.
    split; [done|]. by eexists.
Qed.

Hypothesis shell_inj : forall cmd1 cmd2, shell cmd1 = shell cmd2 -> cmd1 = cmd2.

Lemma unchecked_print m : unchecked shell (Print m).
Proof. by intros cmd _. Qed.

Lemma unchecked_pip_show package :
  unchecked shell (Spawn (shell (lit "pip show " ++ package)) None).
Proof.
  intros cmd Hcmd [= Heq%shell_inj]. subst cmd.
  destruct Hcmd as [H|[H|[H|[missing H]]]]; by vm_compute in H.
Qed.

Lemma unchecked_rm d : unchecked shell (Spawn (shell (lit "rm -rf " ++ d)) None).
Proof.
  intros cmd Hcmd [= Heq%shell_inj]. subst cmd.
  destruct Hcmd as [H|[H|[H|[missing H]]]]; by vm_compute in H.
Qed.

Lemma unchecked_rmdir d :
  unchecked shell (Spawn (shell (lit "rmdir /s /q " ++ d)) None).
Proof.
  intros cmd Hcmd [= Heq%shell_inj]. subst cmd.
  destruct Hcmd as [H|[H|[H|[missing H]]]]; by vm_compute in H.
Qed.

Ltac tracked :=
  repeat first
    [ apply tracks_ret | apply tracks_raise | apply tracks_observe | apply tracks_input
    | apply tracks_if
    | apply tracks_subprocess_run;
      first [apply unchecked_pip_show | apply unchecked_rm | apply unchecked_rmdir]
    | apply tracks_bind; [|intros ?]
    | apply tracks_for_each; intros ? ].

Lemma checks_main : checks_commands w shell (Publish.main w sys_platform shell).
Proof.
  unfold Publish.main.
  apply checks_bind; [apply checks_quiet, tracks_input|]. intros reply. cbv zeta.
  apply checks_if; [apply checks_quiet, tracks_raise|].
  apply checks_bind.
  { apply checks_if; [|apply checks_quiet, tracks_ret].
    apply checks_bind.
    { unfold Publish.check_requirements, Publish.shell_run.
      apply checks_bind; [apply checks_quiet; tracked|]. intros shown. cbv zeta.
      apply checks_if; [|apply checks_quiet, tracks_ret].
      apply checks_bind; [apply checks_quiet, tracks_input|]. intros install.
      apply checks_if; [|apply checks_quiet, tracks_raise].
      apply checks_bind; [apply checks_run_command|]. intros _.
      apply checks_quiet, tracks_ret. }
    intros _. apply checks_bind.
    { unfold Publish.clean_build, Publish.shell_run. apply checks_quiet. tracked. }
    intros _. unfold Publish.build_package.
    apply checks_bind; [apply checks_run_command|]. intros _.
    apply checks_quiet, tracks_ret. }
  intros _. apply checks_bind.
  { apply checks_if; [|apply checks_quiet, tracks_ret].
    unfold Publish.upload_to_test_pypi.
    apply checks_bind; [apply checks_quiet, tracks_input|]. intros proceed.
    apply checks_if; [|apply checks_quiet, tracks_ret].
    apply checks_bind; [apply checks_run_command|]. intros _.
    apply checks_quiet, tracks_ret. }
  intros _. apply checks_bind.
  { apply checks_if; [|apply checks_quiet, tracks_ret].
    apply checks_bind.
    { apply checks_if; [|apply checks_quiet, tracks_ret].
      apply checks_bind; [apply checks_quiet, tracks_input|]. intros proceed.
      apply checks_if; apply checks_quiet; [apply tracks_raise|apply tracks_ret]. }
    intros _. unfold Publish.upload_to_pypi.
    apply checks_bind; [apply checks_quiet, tracks_input|]. intros proceed.
    apply checks_if; [|apply checks_quiet, tracks_ret].
    apply checks_bind; [apply checks_run_command|]. intros _.
    apply checks_quiet, tracks_ret. }
  intros _. apply checks_bind.
  { apply checks_if; apply checks_quiet, tracks_ret. }
  intros _. apply checks_bind.
  { apply checks_if; apply checks_quiet; [apply tracks_raise|apply tracks_ret]. }
  intros _. apply checks_quiet, tracks_ret.
Qed.

End Checked.

(** In publish.py the four command lines that go through [run_command] are
    checked: the installation of the missing packages, the build and the
    two uploads. When one of them has been run, in the surroundings that
    the events before it have made, and has exited with another status than
    0, all that follows it is the report of the failure, and the program
    ends with the exit status 1 whatever the status of the command. So a
    build that fails is not uploaded, and a failed upload to Test PyPI is
    not followed by the upload to PyPI. A report of a failure is in any
    case the last thing that happens. The command lines are told apart by
    what the shell is launched with. *)
Theorem failed_command_ends_publish
    {E : Type} (w : world E) (sys_platform : E -> str) (shell : str -> list str)
    (s : state E) :
  (forall cmd1 cmd2, shell cmd1 = shell cmd2 -> cmd1 = cmd2) ->
  let run := Publish.publish_py w sys_platform shell s in
  exists evs,
    trace run.2 = trace s ++ evs
    /\ (forall before cmd after,
          evs = before ++ Spawn (shell cmd) None :: after ->
          checked_command cmd ->
          returncode (spawn w (env_after w (env s) before) (shell cmd) None) <> 0%Z ->
          run.1 = 1%Z /\ exists d, after = [Print (ErrFailed d)])
    /\ (forall d, In (Print (ErrFailed d)) evs ->
          run.1 = 1%Z /\ exists before, evs = before ++ [Print (ErrFailed d)]).
Proof.
  intros Hinj run. subst run. unfold Publish.publish_py.
  destruct (stops_main w sys_platform shell s) as (evs & Htr & Hfail).
  destruct (checks_main w sys_platform shell Hinj s) as (evs' & Htr' & _ & Hchk).
  assert (evs' = evs) as ->.
  { rewrite Htr in Htr'. by apply app_inv_head in Htr'. }
  exists evs.
  destruct (Publish.main w sys_platform shell s) as [[u|x] s']; cbn [fst snd] in *.
  - split_and!; [done| |].
    + intros before cmd after Heq Hcmd Hrc.
      by destruct (Hchk before cmd after Heq Hcmd Hrc).
    + intros d Hin. by destruct (Hfail d Hin).
  - split_and!; [by destruct x| |].
    + intros before cmd after Heq Hcmd Hrc.
      destruct (Hchk before cmd after Heq Hcmd Hrc) as ([= ->] & Hlast). by split.
    + intros d Hin. destruct (Hfail d Hin) as ([= ->] & Hlast). by split.
Qed.

Lemma failed_command_ends_publish_witness :
  let run := posix_publish failing_build_box [lit "3"; lit "y"] in
  run.1 = 1%Z
  /\ trace run.2 = [Spawn (posix_shell (lit "pip show build")) None;
                    Spawn (posix_shell (lit "pip show twine")) None;
                    Spawn (posix_shell Publish.build_cmd) None;
                    Print (ErrFailed (lit "Building package"))]
  /\ stdin run.2 = [lit "y"].
Proof.
  intros run.
  destruct (failed_command_ends_publish (box_world repo failing_build_box) on_linux
              posix_shell (start [lit "3"; lit "y"]))
    as (evs & Htr & Hchk & _).
  { intros cmd1 cmd2 Heq. by injection Heq. }
  destruct (Hchk [Spawn (posix_shell (lit "pip show build")) None;
                  Spawn (posix_shell (lit "pip show twine")) None]
              Publish.build_cmd [Print (ErrFailed (lit "Building package"))])
    as [Hstatus _].
  - change (trace (start [lit "3"; lit "y"]) ++ evs) with evs in Htr.
    rewrite <- Htr. vm_compute. reflexivity.
  - by left.
  - vm_compute. discriminate.
  - split; [exact Hstatus|]. split; vm_compute; reflexivity.
Defined.

(** publish.py as release.py drives it, with the one line [1] typed, on a
    machine where the shell is at hand and [pip show] does not find build or
    does not find twine: the question whether to install what is missing
    finds nothing to read, and the program ends with status 1 after the two
    [pip show]. Nothing is installed, cleaned or built. *)
Theorem publish_build_without_operator
    {E : Type} (w : world E) (sys_platform : E -> str) (shell : str -> list str)
    (s : state E) (reply : str) :
  let show_build := Spawn (shell (lit "pip show build")) None in
  let show_twine := Spawn (shell (lit "pip show twine")) None in
  let e1 := effect w (env s) show_build in
  let e2 := effect w e1 show_twine in
  stdin s = [reply] ->
  strip reply = lit "1" ->
  (forall e cmd, which w e (hd [] (shell cmd)) = true) ->
  returncode (spawn w (env s) (shell (lit "pip show build")) None) <> 0%Z
  \/ returncode (spawn w e1 (shell (lit "pip show twine")) None) <> 0%Z ->
  Publish.publish_py w sys_platform shell s
  = (1%Z, State e2 [] (trace s ++ [show_build; show_twine])).
Proof.
  intros show_build show_twine e1 e2 Hin Hchoice Hsh Hmissing.
  destruct s as [e typed tr]. cbn [stdin env trace] in *. subst typed.
  unfold Publish.publish_py, Publish.main. rewrite bind_run, input_run.
  cbn [env stdin trace]. cbv zeta. rewrite Hchoice.
  change (str_eqb (lit "1") (lit "0")) with false.
  change (str_in (lit "1") [lit "1"; lit "2"; lit "3"; lit "5"]) with true.
  cbv iota.
  unfold Publish.check_requirements, Publish.required, Publish.shell_run.
  cbn [for_each]. step.
  change (lit "pip show " ++ lit "build") with (lit "pip show build").
  change (lit "pip show " ++ lit "twine") with (lit "pip show twine").
  rewrite subprocess_run_found by apply Hsh. step.
  rewrite subprocess_run_found by apply Hsh. step.
  fold show_build show_twine e1 e2.
  assert (nonempty_list
            (List.map fst
               (List.filter snd
                  [(lit "build",
                    negb (returncode (spawn w e (shell (lit "pip show build")) None) =? 0)%Z);
                   (lit "twine",
                    negb (returncode (spawn w e1 (shell (lit "pip show twine")) None)
                          =? 0)%Z)]))
          = true) as Hne.
  { cbn [List.filter snd].
    destruct Hmissing as [H|H]; apply Z.eqb_neq in H; rewrite H; cbn [negb]; [done|].
    by destruct (negb _). }
  rewrite Hne. step. by rewrite <- app_assoc.
Qed.

Lemma publish_build_without_operator_witness :
  posix_publish bare_box [lit "1"]
  = (1%Z, State tt [] ([] ++ [Spawn (posix_shell (lit "pip show build")) None;
                              Spawn (posix_shell (lit "pip show twine")) None])).
Proof.
  apply (publish_build_without_operator (box_world repo bare_box) on_linux posix_shell
           (start [lit "1"]) (lit "1")).
  - reflexivity.
  - reflexivity.
  - intros e cmd. reflexivity.
  - left. vm_compute. discriminate.
Defined.

(** The choices of publish.py that run nothing. Without a line to read the
    program ends with status 1. Choice 0 and choice 4, which only prints the
    instructions for a release, end with status 0. Any other line than 0 to 5
    (blanks around it apart) is refused with status 1, and only at the end of
    [main], after every step has been passed over. *)
Theorem publish_choices_without_effect
    {E : Type} (w : world E) (sys_platform : E -> str) (shell : str -> list str)
    (s : state E) :
  let run := Publish.publish_py w sys_platform shell s in
  match stdin s with
  | [] => run = (1%Z, s)
  | reply :: rest =>
      let choice := strip reply in
      let left := State (env s) rest (trace s) in
      (choice = lit "0" -> run = (0%Z, left))
      /\ (choice = lit "4" -> run = (0%Z, left))
      /\ (~ In choice [lit "0"; lit "1"; lit "2"; lit "3"; lit "4"; lit "5"] ->
          run = (1%Z, left))
  end.
Proof.
  intros run. subst run. unfold Publish.publish_py, Publish.main.
  destruct s as [e [|reply rest] tr]; cbn [stdin env trace].
  { by rewrite bind_run, input_eof. }
  rewrite bind_run, input_run. cbn [env stdin trace]. cbv zeta.
  split_and!.
  - intros ->. reflexivity.
  - intros ->. reflexivity.
  - intros Hnot.
    assert (forall x, In x [lit "0"; lit "1"; lit "2"; lit "3"; lit "4"; lit "5"] ->
                      str_eqb (strip reply) x = false) as Hne.
    { intros x Hx. unfold str_eqb. apply bool_decide_eq_false. by intros <-. }
    unfold str_in. cbn [existsb].
    rewrite !Hne by (cbn; tauto). cbn [orb negb].
    unfold Publish.create_github_release, sys_exit, raise. by step.
Qed.

Lemma publish_choices_without_effect_witness :
  posix_publish shell_box [lit "4 "; lit "y"] = (0%Z, State tt [lit "y"] []).
Proof.
  destruct (publish_choices_without_effect (box_world repo shell_box) on_linux
              posix_shell (start [lit "4 "; lit "y"])) as (_ & H & _).
  apply H. reflexivity.
Defined.
